(** * GitHub-to-social automation: a shallow embedding of the event pipeline

    The development follows the Python package module by module
    ([config], [event_manager], [github_handler], [ai_processor],
    [linkedin_poster], [scheduler], [app]).

    Conventions of the embedding.
    - A Python [str] is a Rocq [string], one character per code point; the
      alphabet is the range U+0000..U+00FF.  [bytes] are [list byte].
    - A function that may raise returns a [result]; the exception classes
      that the code distinguishes in its [except] clauses are constructors
      of [exn].
    - Parsed JSON (payloads, events, HTTP bodies) is the inductive [json];
      a Python dict is an association list in insertion order.
    - The working directory is a finite map from file names to [node]s.
      Text files are written and read as on a POSIX system: a newline is
      stored as it is written, and reading translates every carriage
      return, with or without a line feed after it, to a newline.
    - Everything outside the process (the clock, the disk's willingness to
      accept a write or a rename, HTTP endpoints, the language model, the
      person who edits a review file) is an explicit argument. *)

From stdpp Require Import gmap strings list.
From Stdlib Require Import ZArith Ascii String DecimalString Floats Permutation.
From Stdlib.Strings Require Import Byte.

Open Scope string_scope.
Open Scope list_scope.
Open Scope Z_scope.

(* ===================================================================== *)
(** ** Exceptions and the result type *)
(* ===================================================================== *)

Inductive exn : Type :=
| KeyError (key : string)
| AttributeError
| TypeError
| IndexError
| ValueError
| JSONDecodeError
| UnicodeEncodeError
| UnicodeDecodeError
| OSError
| FileNotFoundError
| HTTPError (status : Z)
| RequestException
| RequestsJSONDecodeError
| HTTPException.

(** [except ValueError]: JSON and Unicode errors derive from it. *)
Definition is_ValueError (e : exn) : bool :=
  match e with
  | ValueError | JSONDecodeError | UnicodeEncodeError | UnicodeDecodeError
  | RequestsJSONDecodeError => true
  | _ => false
  end.

(** [except requests.RequestException]. *)
Definition is_RequestException (e : exn) : bool :=
  match e with
  | HTTPError _ | RequestException | RequestsJSONDecodeError => true
  | _ => false
  end.

(** [except IOError] / [except OSError] (one class in Python 3; the
    [requests] exceptions derive from it). *)
Definition is_OSError (e : exn) : bool :=
  match e with
  | OSError | FileNotFoundError => true
  | _ => is_RequestException e
  end.

Inductive result (A : Type) : Type :=
| Ok (a : A)
| Raise (e : exn).
Arguments Ok {A} a.
Arguments Raise {A} e.

#[global] Instance result_ret : MRet result := fun A a => Ok a.
#[global] Instance result_bind : MBind result := fun A B k r =>
  match r with
  | Ok a => k a
  | Raise e => Raise e
  end.

Definition returns {A} (r : result A) : Prop := exists a, r = Ok a.

(* ===================================================================== *)
(** ** The fragment of Python's [str] that the code uses *)
(* ===================================================================== *)

Module Str.

Definition code (c : ascii) : Z := Z.of_N (N_of_ascii c).

(** [s.startswith(p)] *)
Fixpoint startswith (p s : string) : bool :=
  match p, s with
  | EmptyString, _ => true
  | String a p', String b s' => Ascii.eqb a b && startswith p' s'
  | String _ _, EmptyString => false
  end.

(** [sub in s] *)
Fixpoint contains (sub s : string) : bool :=
  startswith sub s ||
  match s with
  | EmptyString => false
  | String _ s' => contains sub s'
  end.

(** [s.replace(old, new)] for a non-empty [old]: occurrences are found
    from the left and do not overlap.  [skip] counts the characters of
    the occurrence just matched that remain to be dropped. *)
Fixpoint replace_from (old new : string) (skip : nat) (s : string) : string :=
  match s with
  | EmptyString => EmptyString
  | String c s' =>
      match skip with
      | S k => replace_from old new k s'
      | O =>
          if startswith old s
          then new +:+ replace_from old new (Nat.pred (String.length old)) s'
          else String c (replace_from old new O s')
      end
  end.

Definition replace (old new s : string) : string := replace_from old new O s.

(** [s.split(sep)] for a one-character separator. *)
Fixpoint split (sep : ascii) (s : string) : list string :=
  match s with
  | EmptyString => [EmptyString]
  | String c s' =>
      if Ascii.eqb c sep then EmptyString :: split sep s'
      else
        match split sep s' with
        | w :: ws => String c w :: ws
        | [] => [String c EmptyString]
        end
  end.

(** [sep.join(l)] *)
Fixpoint join (sep : string) (l : list string) : string :=
  match l with
  | [] => EmptyString
  | [x] => x
  | x :: rest => x +:+ sep +:+ join sep rest
  end.

(** [c.isspace()] on U+0000..U+00FF. *)
Definition isspace (c : ascii) : bool :=
  let n := code c in
  ((9 <=? n) && (n <=? 13)) || ((28 <=? n) && (n <=? 32))
  || (n =? 133) || (n =? 160).

Fixpoint lstrip (s : string) : string :=
  match s with
  | EmptyString => EmptyString
  | String c s' => if isspace c then lstrip s' else s
  end.

(** Drops trailing white space; the result keeps a character exactly
    when something other than white space follows or it is not white
    space itself. *)
Fixpoint rstrip (s : string) : string :=
  match s with
  | EmptyString => EmptyString
  | String c s' =>
      match rstrip s' with
      | EmptyString => if isspace c then EmptyString else String c EmptyString
      | r => String c r
      end
  end.

(** [s.strip()] *)
Definition strip (s : string) : string := rstrip (lstrip s).

(** [s.isascii()] *)
Fixpoint isascii (s : string) : bool :=
  match s with
  | EmptyString => true
  | String c s' => (code c <? 128) && isascii s'
  end.

(** [s.encode()] (UTF-8) on U+0000..U+00FF, as byte values. *)
Fixpoint encode (s : string) : list Z :=
  match s with
  | EmptyString => []
  | String c s' =>
      let n := code c in
      if n <? 128 then n :: encode s'
      else (192 + n / 64) :: (128 + n mod 64) :: encode s'
  end.

(** [c * n] *)
Fixpoint repeat (c : ascii) (n : nat) : string :=
  match n with
  | O => EmptyString
  | S k => String c (repeat c k)
  end.

(** [str(n)] for a natural number and for an integer. *)
Definition of_nat (n : nat) : string := NilZero.string_of_uint (Nat.to_uint n).
Definition of_Z (z : Z) : string := NilZero.string_of_int (Z.to_int z).

(** [f"{n:0{w}d}"] *)
Definition zfill (w n : nat) : string :=
  let d := of_nat n in
  repeat "0"%char (w - String.length d) +:+ d.


(** [f.read()] on a file opened with [open(name, 'r')]: universal
    newlines.  A carriage return is read as a newline, and a line feed
    that directly follows a carriage return is dropped. *)
Fixpoint universal_newlines (after_cr : bool) (s : string) : string :=
  match s with
  | EmptyString => EmptyString
  | String c s' =>
      if Ascii.eqb c "013"%char then String "010"%char (universal_newlines true s')
      else if Ascii.eqb c "010"%char && after_cr then universal_newlines false s'
      else String c (universal_newlines false s')
  end.

Definition read_text (on_disk : string) : string := universal_newlines false on_disk.

End Str.

(* ===================================================================== *)
(** ** [hashlib.sha256] and [hmac] (FIPS 180-4, RFC 2104) *)
(* ===================================================================== *)

Module SHA256.

Definition w32 (x : Z) : Z := x mod 4294967296.
Definition add32 (x y : Z) : Z := w32 (x + y).
Definition rotr (n x : Z) : Z := Z.lor (Z.shiftr x n) (w32 (Z.shiftl x (32 - n))).
Definition not32 (x : Z) : Z := 4294967295 - x.

Definition Ch (x y z : Z) : Z := Z.lxor (Z.land x y) (Z.land (not32 x) z).
Definition Maj (x y z : Z) : Z :=
  Z.lxor (Z.lxor (Z.land x y) (Z.land x z)) (Z.land y z).
Definition bsig0 (x : Z) : Z := Z.lxor (Z.lxor (rotr 2 x) (rotr 13 x)) (rotr 22 x).
Definition bsig1 (x : Z) : Z := Z.lxor (Z.lxor (rotr 6 x) (rotr 11 x)) (rotr 25 x).
Definition ssig0 (x : Z) : Z := Z.lxor (Z.lxor (rotr 7 x) (rotr 18 x)) (Z.shiftr x 3).
Definition ssig1 (x : Z) : Z := Z.lxor (Z.lxor (rotr 17 x) (rotr 19 x)) (Z.shiftr x 10).

(** The round constants and the initial hash value are the first 32
    bits of the fractional parts of the cube roots of the first 64
    primes, and of the square roots of the first 8. *)
Definition is_prime (n : nat) : bool :=
  forallb (fun d => negb (Nat.eqb (Nat.modulo n d) 0)) (seq 2 (n - 2)).

Definition primes : list Z := map Z.of_nat (filter is_prime (seq 2 310)).

(** The integer cube root below [2^(length bits)], one bit at a time. *)
Fixpoint cube_root (bits : nat) (n r : Z) : Z :=
  match bits with
  | O => r
  | S b =>
      let r' := r + 2 ^ Z.of_nat b in
      cube_root b n (if r' * r' * r' <=? n then r' else r)
  end.

Definition K : list Z :=
  map (fun p => w32 (cube_root 36 (p * 2 ^ 96) 0)) primes.

Definition H0 : list Z :=
  map (fun p => w32 (Z.sqrt (p * 2 ^ 64))) (take 8 primes).

Definition word (w : list Z) (i : nat) : Z := nth i w 0.

(** One round on the working variables [a..h] (kept as a list). *)
Definition round (v : list Z) (k wt : Z) : list Z :=
  let a := word v 0 in let b := word v 1 in let c := word v 2 in
  let d := word v 3 in let e := word v 4 in let f := word v 5 in
  let g := word v 6 in let h := word v 7 in
  let t1 := add32 (add32 (add32 (add32 h (bsig1 e)) (Ch e f g)) k) wt in
  let t2 := add32 (bsig0 a) (Maj a b c) in
  [add32 t1 t2; a; b; c; add32 d t1; e; f; g].

(** The message schedule is a window of sixteen words, oldest first. *)
Definition next_word (w : list Z) : Z :=
  add32 (add32 (add32 (ssig1 (word w 14)) (word w 9)) (ssig0 (word w 1))) (word w 0).

Fixpoint rounds (ks w v : list Z) : list Z :=
  match ks with
  | [] => v
  | k :: ks' => rounds ks' (tl w ++ [next_word w]) (round v k (word w 0))
  end.

Definition compress (h block : list Z) : list Z :=
  zip_with add32 h (rounds K block h).

(** Big-endian words of a byte sequence whose length is a multiple of 4. *)
Fixpoint words_of (bs : list Z) : list Z :=
  match bs with
  | b0 :: b1 :: b2 :: b3 :: rest =>
      (b0 * 16777216 + b1 * 65536 + b2 * 256 + b3) :: words_of rest
  | _ => []
  end.

Fixpoint be_bytes (n : nat) (x : Z) : list Z :=
  match n with
  | O => []
  | S k => be_bytes k (x / 256) ++ [x mod 256]
  end.

Definition pad (msg : list Z) : list Z :=
  let len := Z.of_nat (List.length msg) in
  let zeros := Z.to_nat ((55 - len) mod 64) in
  msg ++ [128] ++ replicate zeros 0 ++ be_bytes 8 (8 * len).

Fixpoint blocks (n : nat) (ws h : list Z) : list Z :=
  match n with
  | O => h
  | S k => blocks k (drop 16 ws) (compress h (take 16 ws))
  end.

Definition digest (msg : list Z) : list Z :=
  let ws := words_of (pad msg) in
  flat_map (be_bytes 4) (blocks (Nat.div (List.length ws) 16) ws H0).

Definition hmac (key msg : list Z) : list Z :=
  let k0 := if (64 <? Z.of_nat (List.length key)) then digest key else key in
  let k := k0 ++ replicate (64 - List.length k0)%nat 0 in
  digest (map (Z.lxor 92) k ++ digest (map (Z.lxor 54) k ++ msg)).

Definition hex_digit (n : nat) : ascii :=
  match n with
  | 0 => "0" | 1 => "1" | 2 => "2" | 3 => "3" | 4 => "4" | 5 => "5"
  | 6 => "6" | 7 => "7" | 8 => "8" | 9 => "9" | 10 => "a" | 11 => "b"
  | 12 => "c" | 13 => "d" | 14 => "e" | _ => "f"
  end%nat%char.

(** [.hexdigest()] *)
Fixpoint hex (bs : list Z) : string :=
  match bs with
  | [] => EmptyString
  | b :: rest =>
      String (hex_digit (Z.to_nat (b / 16 mod 16)))
        (String (hex_digit (Z.to_nat (b mod 16))) (hex rest))
  end.

Definition bytes_in (data : list byte) : list Z :=
  map (fun b => Z.of_N (Byte.to_N b)) data.

End SHA256.

(* ===================================================================== *)
(** ** Parsed JSON and the Python operations applied to it *)
(* ===================================================================== *)

#[warnings="-register-all"]
Inductive json : Type :=
| JNull
| JBool (b : bool)
| JInt (n : Z)
| JFloat (f : float)
| JStr (s : string)
| JList (l : list json)
| JDict (d : list (string * json)).

Definition nl : string := String "010"%char EmptyString.

Module Py.

(** Library behaviour that the code relies on without fixing it:
    [repr] is [str()] of floats and containers, [title] is [str.title],
    [dumps] is the text written by [json.dump(_, indent=2,
    ensure_ascii=False)], [set_list] is [list(set(l))] on hashable
    values, and [set_iter] is the order in which a [set] of strings is
    iterated (it depends on the interpreter's hash seed). *)
Record lib : Type := {
  repr : json -> string;
  title : string -> string;
  dumps : json -> string;
  set_list : list json -> list json;
  set_iter : list string -> list string;
  set_iter_NoDup : forall l, NoDup (set_iter l);
  set_iter_elem : forall l x, x ∈ set_iter l <-> x ∈ l
}.

(** [bool(v)] *)
Definition truthy (v : json) : bool :=
  match v with
  | JNull => false
  | JBool b => b
  | JInt n => negb (n =? 0)
  | JFloat f => negb (PrimFloat.eqb f 0%float)
  | JStr EmptyString => false
  | JStr (String _ _) => true
  | JList [] => false
  | JList (_ :: _) => true
  | JDict [] => false
  | JDict (_ :: _) => true
  end.

(** Truth value of an optional string ([None] and [""] are false). *)
Definition nonempty (o : option string) : bool :=
  match o with
  | Some (String _ _) => true
  | _ => false
  end.

Fixpoint lookup (d : list (string * json)) (k : string) : option json :=
  match d with
  | [] => None
  | (k', v) :: rest => if String.eqb k' k then Some v else lookup rest k
  end.

(** [v.get(k, default)] *)
Definition get (v : json) (k : string) (default : json) : result json :=
  match v with
  | JDict d => Ok (match lookup d k with Some x => x | None => default end)
  | _ => Raise AttributeError
  end.

(** [v[k]] with a string key *)
Definition getitem (v : json) (k : string) : result json :=
  match v with
  | JDict d =>
      match lookup d k with
      | Some x => Ok x
      | None => Raise (KeyError k)
      end
  | _ => Raise TypeError
  end.

(** [len(v)] *)
Definition len (v : json) : result nat :=
  match v with
  | JStr s => Ok (String.length s)
  | JList l => Ok (List.length l)
  | JDict d => Ok (List.length d)
  | _ => Raise TypeError
  end.

(** [v.replace(old, new)] *)
Definition str_replace (v : json) (old new : string) : result string :=
  match v with
  | JStr s => Ok (Str.replace old new s)
  | _ => Raise AttributeError
  end.

(** [v.title()] *)
Definition str_title (L : lib) (v : json) : result string :=
  match v with
  | JStr s => Ok (title L s)
  | _ => Raise AttributeError
  end.

(** [f"{v}"] *)
Definition str (L : lib) (v : json) : string :=
  match v with
  | JStr s => s
  | JNull => "None"
  | JBool true => "True"
  | JBool false => "False"
  | JInt n => Str.of_Z n
  | _ => repr L v
  end.

(** Elements of a [set] or a [str.join] argument must be strings. *)
Definition as_str (v : json) : result string :=
  match v with
  | JStr s => Ok s
  | _ => Raise TypeError
  end.

(** A list comprehension whose element expression may raise. *)
Fixpoint comprehension {A B} (f : A -> result B) (l : list A) : result (list B) :=
  match l with
  | [] => Ok []
  | x :: rest => y ← f x; ys ← comprehension f rest; Ok (y :: ys)
  end.


(** The value of a finite float as [m * 2^e]. *)
Definition float_value (f : float) : option (Z * Z) :=
  match Prim2SF f with
  | S754_zero _ => Some (0, 0)
  | S754_finite s m e => Some (if s then Z.neg m else Z.pos m, e)
  | _ => None
  end.

Definition float_eq_int (f : float) (n : Z) : bool :=
  match float_value f with
  | Some (m, e) => if 0 <=? e then m * 2 ^ e =? n else m =? n * 2 ^ (- e)
  | None => false
  end.

(** [bool] and [int] as integers. *)
Definition as_int (v : json) : option Z :=
  match v with
  | JBool b => Some (Z.b2z b)
  | JInt n => Some n
  | _ => None
  end.

(** Whether two hashable values are the same dict key: [None] only
    equals [None], strings compare as strings, and booleans, integers
    and floats compare as numbers ([True == 1 == 1.0]).  The decoder
    returns one shared object for every [NaN], which as a key matches
    itself. *)
Definition key_eqb (a b : json) : bool :=
  match a, b with
  | JNull, JNull => true
  | JStr x, JStr y => String.eqb x y
  | JFloat x, JFloat y =>
      PrimFloat.eqb x y || (PrimFloat.is_nan x && PrimFloat.is_nan y)
  | JFloat x, _ => match as_int b with Some n => float_eq_int x n | None => false end
  | _, JFloat y => match as_int a with Some n => float_eq_int y n | None => false end
  | _, _ =>
      match as_int a, as_int b with
      | Some m, Some n => m =? n
      | _, _ => false
      end
  end.

(** Dict keys must be hashable. *)
Definition hashable_key (v : json) : result json :=
  match v with
  | JList _ | JDict _ => Raise TypeError
  | _ => Ok v
  end.

(** [d[k] = d.get(k, 0) + 1] on a dict of counters, kept in insertion
    order. *)
Fixpoint bump (d : list (json * nat)) (k : json) : list (json * nat) :=
  match d with
  | [] => [(k, 1%nat)]
  | (k', n) :: rest =>
      if key_eqb k' k then (k', S n) :: rest else (k', n) :: bump rest k
  end.

(** The elements that [for x in v] visits. *)
Definition iter (v : json) : result (list json) :=
  match v with
  | JList l => Ok l
  | JDict d => Ok (map (fun kv => JStr (fst kv)) d)
  | JStr s => Ok (map (fun c => JStr (String c EmptyString)) (list_ascii_of_string s))
  | _ => Raise TypeError
  end.

End Py.

(* ===================================================================== *)
(** ** The clock *)
(* ===================================================================== *)

Record datetime : Type := {
  year : nat; month : nat; day : nat;
  hour : nat; minute : nat; second : nat; microsecond : nat
}.

(** [strftime('%Y-%m-%d')] (years of four digits) *)
Definition strftime_date (t : datetime) : string :=
  Str.zfill 4 (year t) +:+ "-" +:+ Str.zfill 2 (month t) +:+ "-" +:+ Str.zfill 2 (day t).

(** [strftime('%Y%m%d_%H%M%S')] *)
Definition strftime_stamp (t : datetime) : string :=
  Str.zfill 4 (year t) +:+ Str.zfill 2 (month t) +:+ Str.zfill 2 (day t) +:+ "_"
  +:+ Str.zfill 2 (hour t) +:+ Str.zfill 2 (minute t) +:+ Str.zfill 2 (second t).

(** [isoformat()] *)
Definition isoformat (t : datetime) : string :=
  strftime_date t +:+ "T" +:+ Str.zfill 2 (hour t) +:+ ":" +:+ Str.zfill 2 (minute t)
  +:+ ":" +:+ Str.zfill 2 (second t)
  +:+ match microsecond t with
      | O => EmptyString
      | us => "." +:+ Str.zfill 6 us
      end.

(* ===================================================================== *)
(** ** Files, the network and the other things outside the process *)
(* ===================================================================== *)

(** A file is its text together with what [json.load] makes of it
    ([None]: the text is not JSON); [Unreadable] exists but cannot be
    opened for reading; [Undecodable] holds bytes that are not UTF-8. *)
Inductive node : Type :=
| File (text : string) (parsed : option json)
| Unreadable
| Undecodable.

Inductive write_outcome : Type :=
| Written
| OpenFails (e : exn)
| WriteFails (e : exn) (remains : node).

Inductive rename_error : Type :=
| NoSuchFile
| OtherOSError.

Inductive http_result : Type :=
| NoResponse
| Response (status : Z) (body : option json).

Record groq_client : Type := {
  client_key : string;
  client_custom_http : bool
}.

Record World : Type := {
  (** [open(name, 'w')] followed by writing [text] *)
  disk_write : gmap string node -> string -> string -> write_outcome;
  (** [os.rename(src, dst)] *)
  disk_rename : gmap string node -> string -> string -> option rename_error;
  (** [requests.get(url, headers=...)] *)
  http_get : string -> list (string * string) -> http_result;
  (** [requests.post(url, json=body)], given the posts made so far *)
  http_post : list (string * json) -> string -> json -> http_result;
  (** [Groq(api_key=key)], and with [http_client=httpx.Client()] *)
  groq_new : string -> bool -> option exn;
  httpx_has_Client : bool;
  (** [client.chat.completions.create]: the [message.content] of each choice *)
  chat_create : groq_client -> string -> string -> Z -> result (list (option string));
  (** what happens to the directory during the [n]-th five-minute sleep *)
  during_sleep : nat -> gmap string node -> gmap string node
}.

(* ===================================================================== *)
(** ** config.py *)
(* ===================================================================== *)

Module Config.

Record t : Type := {
  GITHUB_WEBHOOK_SECRET : option string;
  LINKEDIN_ACCESS_TOKEN : option string;
  GROQ_API_KEY : option string;
  REQUIRE_POST_REVIEW : bool;
  PIPEDREAM_WEBHOOK_URL : option string
}.

Definition USE_PIPEDREAM (cfg : t) : bool := Py.nonempty (PIPEDREAM_WEBHOOK_URL cfg).


(** [validate_config], run when the module is imported.  [GITHUB_TOKEN]
    is read by nothing else, so it is an argument here; [getattr] is
    only applied to the names of [required_vars]. *)
Definition required_vars (cfg : t) : list string :=
  ["GITHUB_TOKEN"; "GITHUB_WEBHOOK_SECRET"; "GROQ_API_KEY"]
  ++ (if USE_PIPEDREAM cfg then [] else ["LINKEDIN_ACCESS_TOKEN"]).

Definition getattr (github_token : option string) (cfg : t) (var : string)
  : option string :=
  if String.eqb var "GITHUB_TOKEN" then github_token
  else if String.eqb var "GITHUB_WEBHOOK_SECRET" then GITHUB_WEBHOOK_SECRET cfg
  else if String.eqb var "GROQ_API_KEY" then GROQ_API_KEY cfg
  else LINKEDIN_ACCESS_TOKEN cfg.

Definition validate_config (github_token : option string) (cfg : t) : result bool :=
  let missing :=
    List.filter (fun var => negb (Py.nonempty (getattr github_token cfg var)))
      (required_vars cfg) in
  match missing with
  | [] => Ok true
  | _ => Raise ValueError
  end.

End Config.

(* ===================================================================== *)
(** ** event_manager.py *)
(* ===================================================================== *)

Module EventManager.

Definition events_file (date : string) : string := "events_" +:+ date +:+ ".json".
Definition posted_file (date : string) : string := "posted_events_" +:+ date +:+ ".json".

Definition summarize_event (L : Py.lib) (event_type : string) (payload : json)
  : result string :=
  repo_info ← Py.get payload "repository" (JDict []);
  full_name ← Py.get repo_info "full_name" JNull;
  repo_name ←
    (if Py.truthy full_name then Ok full_name
     else
       name ← Py.get repo_info "name" JNull;
       Ok (if Py.truthy name then name else JStr "unknown-repo"));
  if String.eqb event_type "push" then
    commits ← Py.get payload "commits" (JList []);
    ref ← Py.get payload "ref" (JStr "");
    branch ← Py.str_replace ref "refs/heads/" "";
    n ← Py.len commits;
    Ok ("Pushed " +:+ Str.of_nat n +:+ " commits to " +:+ branch +:+ " in "
        +:+ Py.str L repo_name)
  else if String.eqb event_type "release" then
    release ← Py.get payload "release" (JDict []);
    tag ← Py.get release "tag_name" (JStr "unknown");
    Ok ("Released version " +:+ Py.str L tag +:+ " in " +:+ Py.str L repo_name)
  else if String.eqb event_type "repository" then
    action ← Py.get payload "action" (JStr "updated");
    Ok ("Repository " +:+ Py.str L action +:+ ": " +:+ Py.str L repo_name)
  else if String.eqb event_type "organization" then
    action ← Py.get payload "action" (JStr "updated");
    Ok ("Organization " +:+ Py.str L action)
  else
    Ok (event_type +:+ " event occurred in " +:+ Py.str L repo_name).

(** The dict stored for one event. *)
Definition event_data (event_type timestamp summary : string) (payload : json) : json :=
  JDict [ ("type", JStr event_type); ("timestamp", JStr timestamp);
          ("summary", JStr summary); ("payload", payload) ].

(** The existing bucket as [save_event] reads it: a missing file, a
    file that is not JSON and a file that cannot be opened all give an
    empty list; the [len] in the debug line is evaluated inside the
    [try] and raises for values without a length. *)
Definition existing_events (fs : gmap string node) (filename : string) : result json :=
  match fs !! filename with
  | None => Ok (JList [])
  | Some (File _ (Some v)) => _ ← Py.len v; Ok v
  | Some (File _ None) => Ok (JList [])
  | Some Unreadable => Ok (JList [])
  | Some Undecodable => Raise UnicodeDecodeError
  end.

(** [now_name] and [now_stamp] are the two readings of the clock. *)
Definition save_event (L : Py.lib) (W : World) (now_name now_stamp : datetime)
    (fs : gmap string node) (event_type : string) (payload : json)
  : gmap string node * result unit :=
  let filename := events_file (strftime_date now_name) in
  match summarize_event L event_type payload with
  | Raise e => (fs, Raise e)
  | Ok summary =>
      let ev := event_data event_type (isoformat now_stamp) summary payload in
      match existing_events fs filename with
      | Raise e => (fs, Raise e)
      | Ok (JList old) =>
          let events := JList (old ++ [ev]) in
          let text := Py.dumps L events in
          match disk_write W fs filename text with
          | Written => (<[filename := File text (Some events)]> fs, Ok tt)
          | OpenFails e => (fs, Raise e)
          | WriteFails e remains => (<[filename := remains]> fs, Raise e)
          end
      | Ok _ => (fs, Raise AttributeError)
      end
  end.

Definition date_or_today (date : option string) (now : datetime) : string :=
  match date with
  | Some d => d
  | None => strftime_date now
  end.

Definition load_events (now : datetime) (fs : gmap string node) (date : option string)
  : result json :=
  let filename := events_file (date_or_today date now) in
  match fs !! filename with
  | None => Ok (JList [])
  | Some (File _ (Some events)) => Ok events
  | Some (File _ None) => Ok (JList [])
  | Some Unreadable => Ok (JList [])
  | Some Undecodable => Raise UnicodeDecodeError
  end.

(** What a successful [os.rename] does to the directory. *)
Definition renamed (fs : gmap string node) (src dst : string) : gmap string node :=
  match fs !! src with
  | Some n => <[dst := n]> (delete src fs)
  | None => fs
  end.

Definition archive_events (W : World) (now : datetime) (fs : gmap string node)
    (date : option string) : gmap string node * bool :=
  let d := date_or_today date now in
  let source_filename := events_file d in
  let archive_filename := posted_file d in
  match fs !! source_filename with
  | None => (fs, false)
  | Some _ =>
      match disk_rename W fs source_filename archive_filename with
      | None => (renamed fs source_filename archive_filename, true)
      | Some _ => (fs, false)
      end
  end.


(** The loop that counts events per type (the same loop is in the
    scheduler's [_load_and_validate_events]). *)
Fixpoint count_types (events : list json) (counts : list (json * nat))
  : result (list (json * nat)) :=
  match events with
  | [] => Ok counts
  | event :: rest =>
      event_type ← Py.get event "type" (JStr "unknown");
      key ← Py.hashable_key event_type;
      count_types rest (Py.bump counts key)
  end.

Record stats : Type := {
  total_events : nat;
  event_types : list (json * nat)
}.

Definition get_event_stats (now : datetime) (fs : gmap string node) (date : option string)
  : result stats :=
  events ← load_events now fs date;
  total ← Py.len events;
  items ← Py.iter events;
  counts ← count_types items [];
  Ok {| total_events := total; event_types := counts |}.

End EventManager.

(* ===================================================================== *)
(** ** github_handler.py *)
(* ===================================================================== *)

Module GitHubHandler.

(** [hmac.compare_digest(a, b)] with [a] a string: [b] must be a
    string as well, and both must be ASCII. *)
Definition compare_digest (a : string) (b : option string) : result bool :=
  match b with
  | None => Raise TypeError
  | Some b' =>
      if Str.isascii a && Str.isascii b' then Ok (String.eqb a b')
      else Raise TypeError
  end.

Definition expected_signature (secret : string) (data : list byte) : string :=
  "sha256=" +:+ SHA256.hex (SHA256.hmac (Str.encode secret) (SHA256.bytes_in data)).

(** [signature] is the value of the [X-Hub-Signature-256] header as the
    caller obtains it with [headers.get]: [None] when the header is
    absent. *)
Definition verify_webhook_signature (cfg : Config.t) (data : list byte)
    (signature : option string) : result bool :=
  match Config.GITHUB_WEBHOOK_SECRET cfg with
  | Some (String _ _ as secret) =>
      compare_digest (expected_signature secret data) signature
  | _ => Ok false
  end.

Definition supported_events : list string :=
  ["push"; "release"; "repository"; "organization"].

(** [event_type in supported_events]; the header may be absent. *)
Definition supported (event_type : option string) : bool :=
  match event_type with
  | Some t => existsb (String.eqb t) supported_events
  | None => false
  end.

Definition process_webhook_event (L : Py.lib) (W : World) (now_name now_stamp : datetime)
    (fs : gmap string node) (event_type : option string) (payload : json)
  : gmap string node * bool :=
  match event_type with
  | Some t =>
      if supported event_type then
        match EventManager.save_event L W now_name now_stamp fs t payload with
        | (fs', Ok _) => (fs', true)
        | (fs', Raise _) => (fs', false)
        end
      else (fs, false)
  | None => (fs, false)
  end.


Definition get_supported_events : list string :=
  ["push"; "release"; "repository"; "organization"].

End GitHubHandler.

(* ===================================================================== *)
(** ** app.py *)
(* ===================================================================== *)

Module App.

(** The parts of the Flask request that the handler reads:
    [get_data()], the two headers, and the outcome of [get_json()]. *)
Record request : Type := {
  req_data : list byte;
  req_signature : option string;
  req_event : option string;
  req_json : result json
}.

Definition reply (key msg : string) (status : Z) : json * Z :=
  (JDict [(key, JStr msg)], status).

Definition github_webhook (cfg : Config.t) (L : Py.lib) (W : World)
    (now_name now_stamp : datetime) (fs : gmap string node) (req : request)
  : gmap string node * (json * Z) :=
  match GitHubHandler.verify_webhook_signature cfg (req_data req) (req_signature req) with
  | Raise _ => (fs, reply "error" "Internal server error" 500)
  | Ok false => (fs, reply "error" "Invalid signature" 403)
  | Ok true =>
      match req_json req with
      | Raise _ => (fs, reply "error" "Internal server error" 500)
      | Ok payload =>
          match GitHubHandler.process_webhook_event L W now_name now_stamp fs
                  (req_event req) payload with
          | (fs', true) => (fs', reply "status" "Event saved for daily summary" 200)
          | (fs', false) => (fs', reply "status" "Event not handled" 200)
          end
      end
  end.

End App.

(* ===================================================================== *)
(** ** ai_processor.py *)
(* ===================================================================== *)

Module AIProcessor.

Record t : Type := {
  client : option groq_client;
  model : string
}.

Definition init : t := {| client := None; model := "llama-3.1-8b-instant" |}.

Definition with_client (self : t) (c : groq_client) : t :=
  {| client := Some c; model := model self |}.

Definition _get_client (cfg : Config.t) (W : World) (self : t) : t * result groq_client :=
  match client self with
  | Some c => (self, Ok c)
  | None =>
      match Config.GROQ_API_KEY cfg with
      | Some (String _ _ as key) =>
          if String.eqb key "your_groq_api_key_here" then (self, Raise ValueError)
          else
            match groq_new W key false with
            | None =>
                let c := {| client_key := key; client_custom_http := false |} in
                (with_client self c, Ok c)
            | Some e =>
                if httpx_has_Client W then
                  match groq_new W key true with
                  | None =>
                      let c := {| client_key := key; client_custom_http := true |} in
                      (with_client self c, Ok c)
                  | Some _ => (self, Raise e)
                  end
                else (self, Raise e)
            end
      | _ => (self, Raise ValueError)
      end
  end.

(** One element of the comprehension that builds [events_text]. *)
Definition event_line (L : Py.lib) (event : json) : result string :=
  ty ← Py.getitem event "type";
  titled ← Py.str_title L ty;
  summary ← Py.getitem event "summary";
  Ok ("- " +:+ titled +:+ ": " +:+ Py.str L summary).

Definition dq : string := String "034"%char EmptyString.

Definition prompt_of (events_text : string) : string :=
  Str.join nl
    [ "Generate a factual summary of GitHub events with commit details.";
      "";
      "Input:";
      events_text;
      "";
      "Output format:";
      "- List specific actions performed with details";
      "- Include actual commit messages and changes";
      "- Use format: " +:+ dq +:+ "X commits: [commit details]. PR #N: [PR title]. vX.X: [release notes]. Issue #N: [issue title]." +:+ dq;
      "- No hashtags";
      "- No conversational language";
      "- Technical details only";
      "- Under 250 characters";
      "";
      "Example: " +:+ dq +:+ "5 commits: updated AI models, fixed API calls, added error handling. PR #42: user authentication feature. v2.1.0: new performance improvements. Issue #15: resolved memory leak." +:+ dq;
      "";
      "Summary:" ].

(** The body of the [try] block: obtain the client, call the model,
    take [choices[0].message.content.strip()]. *)
Definition request_summary (cfg : Config.t) (W : World) (self : t) (prompt : string)
  : t * result string :=
  match _get_client cfg W self with
  | (self', Raise e) => (self', Raise e)
  | (self', Ok c) =>
      (self',
       choices ← chat_create W c (model self') prompt 400;
       match choices with
       | [] => Raise IndexError
       | None :: _ => Raise AttributeError
       | Some content :: _ => Ok (Str.strip content)
       end)
  end.

(** The body of the [except] block. *)
Definition fallback_summary (L : Py.lib) (events : list json) : result string :=
  let total_events := List.length events in
  event_types ← Py.comprehension (fun e => Py.getitem e "type") events;
  names ← Py.comprehension Py.as_str event_types;
  Ok ("Today we had " +:+ Str.of_nat total_events +:+ " GitHub activities including "
      +:+ Str.join ", " (Py.set_iter L names) +:+ ". Great progress on our projects!").

Definition generate_daily_summary (cfg : Config.t) (L : Py.lib) (W : World) (self : t)
    (events : list json) : t * result string :=
  match Py.comprehension (event_line L) events with
  | Raise e => (self, Raise e)
  | Ok lines =>
      let prompt := prompt_of (Str.join nl lines) in
      match request_summary cfg W self prompt with
      | (self', Ok raw_summary) => (self', Ok raw_summary)
      | (self', Raise _) => (self', fallback_summary L events)
      end
  end.


Definition humanize_prompt (text : string) : string :=
  Str.join nl
    [ "Rewrite the following text to sound more natural and human-like,";
      "as if written by a professional sharing on LinkedIn. Make it engaging and conversational:";
      "";
      text;
      "";
      "Humanized version:" ].

Definition generate_humanized_content (cfg : Config.t) (W : World) (self : t) (text : string)
  : t * string :=
  match _get_client cfg W self with
  | (self', Raise _) => (self', text)
  | (self', Ok c) =>
      (self',
       match chat_create W c (model self') (humanize_prompt text) 300 with
       | Ok (Some content :: _) => Str.strip content
       | _ => text
       end)
  end.

End AIProcessor.

(* ===================================================================== *)
(** ** linkedin_poster.py *)
(* ===================================================================== *)

(** The part of the world that a publish attempt can change: the
    directory, the POST requests made so far, and the seconds slept. *)
Record world : Type := {
  files : gmap string node;
  posts : list (string * json);
  slept : nat
}.

Module LinkedInPoster.

Record t : Type := {
  access_token : option string;
  person_urn : option string
}.

Definition init (cfg : Config.t) : t :=
  {| access_token := Config.LINKEDIN_ACCESS_TOKEN cfg; person_urn := None |}.

Definition with_urn (self : t) (urn : string) : t :=
  {| access_token := access_token self; person_urn := Some urn |}.

(** [f"Bearer {self.access_token}"] *)
Definition bearer (self : t) : string :=
  "Bearer " +:+ match access_token self with Some tok => tok | None => "None" end.

(** [raise_for_status()] raises for 4xx and 5xx. *)
Definition is_error_status (status : Z) : bool := (400 <=? status) && (status <? 600).

(** [response.raise_for_status(); data = response.json();
    person_id = data.get('id')] *)
Definition person_id_of (r : http_result) : result json :=
  match r with
  | NoResponse => Raise RequestException
  | Response status body =>
      if is_error_status status then Raise (HTTPError status)
      else
        match body with
        | None => Raise RequestsJSONDecodeError
        | Some data => Py.get data "id" JNull
        end
  end.

Definition urn_of (L : Py.lib) (person_id : json) : string :=
  "urn:li:person:" +:+ Py.str L person_id.

Definition v2_lookup (L : Py.lib) (W : World) (self : t) : t * result string :=
  match person_id_of
          (http_get W "https://api.linkedin.com/v2/people/~"
             [("Authorization", bearer self)]) with
  | Ok person_id =>
      if Py.truthy person_id
      then (with_urn self (urn_of L person_id), Ok (urn_of L person_id))
      else (self, Raise ValueError)
  | Raise e =>
      if is_RequestException e then (self, Raise ValueError) else (self, Raise e)
  end.

Definition get_person_urn (L : Py.lib) (W : World) (self : t) : t * result string :=
  match person_urn self with
  | Some (String _ _ as urn) => (self, Ok urn)
  | _ =>
      match person_id_of
              (http_get W "https://api.linkedin.com/v3/people/me"
                 [("Authorization", bearer self);
                  ("X-Restli-Protocol-Version", "2.0.0")]) with
      | Ok person_id =>
          if Py.truthy person_id
          then (with_urn self (urn_of L person_id), Ok (urn_of L person_id))
          else v2_lookup L W self
      | Raise e =>
          if is_RequestException e then v2_lookup L W self else (self, Raise e)
      end
  end.

Definition share_payload (author_urn content : string) : json :=
  JDict
    [ ("author", JStr author_urn);
      ("lifecycleState", JStr "PUBLISHED");
      ("specificContent",
        JDict [ ("com.linkedin.ugc.ShareContent",
                  JDict [ ("shareCommentary", JDict [("text", JStr content)]);
                          ("shareMediaCategory", JStr "NONE") ]) ]);
      ("visibility",
        JDict [("com.linkedin.ugc.MemberNetworkVisibility", JStr "PUBLIC")]) ].

Definition ugc_url : string := "https://api.linkedin.com/v2/ugcPosts".

Definition posted (w : world) (url : string) (body : json) : world :=
  {| files := files w; posts := posts w ++ [(url, body)]; slept := slept w |}.

(** The three [except] clauses of [post_content] all return [False]. *)
Definition handled (e : exn) : bool :=
  match e with
  | HTTPError _ => true
  | _ => is_RequestException e || is_ValueError e
  end.

Definition post_content (L : Py.lib) (W : World) (self : t) (w : world) (content : string)
  : (t * world) * result bool :=
  match get_person_urn L W self with
  | (self', Raise e) => ((self', w), if handled e then Ok false else Raise e)
  | (self', Ok author_urn) =>
      let payload := share_payload author_urn content in
      let w' := posted w ugc_url payload in
      match http_post W (posts w) ugc_url payload with
      | NoResponse => ((self', w'), Ok false)
      | Response status _ =>
          ((self', w'), Ok (negb (is_error_status status)))
      end
  end.

(** [set()] needs hashable elements. *)
Definition hashable (v : json) : result json :=
  match v with
  | JList _ | JDict _ => Raise TypeError
  | _ => Ok v
  end.

Definition event_preview (event : json) : result json :=
  ty ← Py.getitem event "type";
  summary ← Py.getitem event "summary";
  timestamp ← Py.getitem event "timestamp";
  Ok (JDict [("type", ty); ("summary", summary); ("timestamp", timestamp)]).

Definition pipedream_payload (L : Py.lib) (now : datetime) (content : string)
    (events : list json) : result json :=
  types ← Py.comprehension (fun e => ty ← Py.getitem e "type"; hashable ty) events;
  previews ← Py.comprehension event_preview (take 10 events);
  Ok (JDict
        [ ("event_type", JStr "daily_summary");
          ("content", JStr content);
          ("timestamp", JStr (isoformat now));
          ("stats",
            JDict [ ("total_events", JInt (Z.of_nat (List.length events)));
                    ("event_types", JList (Py.set_list L types)) ]);
          ("events_summary", JList previews) ]).

Definition send_to_pipedream (cfg : Config.t) (L : Py.lib) (W : World) (now : datetime)
    (w : world) (content : string) (events : list json) : world * result bool :=
  match pipedream_payload L now content events with
  | Raise e => (w, Raise e)
  | Ok payload =>
      match Config.PIPEDREAM_WEBHOOK_URL cfg with
      | None => (w, Ok false)
      | Some url =>
          match http_post W (posts w) url payload with
          | NoResponse => (posted w url payload, Ok false)
          | Response status _ =>
              (posted w url payload, Ok (negb (is_error_status status)))
          end
      end
  end.

(** "Post using configured method". *)
Definition send (cfg : Config.t) (L : Py.lib) (W : World) (now : datetime) (self : t)
    (w : world) (content : string) (events : option (list json))
  : (t * world) * result bool :=
  if Config.USE_PIPEDREAM cfg then
    let '(w', r) := send_to_pipedream cfg L W now w content (default [] events) in
    ((self, w'), r)
  else post_content L W self w content.

Definition review_file (now : datetime) : string :=
  "review_" +:+ strftime_stamp now +:+ ".txt".

Definition archive_name (review_file : string) : string := "posted_" +:+ review_file.

Definition rule : string := Str.repeat "="%char 50.

(** The text written to the review file. *)
Definition review_text (cfg : Config.t) (now : datetime) (content : string) : string :=
  "LinkedIn Post Review" +:+ nl
  +:+ "Generated at: " +:+ isoformat now +:+ nl
  +:+ "Content length: " +:+ Str.of_nat (String.length content) +:+ " characters" +:+ nl
  +:+ "Posting method: "
  +:+ (if Config.USE_PIPEDREAM cfg then "Pipedream" else "Direct LinkedIn") +:+ nl
  +:+ nl +:+ rule +:+ nl
  +:+ content +:+ nl
  +:+ rule +:+ nl
  +:+ nl +:+ "To approve this post, edit this file and change 'APPROVE=false' to 'APPROVE=true'" +:+ nl
  +:+ "APPROVE=false" +:+ nl.

(** The loop over the lines of the file. *)
Fixpoint content_lines (in_content : bool) (lines : list string) : list string :=
  match lines with
  | [] => []
  | line :: rest =>
      if Str.startswith "=" line && negb in_content then content_lines true rest
      else if Str.startswith "=" line && in_content then []
      else if in_content && negb (Str.startswith "APPROVE=" line)
           then line :: content_lines in_content rest
           else content_lines in_content rest
  end.

Definition clean_content (file_content : string) : string :=
  Str.strip (Str.join nl (content_lines false (Str.split "010"%char file_content))).

Definition with_files (w : world) (fs : gmap string node) : world :=
  {| files := fs; posts := posts w; slept := slept w |}.

(** [time.sleep(300)], during which the directory may change. *)
Definition sleep (W : World) (attempts : nat) (w : world) : world :=
  {| files := during_sleep W attempts (files w);
     posts := posts w;
     slept := (slept w + 300)%nat |}.

(** The branch taken when the file contains [APPROVE=true]: extract
    the content, post it, archive the review file, return the outcome
    of the post. *)
Definition post_and_archive (cfg : Config.t) (L : Py.lib) (W : World) (now_send : datetime)
    (review_file : string) (events : option (list json)) (self : t) (w : world)
    (file_content : string) : (t * world) * result bool :=
  match send cfg L W now_send self w (clean_content file_content) events with
  | (sw, Raise e) => (sw, Raise e)
  | ((self', w'), Ok success) =>
      let archive_file := archive_name review_file in
      match disk_rename W (files w') review_file archive_file with
      | None =>
          ((self', with_files w'
                     (EventManager.renamed (files w') review_file archive_file)),
           Ok success)
      | Some NoSuchFile => ((self', w'), Ok false)
      | Some OtherOSError => ((self', w'), Raise OSError)
      end
  end.

(** The [while attempts < max_attempts] loop; [remaining] is
    [max_attempts - attempts]. *)
Fixpoint await_approval (cfg : Config.t) (L : Py.lib) (W : World) (now_send : datetime)
    (review_file : string) (events : option (list json))
    (remaining attempts : nat) (self : t) (w : world) : (t * world) * result bool :=
  match remaining with
  | O => ((self, w), Ok false)
  | S remaining' =>
      match files w !! review_file with
      | None => ((self, w), Ok false)
      | Some Unreadable => ((self, w), Raise OSError)
      | Some Undecodable => ((self, w), Raise UnicodeDecodeError)
      | Some (File text _) =>
          let file_content := Str.read_text text in
          if Str.contains "APPROVE=true" file_content then
            post_and_archive cfg L W now_send review_file events self w file_content
          else
            await_approval cfg L W now_send review_file events remaining' (S attempts)
              self (sleep W attempts w)
      end
  end.

Definition max_attempts : nat := 12.

(** [now_name], [now_generated] and [now_send] are the readings of the
    clock for the file name, the "Generated at" line and the relay
    payload.  The writes inside the [with open] block are one write of
    [review_text]; the first poll follows it directly. *)
Definition review_and_post (cfg : Config.t) (L : Py.lib) (W : World)
    (now_name now_generated now_send : datetime) (self : t) (w : world)
    (content : string) (events : option (list json)) : (t * world) * result bool :=
  if negb (Config.REQUIRE_POST_REVIEW cfg) then
    send cfg L W now_send self w content events
  else
    let name := review_file now_name in
    let text := review_text cfg now_generated content in
    match disk_write W (files w) name text with
    | OpenFails e => ((self, w), Raise e)
    | WriteFails e remains => ((self, with_files w (<[name := remains]> (files w))), Raise e)
    | Written =>
        await_approval cfg L W now_send name events max_attempts 0 self
          (with_files w (<[name := File text None]> (files w)))
    end.

End LinkedInPoster.

(* ===================================================================== *)
(** ** scheduler.py *)
(* ===================================================================== *)

Module DailyScheduler.

Definition _post_summary (cfg : Config.t) (L : Py.lib) (W : World)
    (now_name now_generated now_send : datetime) (self : LinkedInPoster.t) (w : world)
    (summary_content : string) (events : list json)
  : (LinkedInPoster.t * world) * result bool :=
  LinkedInPoster.review_and_post cfg L W now_name now_generated now_send self w
    summary_content (Some events).

Definition _handle_posting_result (W : World) (now : datetime) (fs : gmap string node)
    (success : bool) (events_count : nat) : gmap string node :=
  if success then fst (EventManager.archive_events W now fs None)
  else fs.

(** The end of the [try] block of [post_daily_summary]: post the
    summary, handle the result; an exception is logged and swallowed.
    [now_archive] is the reading of the clock in [archive_events]. *)
Definition post_daily_summary_publish (cfg : Config.t) (L : Py.lib) (W : World)
    (now_name now_generated now_send now_archive : datetime)
    (self : LinkedInPoster.t) (w : world) (summary_content : string) (events : list json)
  : LinkedInPoster.t * world :=
  match _post_summary cfg L W now_name now_generated now_send self w summary_content
          events with
  | ((self', w'), Ok success) =>
      (self',
       LinkedInPoster.with_files w'
         (_handle_posting_result W now_archive (files w') success (List.length events)))
  | ((self', w'), Raise _) => (self', w')
  end.


(** *** The calendar: [datetime - timedelta(days=k)] on a valid date *)

Definition is_leap (y : nat) : bool :=
  (Nat.eqb (Nat.modulo y 4) 0
   && (negb (Nat.eqb (Nat.modulo y 100) 0) || Nat.eqb (Nat.modulo y 400) 0))%bool.

Definition days_in_month (y m : nat) : nat :=
  match m with
  | 2 => if is_leap y then 29 else 28
  | 4 | 6 | 9 | 11 => 30
  | _ => 31
  end%nat.

Definition on_date (t : datetime) (y m d : nat) : datetime :=
  {| year := y; month := m; day := d;
     hour := hour t; minute := minute t; second := second t;
     microsecond := microsecond t |}.

Definition previous_day (t : datetime) : datetime :=
  if (1 <? day t)%nat then on_date t (year t) (month t) (day t - 1)
  else if (1 <? month t)%nat
       then on_date t (year t) (month t - 1) (days_in_month (year t) (month t - 1))
       else on_date t (year t - 1) 12 31.

Fixpoint minus_days (t : datetime) (k : nat) : datetime :=
  match k with
  | O => t
  | S k' => minus_days (previous_day t) k'
  end.

(** The readings of the clock within one iteration of the sweep: for
    the date to check and, inside [review_and_post], for the file name,
    the "Generated at" line and the relay payload. *)
Record readings : Type := {
  at_check : datetime;
  at_name : datetime;
  at_generated : datetime;
  at_send : datetime
}.

(** What the daily job carries along: the model client, the poster and
    the world. *)
Definition job_state : Type := (AIProcessor.t * LinkedInPoster.t * world)%type.

(** One iteration of the loop of [check_for_missed_posts], for
    [days_back = k]. *)
Definition check_day (cfg : Config.t) (L : Py.lib) (W : World) (r : readings) (k : nat)
    (st : job_state) : job_state :=
  let '(ai, poster, w) := st in
  let check_date := strftime_date (minus_days (at_check r) k) in
  match files w !! EventManager.events_file check_date,
        files w !! EventManager.posted_file check_date with
  | Some _, None =>
      match EventManager.load_events (at_check r) (files w) (Some check_date) with
      | Raise _ => st
      | Ok events =>
          if Py.truthy events then
            match Py.iter events with
            | Raise _ => st
            | Ok items =>
                match AIProcessor.generate_daily_summary cfg L W ai items with
                | (ai', Raise _) => (ai', poster, w)
                | (ai', Ok summary_content) =>
                    match LinkedInPoster.review_and_post cfg L W (at_name r)
                            (at_generated r) (at_send r) poster w summary_content None with
                    | ((poster', w'), Ok true) =>
                        (ai', poster',
                         LinkedInPoster.with_files w'
                           (fst (EventManager.archive_events W (at_check r) (files w')
                                   (Some check_date))))
                    | ((poster', w'), _) => (ai', poster', w')
                    end
                end
            end
          else st
      end
  | _, _ => st
  end.

(** [for days_back in range(1, 8)]; [clock k] gives the readings of
    iteration [k]. *)
Definition check_for_missed_posts (cfg : Config.t) (L : Py.lib) (W : World)
    (clock : nat -> readings) (st : job_state) : job_state :=
  fold_left (fun s k => check_day cfg L W (clock k) k s) (seq 1 7) st.

(** The value returned is a list: the empty list for an empty bucket,
    otherwise the loaded list, once the breakdown loop has run over
    it. *)
Definition _load_and_validate_events (now : datetime) (fs : gmap string node)
  : result (list json) :=
  events ← EventManager.load_events now fs None;
  _ ← Py.len events;
  if negb (Py.truthy events) then Ok []
  else
    items ← Py.iter events;
    _ ← EventManager.count_types items [];
    match events with
    | JList l => Ok l
    | _ => Ok items
    end.

Definition _generate_ai_summary (cfg : Config.t) (L : Py.lib) (W : World)
    (ai : AIProcessor.t) (events : list json) : AIProcessor.t * result string :=
  AIProcessor.generate_daily_summary cfg L W ai events.

(** [today] holds the readings of the clock after the sweep: for
    [load_events], for the three readings of [review_and_post] and for
    [archive_events]. *)
Record today_readings : Type := {
  at_load : datetime;
  at_review : readings;
  at_archive : datetime
}.

Definition post_daily_summary (cfg : Config.t) (L : Py.lib) (W : World)
    (clock : nat -> readings) (today : today_readings) (st : job_state) : job_state :=
  let '(ai, poster, w) := check_for_missed_posts cfg L W clock st in
  match _load_and_validate_events (at_load today) (files w) with
  | Raise _ => (ai, poster, w)
  | Ok [] => (ai, poster, w)
  | Ok events =>
      match _generate_ai_summary cfg L W ai events with
      | (ai', Raise _) => (ai', poster, w)
      | (ai', Ok summary_content) =>
          let '(poster', w') :=
            post_daily_summary_publish cfg L W (at_name (at_review today))
              (at_generated (at_review today)) (at_send (at_review today))
              (at_archive today) poster w summary_content events in
          (ai', poster', w')
      end
  end.

End DailyScheduler.

(* ===================================================================== *)
(** ** app.py at the top level: the single-file variant *)
(* ===================================================================== *)

Module Legacy.

(** [os.getenv('GITHUB_WEBHOOK_SECRET').encode()] raises when the
    variable is not set. *)
Definition verify_github_webhook (cfg : Config.t) (data : list byte)
    (signature : option string) : result bool :=
  match Config.GITHUB_WEBHOOK_SECRET cfg with
  | None => Raise AttributeError
  | Some secret =>
      GitHubHandler.compare_digest (GitHubHandler.expected_signature secret data) signature
  end.

Definition bearer (cfg : Config.t) : string :=
  "Bearer " +:+ match Config.LINKEDIN_ACCESS_TOKEN cfg with
                | Some tok => tok
                | None => "None"
                end.

(** The id, or [None] when the answer is not 200. *)
Definition get_linkedin_person_urn (cfg : Config.t) (W : World) : result json :=
  match http_get W "https://api.linkedin.com/v2/people/~" [("Authorization", bearer cfg)] with
  | NoResponse => Raise RequestException
  | Response status body =>
      if status =? 200 then
        match body with
        | None => Raise RequestsJSONDecodeError
        | Some data => Py.get data "id" JNull
        end
      else Ok JNull
  end.

Definition post_to_linkedin (cfg : Config.t) (L : Py.lib) (W : World) (w : world)
    (content : string) : world * result bool :=
  match get_linkedin_person_urn cfg W with
  | Raise e => (w, Raise e)
  | Ok person_urn =>
      if negb (Py.truthy person_urn) then (w, Ok false)
      else
        let data :=
          LinkedInPoster.share_payload (LinkedInPoster.urn_of L person_urn) content in
        match http_post W (posts w) LinkedInPoster.ugc_url data with
        | NoResponse =>
            (LinkedInPoster.posted w LinkedInPoster.ugc_url data, Raise RequestException)
        | Response status _ =>
            (LinkedInPoster.posted w LinkedInPoster.ugc_url data, Ok (status =? 201))
        end
  end.

End Legacy.
(* ===================================================================== *)
(** ** A concrete interpreter and environment for running examples *)
(* ===================================================================== *)

Module Scenario.

Definition is_lower (c : ascii) : bool := (97 <=? Str.code c) && (Str.code c <=? 122).
Definition is_upper (c : ascii) : bool := (65 <=? Str.code c) && (Str.code c <=? 90).
Definition shift (c : ascii) (d : Z) : ascii := ascii_of_N (Z.to_N (Str.code c + d)).

(** [str.title] on ASCII letters. *)
Fixpoint title_from (after_letter : bool) (s : string) : string :=
  match s with
  | EmptyString => EmptyString
  | String c s' =>
      if is_lower c then
        String (if after_letter then c else shift c (-32)) (title_from true s')
      else if is_upper c then
        String (if after_letter then shift c 32 else c) (title_from true s')
      else String c (title_from false s')
  end.

Definition scalar_eqb (a b : json) : bool :=
  match a, b with
  | JNull, JNull => true
  | JBool x, JBool y => Bool.eqb x y
  | JInt x, JInt y => x =? y
  | JFloat x, JFloat y => PrimFloat.eqb x y
  | JStr x, JStr y => String.eqb x y
  | _, _ => false
  end.

Fixpoint distinct (l : list json) : list json :=
  match l with
  | [] => []
  | x :: rest => x :: filter (fun y => negb (scalar_eqb x y)) (distinct rest)
  end.

(** Containers and floats print as a placeholder; a set is iterated in
    some fixed order without repetition. *)
Definition lib : Py.lib :=
  {| Py.repr := fun _ => "<object>";
     Py.title := title_from false;
     Py.dumps := fun _ => "<json>";
     Py.set_list := distinct;
     Py.set_iter := remove_dups;
     Py.set_iter_NoDup := fun l => NoDup_remove_dups l;
     Py.set_iter_elem := fun l x => elem_of_remove_dups l x |}.

(** A healthy disk, a post endpoint that answers [status], an identity
    endpoint that answers [identity], a model that is unreachable, and
    nobody touching the directory. *)
Definition env (identity : http_result) (status : Z) : World :=
  {| disk_write := fun _ _ _ => Written;
     disk_rename := fun _ _ _ => None;
     http_get := fun _ _ => identity;
     http_post := fun _ _ _ => Response status None;
     groq_new := fun _ _ => None;
     httpx_has_Client := true;
     chat_create := fun _ _ _ _ => Raise RequestException;
     during_sleep := fun _ fs => fs |}.

(** The same with a disk that refuses to open files for writing. *)
Definition env_disk_full : World :=
  {| disk_write := fun _ _ _ => OpenFails OSError;
     disk_rename := fun _ _ _ => None;
     http_get := fun _ _ => NoResponse;
     http_post := fun _ _ _ => NoResponse;
     groq_new := fun _ _ => None;
     httpx_has_Client := true;
     chat_create := fun _ _ _ _ => Raise RequestException;
     during_sleep := fun _ fs => fs |}.

Definition cfg (review : bool) : Config.t :=
  {| Config.GITHUB_WEBHOOK_SECRET := Some "s3cret";
     Config.LINKEDIN_ACCESS_TOKEN := Some "token";
     Config.GROQ_API_KEY := Some "gsk_key";
     Config.REQUIRE_POST_REVIEW := review;
     Config.PIPEDREAM_WEBHOOK_URL := None |}.

Definition noon : datetime :=
  {| year := 2024; month := 5; day := 17; hour := 12; minute := 0; second := 0;
     microsecond := 0 |}.

Definition me : LinkedInPoster.t :=
  {| LinkedInPoster.access_token := Some "token";
     LinkedInPoster.person_urn := Some "urn:li:person:42" |}.

Definition start : world := {| files := ∅; posts := []; slept := 0 |}.

(** The body [{}] as bytes. *)
Definition body : list byte := [x7b; x7d]%byte.

(** Sample payloads, buckets, event lists and a signed request. *)
Definition push_main : list (string * json) :=
  [ ("ref", JStr "refs/heads/main");
    ("commits", JList [JDict [("message", JStr "x")]]) ].

Definition one_bucket : gmap string node :=
  <[ "events_2024-05-17.json" := File "[]" (Some (JList [])) ]> ∅.

Definition archived_bucket : gmap string node :=
  <[ "posted_events_2024-05-17.json" := File "[]" (Some (JList [])) ]>
    (delete "events_2024-05-17.json" one_bucket).

Definition day_events : list json :=
  [ JDict [("type", JStr "push"); ("summary", JStr "Pushed 3 commits to main")];
    JDict [("type", JStr "release"); ("summary", JStr "Released version 1.2.3")];
    JDict [("type", JStr "push"); ("summary", JStr "Pushed 1 commits to dev")] ].

Definition incomplete_events : list json :=
  [ JDict [("type", JStr "push"); ("summary", JStr "Pushed 3 commits to main")];
    JDict [("type", JStr "release")] ].

Definition with_bucket : world :=
  {| files := one_bucket; posts := []; slept := 0 |}.

Definition push_request : App.request :=
  {| App.req_data := body;
     App.req_signature := Some (GitHubHandler.expected_signature "s3cret" body);
     App.req_event := Some "push";
     App.req_json := Ok (JDict []) |}.


(** A bucket with two pushes and a release. *)
Definition stored_events : list json :=
  [ EventManager.event_data "push" "2024-05-17T09:00:00" "Pushed 3 commits to main in a/b" (JDict []);
    EventManager.event_data "release" "2024-05-17T10:00:00" "Released version 1.0 in a/b" (JDict []);
    EventManager.event_data "push" "2024-05-17T11:00:00" "Pushed 1 commits to dev in a/b" (JDict []) ].

Definition day_bucket : gmap string node :=
  <[ "events_2024-05-17.json" := File "<json>" (Some (JList stored_events)) ]> ∅.


(** A configuration without an API key for the model. *)
Definition cfg_no_key : Config.t :=
  {| Config.GITHUB_WEBHOOK_SECRET := Some "s3cret";
     Config.LINKEDIN_ACCESS_TOKEN := Some "token";
     Config.GROQ_API_KEY := None;
     Config.REQUIRE_POST_REVIEW := false;
     Config.PIPEDREAM_WEBHOOK_URL := None |}.


(** The relay is configured. *)
Definition cfg_relay : Config.t :=
  {| Config.GITHUB_WEBHOOK_SECRET := Some "s3cret";
     Config.LINKEDIN_ACCESS_TOKEN := None;
     Config.GROQ_API_KEY := Some "gsk_key";
     Config.REQUIRE_POST_REVIEW := false;
     Config.PIPEDREAM_WEBHOOK_URL := Some "https://relay.example/hook" |}.

(** The same instant on the next day, and a clock that always shows
    noon of the 17th. *)
Definition next_noon : datetime :=
  {| year := 2024; month := 5; day := 18; hour := 12; minute := 0; second := 0;
     microsecond := 0 |}.

Definition at_noon : DailyScheduler.readings :=
  {| DailyScheduler.at_check := noon; DailyScheduler.at_name := noon;
     DailyScheduler.at_generated := noon; DailyScheduler.at_send := noon |}.

Definition today_noon : DailyScheduler.today_readings :=
  {| DailyScheduler.at_load := noon; DailyScheduler.at_review := at_noon;
     DailyScheduler.at_archive := noon |}.

(** An identity endpoint that answers with the id [abc]. *)
Definition identity_abc : http_result := Response 200 (Some (JDict [("id", JStr "abc")])).


(** Yesterday's bucket still holds events although its archive exists;
    today's bucket is empty. *)
Definition yesterday_done : gmap string node :=
  <[ "events_2024-05-16.json" := File "<json>" (Some (JList stored_events)) ]>
    (<[ "posted_events_2024-05-16.json" := File "<json>" (Some (JList stored_events)) ]>
       one_bucket).

Definition idle_state : DailyScheduler.job_state :=
  (AIProcessor.init, LinkedInPoster.init (cfg false),
   {| files := yesterday_done; posts := []; slept := 0 |}).


(** Today's bucket holds three events and nothing has been sent yet. *)
Definition day_state : DailyScheduler.job_state :=
  (AIProcessor.init, LinkedInPoster.init (cfg false),
   {| files := day_bucket; posts := []; slept := 0 |}).


(** A release whose repository object carries an empty full name and no
    name. *)
Definition nameless_release : list (string * json) :=
  [ ("repository", JDict [("full_name", JStr ""); ("id", JInt 7)]);
    ("release", JDict [("tag_name", JStr "v1.0")]) ].

End Scenario.

(* ===================================================================== *)
(** ** Shapes of payloads and events used in the statements *)
(* ===================================================================== *)

Module Shape.

Definition is_dict (v : json) : bool := match v with JDict _ => true | _ => false end.
Definition is_list (v : json) : bool := match v with JList _ => true | _ => false end.
Definition is_str (v : json) : bool := match v with JStr _ => true | _ => false end.

Definition field_ok (p : json -> bool) (d : list (string * json)) (k : string) : bool :=
  match Py.lookup d k with
  | Some v => p v
  | None => true
  end.

(** The fields that [summarize_event] reads have, when present, the
    types that GitHub gives them. *)
Definition github_typed (d : list (string * json)) : bool :=
  field_ok is_dict d "repository" && field_ok is_list d "commits"
  && field_ok is_str d "ref" && field_ok is_dict d "release".

Definition has_key (d : list (string * json)) (k : string) : bool :=
  match Py.lookup d k with
  | Some _ => true
  | None => false
  end.

(** An event as [generate_daily_summary] documents it: a dict with a
    string under ['type'] and some value under ['summary']. *)
Definition summarizable (event : json) : bool :=
  match event with
  | JDict d => field_ok is_str d "type" && has_key d "type" && has_key d "summary"
  | _ => false
  end.

(** An event dict: a dict whose ['type'], if it has one, is a string. *)
Definition event_dict (event : json) : bool :=
  match event with
  | JDict d => field_ok is_str d "type"
  | _ => false
  end.

(** An event dict without ['type'] or without ['summary']. *)
Definition lacks_key (event : json) : bool :=
  match event with
  | JDict d => negb (has_key d "type") || negb (has_key d "summary")
  | _ => false
  end.

(** The bucket holds a JSON list, holds no JSON, cannot be opened, or
    does not exist. *)
Definition bucket_appendable (n : option node) : bool :=
  match n with
  | Some (File _ (Some v)) => is_list v
  | Some Undecodable => false
  | _ => true
  end.

(** The templated sentence of the fallback, for a count and a listing
    of event types. *)
Definition fallback_sentence (n : nat) (types : list string) : string :=
  "Today we had " +:+ Str.of_nat n +:+ " GitHub activities including "
  +:+ Str.join ", " types +:+ ". Great progress on our projects!".

(** The sum of the counters of a dict of counts. *)
Fixpoint counted (d : list (json * nat)) : nat :=
  match d with
  | [] => 0
  | (_, n) :: rest => n + counted rest
  end%nat.


(** No API key, an empty one, or the placeholder of the sample
    configuration. *)
Definition key_unusable (cfg : Config.t) : bool :=
  match Config.GROQ_API_KEY cfg with
  | Some (String _ _ as key) => String.eqb key "your_groq_api_key_here"
  | _ => true
  end.


(** An event as [save_event] stores it, as far as the relay payload
    reads it: a dict with strings under ['type'], ['summary'] and
    ['timestamp']. *)
Definition relayable (event : json) : bool :=
  match event with
  | JDict d =>
      match Py.lookup d "type", Py.lookup d "summary", Py.lookup d "timestamp" with
      | Some (JStr _), Some (JStr _), Some (JStr _) => true
      | _, _, _ => false
      end
  | _ => false
  end.

(** [preview] holds the type, the summary and the timestamp of [event],
    and nothing else. *)
Definition previews_event (event preview : json) : Prop :=
  exists ty summary timestamp,
    Py.getitem event "type" = Ok ty
    /\ Py.getitem event "summary" = Ok summary
    /\ Py.getitem event "timestamp" = Ok timestamp
    /\ preview = JDict [("type", ty); ("summary", summary); ("timestamp", timestamp)].

(** The body sent to the relay, for the types of all the events and the
    previews of the leading ones. *)
Definition relay_body (L : Py.lib) (now : datetime) (content : string) (total : nat)
    (types previews : list json) : json :=
  JDict
    [ ("event_type", JStr "daily_summary");
      ("content", JStr content);
      ("timestamp", JStr (isoformat now));
      ("stats",
        JDict [ ("total_events", JInt (Z.of_nat total));
                ("event_types", JList (Py.set_list L types)) ]);
      ("events_summary", JList previews) ].


(** A string without a newline. *)
Fixpoint one_line (s : string) : bool :=
  match s with
  | EmptyString => true
  | String c s' => negb (Ascii.eqb c "010"%char) && one_line s'
  end.

(** A string without a carriage return. *)
Fixpoint no_cr (s : string) : bool :=
  match s with
  | EmptyString => true
  | String c s' => negb (Ascii.eqb c "013"%char) && no_cr s'
  end.

(** Content none of whose lines starts with [=] or with [APPROVE=]. *)
Definition plain_content (content : string) : bool :=
  forallb (fun l => negb (Str.startswith "=" l) && negb (Str.startswith "APPROVE=" l))
    (Str.split "010"%char content).

(** The pieces of the review file, one per line except for the content,
    which may span several lines. *)
Definition review_parts (cfg : Config.t) (now : datetime) (content : string) : list string :=
  [ "LinkedIn Post Review";
    "Generated at: " +:+ isoformat now;
    "Content length: " +:+ Str.of_nat (String.length content) +:+ " characters";
    "Posting method: "
      +:+ (if Config.USE_PIPEDREAM cfg then "Pipedream" else "Direct LinkedIn");
    "";
    LinkedInPoster.rule;
    content;
    LinkedInPoster.rule;
    "";
    "To approve this post, edit this file and change 'APPROVE=false' to 'APPROVE=true'";
    "APPROVE=false";
    "" ].


(** A bucket that gives the daily job nothing to post: it is missing,
    is not JSON, cannot be opened, or holds an empty list, an empty
    dict or an empty string. *)
Definition nothing_to_post (n : option node) : bool :=
  match n with
  | Some (File _ (Some (JList []))) | Some (File _ (Some (JDict [])))
  | Some (File _ (Some (JStr EmptyString))) => true
  | Some (File _ (Some _)) => false
  | Some Undecodable => false
  | _ => true
  end.


(** A value that is absent or falsy. *)
Definition falsy (o : option json) : bool :=
  match o with
  | Some v => negb (Py.truthy v)
  | None => true
  end.

(** The payload names no repository: it has no ['repository'], or the
    repository object has neither a truthy ['full_name'] nor a truthy
    ['name']. *)
Definition repo_unnamed (d : list (string * json)) : bool :=
  match Py.lookup d "repository" with
  | None => true
  | Some (JDict r) => falsy (Py.lookup r "full_name") && falsy (Py.lookup r "name")
  | Some _ => false
  end.


(** Whether the text read so far ends in a carriage return. *)
Fixpoint ends_cr (after_cr : bool) (s : string) : bool :=
  match s with
  | EmptyString => after_cr
  | String c s' => ends_cr (Ascii.eqb c "013"%char) s'
  end.

End Shape.

(* ===================================================================== *)
(** ** Facts about the string operations *)
(* ===================================================================== *)

Module StrFacts.
Import Str.

Lemma startswith_app (p s : string) : startswith p (p +:+ s) = true.
Proof.
  induction p as [|c p IH]; simpl; [reflexivity|].
  now rewrite Ascii.eqb_refl, IH.
Qed.

Lemma startswith_app_l (p a b : string) :
  startswith p a = true -> startswith p (a +:+ b) = true.
Proof.
  revert a. induction p as [|c p IH]; intros a H; [reflexivity|].
  destruct a as [|c' a]; simpl in *; [discriminate|].
  apply andb_true_iff in H as [Hc Hp].
  now rewrite Hc, (IH _ Hp).
Qed.

Lemma startswith_refl (s : string) : startswith s s = true.
Proof.
  induction s as [|c s IH]; simpl; [reflexivity|].
  now rewrite Ascii.eqb_refl, IH.
Qed.

Lemma contains_refl (s : string) : contains s s = true.
Proof. destruct s; simpl; [reflexivity|]. now rewrite Ascii.eqb_refl, startswith_refl. Qed.

Lemma contains_app_l (sub a b : string) :
  contains sub a = true -> contains sub (a +:+ b) = true.
Proof.
  induction a as [|c a IH]; simpl; intros H.
  - rewrite orb_false_r in H. destruct sub; [|discriminate].
    destruct b; reflexivity.
  - apply orb_true_iff in H as [H|H].
    + change (String c (a +:+ b)) with (String c a +:+ b).
      now rewrite (startswith_app_l _ _ _ H).
    + rewrite (IH H). apply orb_true_r.
Qed.

Lemma contains_app_r (sub a b : string) :
  contains sub b = true -> contains sub (a +:+ b) = true.
Proof.
  intros H. induction a as [|c a IH]; simpl; [exact H|].
  rewrite IH. apply orb_true_r.
Qed.

Lemma contains_prefix (sub b : string) : contains sub (sub +:+ b) = true.
Proof. apply contains_app_l, contains_refl. Qed.

Lemma contains_mid (sub a b : string) : contains sub (a +:+ sub +:+ b) = true.
Proof. apply contains_app_r, contains_prefix. Qed.

Lemma replace_from_skip (old new p s : string) :
  replace_from old new (String.length p) (p +:+ s) = replace_from old new 0 s.
Proof. induction p as [|c p IH]; simpl; [reflexivity|exact IH]. Qed.

Lemma replace_prefix (old new s : string) :
  old <> EmptyString -> replace old new (old +:+ s) = new +:+ replace old new s.
Proof.
  intros Hne. destruct old as [|c old]; [congruence|].
  unfold replace.
  change (String c old +:+ s) with (String c (old +:+ s)).
  cbn [replace_from].
  change (String c (old +:+ s)) with (String c old +:+ s).
  rewrite startswith_app. cbn [String.length Nat.pred].
  now rewrite replace_from_skip.
Qed.

Lemma replace_absent (old new s : string) :
  contains old s = false -> replace old new s = s.
Proof.
  unfold replace. induction s as [|c s IH]; intros H; [reflexivity|].
  cbn [contains] in H. apply orb_false_iff in H as [H1 H2].
  cbn [replace_from]. rewrite H1. now rewrite (IH H2).
Qed.

(** Stripping the branch prefix: what [replace] does to a ref of the
    form [refs/heads/B]. *)
Lemma replace_branch (B : string) :
  contains "refs/heads/" B = false ->
  replace "refs/heads/" "" ("refs/heads/" +:+ B) = B.
Proof.
  intros H. rewrite replace_prefix by discriminate.
  now rewrite (replace_absent _ _ _ H).
Qed.

Lemma isascii_app (a b : string) :
  isascii (a +:+ b) = isascii a && isascii b.
Proof.
  induction a as [|c a IH]; simpl; [reflexivity|].
  now rewrite IH, andb_assoc.
Qed.

Lemma hex_digit_ascii (n : nat) : (code (SHA256.hex_digit n) <? 128) = true.
Proof. do 16 (destruct n as [|n]; [reflexivity|]). reflexivity. Qed.

Lemma hex_isascii (bs : list Z) : isascii (SHA256.hex bs) = true.
Proof.
  induction bs as [|b bs IH]; simpl; [reflexivity|].
  now rewrite !hex_digit_ascii, IH.
Qed.

(** The hash agrees with the published test vectors: FIPS 180-4 for
    the message [abc], RFC 4231 (test case 2) for the keyed hash. *)
Example sha256_abc :
  SHA256.hex (SHA256.digest (encode "abc"))
  = "ba7816bf8f01cfea414140de5dae2223b00361a396177a9cb410ff61f20015ad".
Proof. vm_compute. reflexivity. Qed.

Example hmac_sha256_rfc4231 :
  SHA256.hex (SHA256.hmac (encode "Jefe") (encode "what do ya want for nothing?"))
  = "5bdcc146bf60754e6a042426089575c75a003f089d2739839dec58b964ec3843".
Proof. vm_compute. reflexivity. Qed.


Lemma append_assoc (a b c : string) : (a +:+ b) +:+ c = a +:+ (b +:+ c).
Proof.
  induction a as [|x a IH]; [reflexivity|].
  change (String x ((a +:+ b) +:+ c) = String x (a +:+ (b +:+ c))). now rewrite IH.
Qed.

Lemma startswith_inv (p s : string) :
  startswith p s = true -> exists q, s = p +:+ q.
Proof.
  revert s. induction p as [|c p IH]; intros s H; [now exists s|].
  destruct s as [|c' s]; cbn in H; [discriminate|].
  apply andb_true_iff in H as [Hc Hp]. apply Ascii.eqb_eq in Hc. subst c'.
  destruct (IH s Hp) as [q ->]. now exists q.
Qed.

Lemma contains_inv (sub s : string) :
  contains sub s = true -> exists p q, s = p +:+ sub +:+ q.
Proof.
  induction s as [|c s IH]; cbn [contains]; intros H.
  - rewrite orb_false_r in H. apply startswith_inv in H as [q ->]. now exists EmptyString, q.
  - apply orb_true_iff in H as [H|H].
    + apply startswith_inv in H as [q ->]. now exists EmptyString, q.
    + destruct (IH H) as (p & q & ->). now exists (String c p), q.
Qed.

Lemma contains_trans (a b c : string) :
  contains a b = true -> contains b c = true -> contains a c = true.
Proof.
  intros Hab Hbc.
  destruct (contains_inv a b Hab) as (p & q & ->).
  destruct (contains_inv _ c Hbc) as (p' & q' & ->).
  rewrite !append_assoc. apply contains_app_r, contains_app_r, contains_prefix.
Qed.

Lemma contains_join (sep x : string) (l : list string) :
  In x l -> contains x (join sep l) = true.
Proof.
  induction l as [|y l IH]; [intros []|].
  intros [->|Hin].
  - destruct l; cbn [join]; [apply contains_refl|apply contains_prefix].
  - destruct l as [|z l]; [destruct Hin|].
    change (join sep (y :: z :: l)) with (y +:+ sep +:+ join sep (z :: l)).
    now apply contains_app_r, contains_app_r, IH.
Qed.


(* ------------------------------------------------------------------- *)
(** *** Lines *)

Lemma split_cons (c : ascii) (s : string) : exists w ws, split c s = w :: ws.
Proof.
  induction s as [|a s (w & ws & IH)]; cbn [split]; [eauto|].
  destruct (Ascii.eqb a c); [eauto|]. rewrite IH. eauto.
Qed.

Lemma split_app (c : ascii) (a b : string) :
  split c (a +:+ String c b) = split c a ++ split c b.
Proof.
  induction a as [|x a IH].
  - change (EmptyString +:+ String c b) with (String c b).
    cbn [split]. now rewrite Ascii.eqb_refl.
  - change (String x a +:+ String c b) with (String x (a +:+ String c b)).
    cbn [split]. destruct (Ascii.eqb x c); rewrite IH; [reflexivity|].
    destruct (split_cons c a) as (w & ws & ->). reflexivity.
Qed.

Lemma split_join (l : list string) :
  l <> [] -> split "010" (join nl l) = flat_map (split "010") l.
Proof.
  induction l as [|x l IH]; [congruence|]. intros _.
  destruct l as [|y l].
  - cbn [join flat_map]. now rewrite app_nil_r.
  - change (join nl (x :: y :: l)) with (x +:+ String "010" (join nl (y :: l))).
    rewrite split_app, IH by discriminate. reflexivity.
Qed.

Lemma join_split (s : string) : join nl (split "010" s) = s.
Proof.
  induction s as [|c s IH]; [reflexivity|]. cbn [split].
  destruct (Ascii.eqb_spec c "010") as [->|Hc].
  - destruct (split_cons "010" s) as (w & ws & E). rewrite E in *.
    change (join nl (EmptyString :: w :: ws)) with (String "010" (join nl (w :: ws))).
    now rewrite IH.
  - destruct (split_cons "010" s) as (w & ws & E). rewrite E in *.
    destruct ws as [|v ws].
    + cbn [join] in *. now rewrite IH.
    + change (join nl (String c w :: v :: ws)) with (String c (join nl (w :: v :: ws))).
      now rewrite IH.
Qed.

Lemma one_line_app (a b : string) :
  Shape.one_line (a +:+ b) = Shape.one_line a && Shape.one_line b.
Proof.
  induction a as [|x a IH]; [reflexivity|].
  change (String x a +:+ b) with (String x (a +:+ b)).
  cbn [Shape.one_line]. now rewrite IH, andb_assoc.
Qed.

Lemma split_one_line (s : string) : Shape.one_line s = true -> split "010" s = [s].
Proof.
  induction s as [|c s IH]; [reflexivity|]. cbn [Shape.one_line split].
  intros H. apply andb_true_iff in H as [Hc Hs]. apply negb_true_iff in Hc.
  now rewrite Hc, (IH Hs).
Qed.

Lemma one_line_uint (u : Decimal.uint) : Shape.one_line (NilEmpty.string_of_uint u) = true.
Proof. induction u; cbn [NilEmpty.string_of_uint Shape.one_line]; auto. Qed.

Lemma one_line_of_nat (n : nat) : Shape.one_line (of_nat n) = true.
Proof.
  unfold of_nat, NilZero.string_of_uint.
  destruct (Nat.to_uint n) eqn:E; try reflexivity; rewrite <- E; apply one_line_uint.
Qed.

Lemma one_line_repeat (c : ascii) (n : nat) :
  Ascii.eqb c "010" = false -> Shape.one_line (repeat c n) = true.
Proof. intros H. induction n as [|n IH]; cbn [repeat Shape.one_line]; [reflexivity|now rewrite H]. Qed.

Lemma one_line_zfill (w n : nat) : Shape.one_line (zfill w n) = true.
Proof.
  unfold zfill. rewrite one_line_app, one_line_of_nat, one_line_repeat; reflexivity.
Qed.

Lemma one_line_isoformat (t : datetime) : Shape.one_line (isoformat t) = true.
Proof.
  unfold isoformat, strftime_date.
  rewrite !one_line_app, !one_line_zfill. cbn [andb Shape.one_line negb Ascii.eqb Bool.eqb].
  destruct (microsecond t); [reflexivity|].
  now rewrite one_line_app, one_line_zfill.
Qed.


Lemma length_append (a b : string) :
  String.length (a +:+ b) = (String.length a + String.length b)%nat.
Proof.
  induction a as [|x a IH]; [reflexivity|].
  change (String x a +:+ b) with (String x (a +:+ b)). cbn [String.length]. now rewrite IH.
Qed.

Lemma append_inj_r (a b s : string) : a +:+ s = b +:+ s -> a = b.
Proof.
  revert b. induction a as [|x a IH]; intros [|y b] H.
  - reflexivity.
  - apply (f_equal String.length) in H. rewrite !length_append in H. cbn in H. lia.
  - apply (f_equal String.length) in H. rewrite !length_append in H. cbn in H. lia.
  - change (String x (a +:+ s) = String y (b +:+ s)) in H.
    injection H as -> H. now rewrite (IH b H).
Qed.


(** Reading back: universal newlines go through a concatenation piece by
    piece, and change nothing in a text without carriage returns. *)
Lemma universal_newlines_app (after_cr : bool) (a b : string) :
  universal_newlines after_cr (a +:+ b)
  = universal_newlines after_cr a +:+ universal_newlines (Shape.ends_cr after_cr a) b.
Proof.
  revert after_cr. induction a as [|c a IH]; intros after_cr; [reflexivity|].
  change (String c a +:+ b) with (String c (a +:+ b)).
  cbn [universal_newlines Shape.ends_cr].
  destruct (Ascii.eqb c "013") eqn:Ec.
  - rewrite IH. reflexivity.
  - destruct (Ascii.eqb c "010" && after_cr); rewrite IH; reflexivity.
Qed.

Lemma read_text_no_cr (s : string) : Shape.no_cr s = true -> read_text s = s.
Proof.
  unfold read_text. induction s as [|c s IH]; [reflexivity|].
  cbn [Shape.no_cr universal_newlines]. intros H.
  apply andb_true_iff in H as [Hc Hs]. apply negb_true_iff in Hc.
  rewrite Hc, andb_false_r, (IH Hs). reflexivity.
Qed.

Lemma no_cr_app (a b : string) :
  Shape.no_cr (a +:+ b) = Shape.no_cr a && Shape.no_cr b.
Proof.
  induction a as [|x a IH]; [reflexivity|].
  change (String x a +:+ b) with (String x (a +:+ b)).
  cbn [Shape.no_cr]. now rewrite IH, andb_assoc.
Qed.

Lemma no_cr_uint (u : Decimal.uint) : Shape.no_cr (NilEmpty.string_of_uint u) = true.
Proof. induction u; cbn [NilEmpty.string_of_uint Shape.no_cr]; auto. Qed.

Lemma no_cr_of_nat (n : nat) : Shape.no_cr (of_nat n) = true.
Proof.
  unfold of_nat, NilZero.string_of_uint.
  destruct (Nat.to_uint n) eqn:E; try reflexivity; rewrite <- E; apply no_cr_uint.
Qed.

Lemma no_cr_zfill (w n : nat) : Shape.no_cr (zfill w n) = true.
Proof.
  unfold zfill. rewrite no_cr_app, no_cr_of_nat, andb_true_r.
  generalize (w - String.length (of_nat n))%nat. intros k.
  induction k as [|k IH]; cbn [repeat Shape.no_cr]; [reflexivity|exact IH].
Qed.

Lemma no_cr_isoformat (t : datetime) : Shape.no_cr (isoformat t) = true.
Proof.
  unfold isoformat, strftime_date.
  rewrite !no_cr_app, !no_cr_zfill. cbn [andb Shape.no_cr negb Ascii.eqb Bool.eqb].
  destruct (microsecond t); [reflexivity|].
  now rewrite no_cr_app, no_cr_zfill.
Qed.

End StrFacts.
(* ===================================================================== *)
(** ** Properties of event_manager.py *)
(* ===================================================================== *)

Ltac run := cbn [mbind result_bind mret result_ret] in *.

Module EventManagerSpec.
Import EventManager Shape.

(** [repo_name] is computed without raising when the repository field
    is absent or a dict; it is [unknown-repo] when the payload names no
    repository. *)
Lemma repo_name_ok (d : list (string * json)) :
  field_ok is_dict d "repository" = true ->
  exists rn,
    (repo_info ← Py.get (JDict d) "repository" (JDict []);
     full_name ← Py.get repo_info "full_name" JNull;
     if Py.truthy full_name then Ok full_name
     else
       name ← Py.get repo_info "name" JNull;
       Ok (if Py.truthy name then name else JStr "unknown-repo")) = Ok rn
    /\ (repo_unnamed d = true -> rn = JStr "unknown-repo").
Proof.
  unfold field_ok, repo_unnamed, falsy. intros H. cbn [Py.get]. run.
  destruct (Py.lookup d "repository") as [v|] eqn:E.
  - destruct v as [| | | | | |r]; try discriminate. cbn [Py.get]. run.
    destruct (Py.lookup r "full_name") as [fn|]; cbn [Py.truthy].
    + destruct (Py.truthy fn); cbn [negb andb];
        [eexists; split; [reflexivity|discriminate]|].
      run. destruct (Py.lookup r "name") as [nm|]; cbn [Py.truthy].
      * destruct (Py.truthy nm); cbn [negb];
          eexists; (split; [reflexivity|]); [discriminate|reflexivity].
      * eexists; split; reflexivity.
    + run. destruct (Py.lookup r "name") as [nm|]; cbn [Py.truthy].
      * destruct (Py.truthy nm); cbn [negb andb];
          eexists; (split; [reflexivity|]); [discriminate|reflexivity].
      * eexists; split; reflexivity.
  - cbn. eexists; split; [reflexivity|reflexivity].
Qed.

Lemma summarize_event_unfold (L : Py.lib) (ty : string) (d : list (string * json)) :
  field_ok is_dict d "repository" = true ->
  exists rn,
    (repo_unnamed d = true -> rn = JStr "unknown-repo") /\
    summarize_event L ty (JDict d) =
    if String.eqb ty "push" then
      commits ← Py.get (JDict d) "commits" (JList []);
      ref ← Py.get (JDict d) "ref" (JStr "");
      branch ← Py.str_replace ref "refs/heads/" "";
      n ← Py.len commits;
      Ok ("Pushed " +:+ Str.of_nat n +:+ " commits to " +:+ branch +:+ " in "
          +:+ Py.str L rn)
    else if String.eqb ty "release" then
      release ← Py.get (JDict d) "release" (JDict []);
      tag ← Py.get release "tag_name" (JStr "unknown");
      Ok ("Released version " +:+ Py.str L tag +:+ " in " +:+ Py.str L rn)
    else if String.eqb ty "repository" then
      action ← Py.get (JDict d) "action" (JStr "updated");
      Ok ("Repository " +:+ Py.str L action +:+ ": " +:+ Py.str L rn)
    else if String.eqb ty "organization" then
      action ← Py.get (JDict d) "action" (JStr "updated");
      Ok ("Organization " +:+ Py.str L action)
    else
      Ok (ty +:+ " event occurred in " +:+ Py.str L rn).
Proof.
  intros H. destruct (repo_name_ok d H) as (rn & Hrn & Hdef).
  exists rn. split; [exact Hdef|].
  unfold summarize_event.
  run. cbn [Py.get] in *. run.
  destruct (Py.lookup d "repository") as [v|]; cbn [Py.get] in *.
  - destruct v; try discriminate. cbn [Py.get] in *. run.
    destruct (Py.truthy _); [injection Hrn as <-; reflexivity|]. run.
    injection Hrn as <-. reflexivity.
  - cbn in Hrn. injection Hrn as <-. reflexivity.
Qed.

Ltac find_sub :=
  first [ apply StrFacts.contains_refl
        | apply StrFacts.contains_prefix
        | apply StrFacts.contains_app_r; find_sub ].

Lemma typed_fields (d : list (string * json)) :
  github_typed d = true ->
  field_ok is_dict d "repository" = true /\ field_ok is_list d "commits" = true
  /\ field_ok is_str d "ref" = true /\ field_ok is_dict d "release" = true.
Proof.
  unfold github_typed. rewrite !andb_true_iff. tauto.
Qed.

Lemma push_summary (L : Py.lib) (d : list (string * json)) :
  github_typed d = true ->
  exists rn commits ref,
    summarize_event L "push" (JDict d)
    = Ok ("Pushed " +:+ Str.of_nat (List.length commits) +:+ " commits to "
          +:+ Str.replace "refs/heads/" "" ref +:+ " in " +:+ Py.str L rn)
    /\ Py.lookup d "commits" = (if has_key d "commits" then Some (JList commits) else None)
    /\ Py.lookup d "ref" = (if has_key d "ref" then Some (JStr ref) else None)
    /\ (has_key d "commits" = false -> commits = [])
    /\ (has_key d "ref" = false -> ref = "").
Proof.
  intros T. destruct (typed_fields d T) as (Hr & Hc & Hf & _).
  destruct (summarize_event_unfold L "push" d Hr) as (rn & _ & ->).
  cbn [String.eqb Ascii.eqb Bool.eqb]. cbn [Py.get]. run.
  unfold field_ok, has_key in *.
  destruct (Py.lookup d "commits") as [[]|]; try discriminate;
    destruct (Py.lookup d "ref") as [[]|]; try discriminate;
    cbn [Py.str_replace Py.len]; run;
    do 3 eexists; (split; [reflexivity|]); repeat split; congruence.
Qed.

(** C5 (as amended).  On a payload whose present fields have GitHub's
    types, [summarize_event] returns a line for every event type; the
    push line contains the number of commits and, for a ref
    [refs/heads/B] in which [refs/heads/] does not occur again, the
    branch [B]; a missing repository name (no ['repository'], or a
    repository object with neither a truthy ['full_name'] nor a truthy
    ['name']) becomes [unknown-repo], a missing release tag [unknown],
    a missing action [updated], a missing ref the empty string and
    missing commits the count 0. *)
Theorem summarize_event_defaults (L : Py.lib) (ty : string) (d : list (string * json)) :
  github_typed d = true ->
  returns (summarize_event L ty (JDict d))
  /\ (forall commits s,
        Py.lookup d "commits" = Some (JList commits) ->
        summarize_event L "push" (JDict d) = Ok s ->
        Str.contains (Str.of_nat (List.length commits)) s = true)
  /\ (forall B s,
        Py.lookup d "ref" = Some (JStr ("refs/heads/" +:+ B)) ->
        Str.contains "refs/heads/" B = false ->
        summarize_event L "push" (JDict d) = Ok s ->
        Str.contains B s = true)
  /\ (forall s,
        repo_unnamed d = true -> ty <> "organization" ->
        summarize_event L ty (JDict d) = Ok s ->
        Str.contains "unknown-repo" s = true)
  /\ (forall s,
        Py.lookup d "release" = None
        \/ (exists r, Py.lookup d "release" = Some (JDict r) /\ Py.lookup r "tag_name" = None) ->
        summarize_event L "release" (JDict d) = Ok s ->
        Str.startswith "Released version unknown in " s = true)
  /\ (Py.lookup d "action" = None ->
      (forall s, summarize_event L "repository" (JDict d) = Ok s ->
                 Str.startswith "Repository updated: " s = true)
      /\ summarize_event L "organization" (JDict d) = Ok "Organization updated")
  /\ (forall s,
        Py.lookup d "commits" = None ->
        summarize_event L "push" (JDict d) = Ok s ->
        Str.startswith "Pushed 0 commits to " s = true)
  /\ (forall s,
        Py.lookup d "ref" = None ->
        summarize_event L "push" (JDict d) = Ok s ->
        Str.contains " commits to  in " s = true).
Proof.
  intros T. destruct (typed_fields d T) as (Hr & Hc & Hf & Hl).
  destruct (push_summary L d T) as (rn & cs & ref & Hpush & Hcs & Href & Hcs0 & Href0).
  unfold has_key in *.
  repeat apply conj.
  - destruct (summarize_event_unfold L ty d Hr) as (rn' & _ & ->).
    unfold returns, field_ok in *.
    destruct (String.eqb ty "push").
    { cbn [Py.get]. run.
      destruct (Py.lookup d "commits") as [[]|]; try discriminate;
        destruct (Py.lookup d "ref") as [[]|]; try discriminate;
        cbn [Py.str_replace Py.len]; run; eexists; reflexivity. }
    destruct (String.eqb ty "release").
    { cbn [Py.get]. run.
      destruct (Py.lookup d "release") as [[]|]; try discriminate;
        cbn [Py.get]; run; eexists; reflexivity. }
    destruct (String.eqb ty "repository"); [cbn [Py.get]; run; eexists; reflexivity|].
    destruct (String.eqb ty "organization"); [cbn [Py.get]; run; eexists; reflexivity|].
    eexists; reflexivity.
  - intros commits s E. rewrite Hpush. intros [= <-].
    rewrite E in Hcs. destruct (Py.lookup d "commits"); [|discriminate].
    injection Hcs as <-. find_sub.
  - intros B s E HB. rewrite Hpush. intros [= <-].
    rewrite E in Href. injection Href as <-.
    rewrite (StrFacts.replace_branch B HB). find_sub.
  - intros s E Hty.
    destruct (summarize_event_unfold L ty d Hr) as (rn' & Hdef & ->).
    rewrite (Hdef E). cbn [Py.str].
    destruct (String.eqb ty "push").
    { cbn [Py.get]. run. unfold field_ok in *.
      destruct (Py.lookup d "commits") as [[]|]; try discriminate;
        destruct (Py.lookup d "ref") as [[]|]; try discriminate;
        cbn [Py.str_replace Py.len]; run; intros [= <-]; find_sub. }
    destruct (String.eqb ty "release").
    { cbn [Py.get]. run. unfold field_ok in *.
      destruct (Py.lookup d "release") as [[]|]; try discriminate;
        cbn [Py.get]; run; intros [= <-]; find_sub. }
    destruct (String.eqb ty "repository"); [cbn [Py.get]; run; intros [= <-]; find_sub|].
    destruct (String.eqb ty "organization") eqn:Eo.
    { apply String.eqb_eq in Eo. contradiction. }
    intros [= <-]. find_sub.
  - intros s Hrel.
    destruct (summarize_event_unfold L "release" d Hr) as (rn' & _ & ->).
    cbn [String.eqb Ascii.eqb Bool.eqb]. cbn [Py.get]. run.
    destruct Hrel as [-> | (r & -> & Hr')].
    + cbn [Py.get Py.lookup]. run. intros [= <-]. reflexivity.
    + cbn [Py.get]. rewrite Hr'. run. intros [= <-]. reflexivity.
  - intros E. split.
    + intros s.
      destruct (summarize_event_unfold L "repository" d Hr) as (rn' & _ & ->).
      cbn [String.eqb Ascii.eqb Bool.eqb]. cbn [Py.get]. rewrite E. run.
      intros [= <-]. reflexivity.
    + destruct (summarize_event_unfold L "organization" d Hr) as (rn' & _ & ->).
      cbn [String.eqb Ascii.eqb Bool.eqb]. cbn [Py.get]. rewrite E. run. reflexivity.
  - intros s E. rewrite Hpush. intros [= <-].
    rewrite E in Hcs0. rewrite (Hcs0 eq_refl). reflexivity.
  - intros s E. rewrite Hpush. intros [= <-].
    rewrite E in Href0. rewrite (Href0 eq_refl).
    do 2 apply StrFacts.contains_app_r. reflexivity.
Qed.

Lemma summarize_event_defaults_witness :
  github_typed Scenario.push_main = true
  /\ Str.contains "main" "Pushed 1 commits to main in unknown-repo" = true
  /\ github_typed Scenario.nameless_release = true
  /\ repo_unnamed Scenario.nameless_release = true
  /\ Str.contains "unknown-repo" "Released version v1.0 in unknown-repo" = true.
Proof.
  split; [reflexivity|]. split.
  - apply (proj1 (proj2 (proj2
             (summarize_event_defaults Scenario.lib "push" Scenario.push_main eq_refl)))
             "main"); reflexivity.
  - split; [reflexivity|]. split; [reflexivity|].
    apply (proj1 (proj2 (proj2 (proj2
             (summarize_event_defaults Scenario.lib "release" Scenario.nameless_release
                eq_refl))))); [reflexivity|discriminate|reflexivity].
Defined.

(** C5 (as stated) fails: a missing action is replaced by [updated],
    not by [unknown]; [replace] removes every [refs/heads/], not only
    the prefix; and a field of the wrong type raises. *)
Lemma summarize_event_defaults_counterexample :
  summarize_event Scenario.lib "organization" (JDict []) = Ok "Organization updated"
  /\ Str.contains "unknown" "Organization updated" = false
  /\ summarize_event Scenario.lib "push" (JDict [("ref", JStr "refs/heads/a/refs/heads/b")])
     = Ok "Pushed 0 commits to a/b in unknown-repo"
  /\ Str.contains "a/refs/heads/b" "Pushed 0 commits to a/b in unknown-repo" = false
  /\ summarize_event Scenario.lib "push" (JDict [("commits", JNull)]) = Raise TypeError.
Proof. repeat split; reflexivity. Qed.

(* ------------------------------------------------------------------- *)
(** *** Saving and loading *)


(** When the payload can be summarised, the bucket is appendable and
    the disk accepts the write, [save_event] returns. *)
Lemma save_event_returns (L : Py.lib) (W : World) (now_name now_stamp : datetime)
    (fs : gmap string node) (ty : string) (payload : json) :
  returns (summarize_event L ty payload) ->
  bucket_appendable (fs !! events_file (strftime_date now_name)) = true ->
  (forall text, disk_write W fs (events_file (strftime_date now_name)) text = Written) ->
  exists fs', save_event L W now_name now_stamp fs ty payload = (fs', Ok tt).
Proof.
  intros [s Hs] Hb Hw. unfold save_event. rewrite Hs.
  unfold existing_events, bucket_appendable in *.
  destruct (fs !! events_file (strftime_date now_name)) as [[text [v|]| |]|];
    try discriminate; try (rewrite Hw; eexists; reflexivity).
  destruct v; try discriminate. cbn [Py.len]. run. rewrite Hw. eexists; reflexivity.
Qed.



(* ------------------------------------------------------------------- *)
(** *** Archiving *)

Lemma events_posted_distinct (d : string) : events_file d <> posted_file d.
Proof. discriminate. Qed.

Lemma archive_events_true (W : World) (now : datetime) (fs fs' : gmap string node)
    (date : option string) :
  archive_events W now fs date = (fs', true) ->
  let d := date_or_today date now in
  is_Some (fs !! events_file d)
  /\ disk_rename W fs (events_file d) (posted_file d) = None
  /\ fs' !! events_file d = None
  /\ fs' !! posted_file d = fs !! events_file d.
Proof.
  unfold archive_events, renamed. intros H. cbv zeta.
  destruct (fs !! events_file (date_or_today date now)) as [n|] eqn:E; [|discriminate].
  destruct (disk_rename W fs _ _); [discriminate|].
  injection H as <-.
  repeat split; [by eexists| |by rewrite lookup_insert_eq].
  rewrite lookup_insert_ne by (apply not_eq_sym, events_posted_distinct).
  apply lookup_delete_eq.
Qed.

Lemma archive_events_absent (W : World) (now : datetime) (fs : gmap string node)
    (date : option string) :
  fs !! events_file (date_or_today date now) = None ->
  archive_events W now fs date = (fs, false).
Proof. unfold archive_events. now intros ->. Qed.

(** C4.  [archive_events] returns true exactly when the day's bucket
    exists and the rename succeeds, and false otherwise, leaving the
    directory as it was; after a successful call the bucket is gone, so
    a second call for the same day returns false (it has no way to
    raise) and changes nothing. *)
Theorem archive_events_idempotent (W : World) (now : datetime) (fs : gmap string node)
    (date : option string) :
  let d := date_or_today date now in
  (snd (archive_events W now fs date) = true
     <-> is_Some (fs !! events_file d)
         /\ disk_rename W fs (events_file d) (posted_file d) = None)
  /\ (snd (archive_events W now fs date) = false -> fst (archive_events W now fs date) = fs)
  /\ (forall fs',
        archive_events W now fs date = (fs', true) ->
        fs' !! posted_file d = fs !! events_file d
        /\ forall W' now',
             date_or_today date now' = d ->
             archive_events W' now' fs' date = (fs', false)).
Proof.
  cbv zeta. split; [|split].
  - split.
    + destruct (archive_events W now fs date) as [fs' b] eqn:E.
      cbn. intros ->. apply archive_events_true in E. tauto.
    + intros [[n Hn] Hr]. unfold archive_events. now rewrite Hn, Hr.
  - unfold archive_events.
    destruct (fs !! events_file _); [|reflexivity].
    destruct (disk_rename W fs _ _); [reflexivity|discriminate].
  - intros fs' H. apply archive_events_true in H as (_ & _ & Hgone & Hkept).
    split; [exact Hkept|].
    intros W' now' Hd. apply archive_events_absent. now rewrite Hd.
Qed.

Lemma archive_events_idempotent_witness :
  archive_events (Scenario.env NoResponse 201) Scenario.noon Scenario.one_bucket None
    = (Scenario.archived_bucket, true)
  /\ archive_events (Scenario.env NoResponse 201) Scenario.noon Scenario.archived_bucket None
    = (Scenario.archived_bucket, false).
Proof.
  assert (H : archive_events (Scenario.env NoResponse 201) Scenario.noon Scenario.one_bucket None
              = (Scenario.archived_bucket, true)) by reflexivity.
  split; [exact H|].
  exact (proj2 (proj2 (proj2
           (archive_events_idempotent (Scenario.env NoResponse 201) Scenario.noon
              Scenario.one_bucket None)) Scenario.archived_bucket H)
           (Scenario.env NoResponse 201) Scenario.noon eq_refl).
Defined.


(* ------------------------------------------------------------------- *)
(** *** Statistics *)

Lemma bump_counted (d : list (json * nat)) (k : json) :
  counted (Py.bump d k) = S (counted d).
Proof.
  induction d as [|[k' n] d IH]; cbn [Py.bump counted]; [reflexivity|].
  destruct (Py.key_eqb k' k); cbn [counted]; [reflexivity|].
  rewrite IH. lia.
Qed.

Lemma count_types_counted (events : list json) (counts counts' : list (json * nat)) :
  count_types events counts = Ok counts' ->
  counted counts' = (counted counts + List.length events)%nat.
Proof.
  revert counts. induction events as [|ev events IH]; intros counts; cbn [count_types].
  - intros [= <-]. cbn. lia.
  - destruct (Py.get ev "type" (JStr "unknown")) as [ty|]; run; [|discriminate].
    destruct (Py.hashable_key ty) as [key|]; run; [|discriminate].
    intros H. rewrite (IH _ H), bump_counted. cbn [List.length]. lia.
Qed.

Lemma length_list_ascii (s : string) :
  List.length (list_ascii_of_string s) = String.length s.
Proof. induction s as [|c s IH]; cbn; [reflexivity|now rewrite IH]. Qed.

Lemma len_iter (v : json) (n : nat) :
  Py.len v = Ok n -> exists items, Py.iter v = Ok items /\ List.length items = n.
Proof.
  destruct v; cbn [Py.len Py.iter]; try discriminate; intros [= <-]; eexists;
    (split; [reflexivity|]).
  - now rewrite length_map, length_list_ascii.
  - reflexivity.
  - now rewrite length_map.
Qed.

(** X1.  Whenever [get_event_stats] returns, its total is the length of
    the stored value and the counts per type add up to that total. *)
Theorem get_event_stats_totals (now : datetime) (fs : gmap string node)
    (date : option string) (st : stats) :
  get_event_stats now fs date = Ok st ->
  counted (event_types st) = total_events st
  /\ exists events,
       load_events now fs date = Ok events /\ Py.len events = Ok (total_events st).
Proof.
  unfold get_event_stats.
  destruct (load_events now fs date) as [events|]; run; [|discriminate].
  destruct (Py.len events) as [total|] eqn:Hlen; run; [|discriminate].
  destruct (len_iter events total Hlen) as (items & -> & Hitems). run.
  destruct (count_types items []) as [counts|] eqn:Hc; run; [|discriminate].
  intros [= <-]. cbn [event_types total_events].
  split; [|eauto].
  rewrite (count_types_counted _ _ _ Hc). cbn. exact Hitems.
Qed.

Lemma get_event_stats_totals_witness :
  exists st,
    get_event_stats Scenario.noon Scenario.day_bucket None = Ok st
    /\ counted (event_types st) = total_events st
    /\ total_events st = 3%nat.
Proof.
  eexists. split; [reflexivity|].
  split; [|reflexivity].
  exact (proj1 (get_event_stats_totals Scenario.noon Scenario.day_bucket None _ eq_refl)).
Defined.




(* ------------------------------------------------------------------- *)
(** *** What [save_event] and [archive_events] change *)





(** X4.  [save_event] touches no file other than the day's bucket, and
    when it raises the bucket is as it was unless the write itself
    failed after the file had been opened. *)
Theorem save_event_frame (L : Py.lib) (W : World) (now_name now_stamp : datetime)
    (fs : gmap string node) (ty : string) (payload : json) :
  let bucket := events_file (strftime_date now_name) in
  let out := save_event L W now_name now_stamp fs ty payload in
  (forall f, f <> bucket -> fst out !! f = fs !! f)
  /\ (forall e,
        snd out = Raise e ->
        fst out = fs
        \/ exists text remains,
             disk_write W fs bucket text = WriteFails e remains
             /\ fst out = <[bucket := remains]> fs).
Proof.
  cbv zeta. unfold save_event.
  destruct (summarize_event L ty payload) as [summary|]; [|split; auto].
  destruct (existing_events fs (events_file (strftime_date now_name)))
    as [[ | | | | |old| ]|]; try (split; auto; fail).
  destruct (disk_write W fs _ _) as [|e'|e' remains] eqn:Hw; cbn [fst snd]; split.
  - intros f Hf. apply lookup_insert_ne. congruence.
  - discriminate.
  - reflexivity.
  - auto.
  - intros f Hf. apply lookup_insert_ne. congruence.
  - intros e [= <-]. right. eauto.
Qed.

Lemma archive_events_bucketwise (W : World) (now : datetime) (fs : gmap string node)
    (date : option string) (f : string) :
  f <> posted_file (date_or_today date now) ->
  fst (archive_events W now fs date) !! f = fs !! f
  \/ (f = events_file (date_or_today date now)
      /\ fst (archive_events W now fs date) !! f = None).
Proof.
  intros Hp. unfold archive_events, renamed.
  destruct (fs !! events_file (date_or_today date now)) as [n|] eqn:E; [|now left].
  destruct (disk_rename W fs _ _); [now left|]. cbn [fst].
  destruct (decide (f = events_file (date_or_today date now))) as [->|Hne].
  - right. split; [reflexivity|].
    rewrite lookup_insert_ne by (apply not_eq_sym, events_posted_distinct).
    apply lookup_delete_eq.
  - left. rewrite lookup_insert_ne by congruence. now rewrite lookup_delete_ne by congruence.
Qed.

(** X5.  A successful [archive_events] leaves every file other than the
    bucket and its archived name as it was, and the day then counts as
    empty: [load_events] gives no events and the statistics are zero. *)
Theorem archive_events_consumes (W : World) (now now' : datetime)
    (fs fs' : gmap string node) (date : option string) :
  archive_events W now fs date = (fs', true) ->
  let d := date_or_today date now in
  (forall f, f <> events_file d -> f <> posted_file d -> fs' !! f = fs !! f)
  /\ load_events now' fs' (Some d) = Ok (JList [])
  /\ get_event_stats now' fs' (Some d) = Ok {| total_events := 0; event_types := [] |}.
Proof.
  intros H. cbv zeta.
  pose proof (archive_events_true _ _ _ _ _ H) as (_ & _ & Hgone & _). cbv zeta in Hgone.
  split; [|split].
  - intros f He Hp.
    pose proof (archive_events_bucketwise W now fs date f Hp) as Hb.
    rewrite H in Hb. cbn [fst] in Hb.
    destruct Hb as [Hs|[Hs _]]; [exact Hs|contradiction].
  - unfold load_events. cbn [date_or_today]. now rewrite Hgone.
  - unfold get_event_stats, load_events. cbn [date_or_today]. now rewrite Hgone.
Qed.

Lemma archive_events_consumes_witness :
  load_events Scenario.noon Scenario.archived_bucket (Some "2024-05-17") = Ok (JList []).
Proof.
  exact (proj1 (proj2 (archive_events_consumes (Scenario.env NoResponse 201) Scenario.noon
                         Scenario.noon Scenario.one_bucket Scenario.archived_bucket None
                         eq_refl))).
Defined.

End EventManagerSpec.

(* ===================================================================== *)
(** ** Properties of github_handler.py and app.py *)
(* ===================================================================== *)

Module GitHubHandlerSpec.
Import GitHubHandler.

Lemma expected_isascii (secret : string) (data : list byte) :
  Str.isascii (expected_signature secret data) = true.
Proof.
  unfold expected_signature. rewrite StrFacts.isascii_app.
  now rewrite StrFacts.hex_isascii.
Qed.

Lemma verify_configured (cfg : Config.t) (data : list byte) (secret : string)
    (signature : option string) :
  Config.GITHUB_WEBHOOK_SECRET cfg = Some secret -> secret <> "" ->
  verify_webhook_signature cfg data signature
  = compare_digest (expected_signature secret data) signature.
Proof.
  unfold verify_webhook_signature. intros -> Hne.
  destruct secret; [congruence|reflexivity].
Qed.

(** Without a secret every request is rejected. *)
Lemma verify_unconfigured (cfg : Config.t) (data : list byte) (signature : option string) :
  Py.nonempty (Config.GITHUB_WEBHOOK_SECRET cfg) = false ->
  verify_webhook_signature cfg data signature = Ok false.
Proof.
  unfold verify_webhook_signature.
  destruct (Config.GITHUB_WEBHOOK_SECRET cfg) as [[|c s]|]; [reflexivity|discriminate|reflexivity].
Qed.

(** C1 (the code departs from the claim).  With a non-empty secret the
    signature computed from the body is accepted and every other ASCII
    string is rejected; but an absent header, and a header with a
    character outside ASCII, make [compare_digest] raise [TypeError]
    instead of giving false. *)
Theorem verify_webhook_signature_cases (cfg : Config.t) (data : list byte)
    (secret : string) :
  Config.GITHUB_WEBHOOK_SECRET cfg = Some secret -> secret <> "" ->
  verify_webhook_signature cfg data (Some (expected_signature secret data)) = Ok true
  /\ (forall sig, Str.isascii sig = true -> sig <> expected_signature secret data ->
                  verify_webhook_signature cfg data (Some sig) = Ok false)
  /\ (forall sig, Str.isascii sig = false ->
                  verify_webhook_signature cfg data (Some sig) = Raise TypeError)
  /\ verify_webhook_signature cfg data None = Raise TypeError.
Proof.
  intros Hs Hne. rewrite !(verify_configured cfg data secret _ Hs Hne).
  unfold compare_digest. rewrite expected_isascii. cbn [andb].
  repeat apply conj.
  - now rewrite String.eqb_refl.
  - intros sig Ha Hd. rewrite (verify_configured cfg data secret _ Hs Hne).
    unfold compare_digest. rewrite expected_isascii, Ha. cbn [andb].
    destruct (String.eqb_spec (expected_signature secret data) sig); congruence.
  - intros sig Ha. rewrite (verify_configured cfg data secret _ Hs Hne).
    unfold compare_digest. now rewrite expected_isascii, Ha.
  - reflexivity.
Qed.

Lemma verify_webhook_signature_cases_witness :
  verify_webhook_signature (Scenario.cfg true) Scenario.body
    (Some (expected_signature "s3cret" Scenario.body)) = Ok true
  /\ verify_webhook_signature (Scenario.cfg true) Scenario.body None = Raise TypeError.
Proof.
  pose proof (verify_webhook_signature_cases (Scenario.cfg true) Scenario.body "s3cret"
                eq_refl ltac:(discriminate)) as (H1 & _ & _ & H4).
  exact (conj H1 H4).
Defined.

(** The digest of the body [{}] under the key [s3cret], and the two
    inputs on which the verifier raises. *)
Example verify_webhook_signature_runs :
  verify_webhook_signature (Scenario.cfg true) Scenario.body
    (Some "sha256=adbde1ce40c89c14215687d5d762a47df6dfaefcfad61e2e86718ffc8498571b")
  = Ok true
  /\ verify_webhook_signature (Scenario.cfg true) Scenario.body None = Raise TypeError
  /\ verify_webhook_signature (Scenario.cfg true) Scenario.body
       (Some (String (ascii_of_nat 233) EmptyString)) = Raise TypeError.
Proof. split; [|split]; vm_compute; reflexivity. Qed.

Lemma save_event_open_failure (L : Py.lib) (W : World) (now_name now_stamp : datetime)
    (fs : gmap string node) (ty : string) (payload : json) (e : exn) :
  returns (EventManager.summarize_event L ty payload) ->
  Shape.bucket_appendable (fs !! EventManager.events_file (strftime_date now_name)) = true ->
  (forall text,
     disk_write W fs (EventManager.events_file (strftime_date now_name)) text = OpenFails e) ->
  EventManager.save_event L W now_name now_stamp fs ty payload = (fs, Raise e).
Proof.
  intros [s Hs] Hb Hw. unfold EventManager.save_event. rewrite Hs.
  unfold EventManager.existing_events, Shape.bucket_appendable in *.
  destruct (fs !! EventManager.events_file (strftime_date now_name)) as [[text [v|]| |]|];
    try discriminate; try (now rewrite Hw).
  destruct v; try discriminate. cbn [Py.len]. run. now rewrite Hw.
Qed.

(** C9.  [process_webhook_event] answers with a boolean in every case
    (its [except Exception] leaves no exception to the caller): false,
    with the directory untouched, for an event type outside the four
    supported ones; false when [save_event] raises; and then the HTTP
    handler answers 200 with "Event not handled". *)
Theorem process_webhook_event_never_raises (L : Py.lib) (W : World)
    (now_name now_stamp : datetime) (fs : gmap string node)
    (event_type : option string) (payload : json) :
  (supported event_type = false ->
     process_webhook_event L W now_name now_stamp fs event_type payload = (fs, false))
  /\ (forall t fs' e,
        event_type = Some t -> supported (Some t) = true ->
        EventManager.save_event L W now_name now_stamp fs t payload = (fs', Raise e) ->
        process_webhook_event L W now_name now_stamp fs event_type payload = (fs', false))
  /\ (forall t fs' e cfg req,
        event_type = Some t -> supported (Some t) = true ->
        EventManager.save_event L W now_name now_stamp fs t payload = (fs', Raise e) ->
        verify_webhook_signature cfg (App.req_data req) (App.req_signature req) = Ok true ->
        App.req_json req = Ok payload ->
        App.req_event req = event_type ->
        App.github_webhook cfg L W now_name now_stamp fs req
        = (fs', App.reply "status" "Event not handled" 200)).
Proof.
  split; [|split].
  - unfold process_webhook_event. intros H.
    destruct event_type; [now rewrite H|reflexivity].
  - intros t fs' e -> Hs Hsave. unfold process_webhook_event. now rewrite Hs, Hsave.
  - intros t fs' e cfg req -> Hs Hsave Hv Hj He.
    unfold App.github_webhook. rewrite Hv, Hj, He.
    unfold process_webhook_event. now rewrite Hs, Hsave.
Qed.

Lemma process_webhook_event_never_raises_witness :
  App.github_webhook (Scenario.cfg true) Scenario.lib Scenario.env_disk_full
    Scenario.noon Scenario.noon ∅ Scenario.push_request
  = (∅, App.reply "status" "Event not handled" 200).
Proof.
  apply (proj2 (proj2
           (process_webhook_event_never_raises Scenario.lib Scenario.env_disk_full
              Scenario.noon Scenario.noon ∅ (Some "push") (JDict [])))
           "push" ∅ OSError (Scenario.cfg true) Scenario.push_request);
    vm_compute; reflexivity.
Defined.

(** A request without the signature header is answered with 500, not
    with 403: the [TypeError] reaches the handler's [except]. *)
Lemma github_webhook_absent_signature (cfg : Config.t) (L : Py.lib) (W : World)
    (now_name now_stamp : datetime) (fs : gmap string node) (req : App.request) :
  Py.nonempty (Config.GITHUB_WEBHOOK_SECRET cfg) = true ->
  App.req_signature req = None ->
  App.github_webhook cfg L W now_name now_stamp fs req
  = (fs, App.reply "error" "Internal server error" 500).
Proof.
  intros Hs Hn. unfold App.github_webhook, verify_webhook_signature. rewrite Hn.
  destruct (Config.GITHUB_WEBHOOK_SECRET cfg) as [[|c s]|]; try discriminate.
  reflexivity.
Qed.


(* ------------------------------------------------------------------- *)
(** *** The webhook endpoint as a whole *)

Lemma verify_true_inv (cfg : Config.t) (data : list byte) (signature : option string) :
  verify_webhook_signature cfg data signature = Ok true ->
  exists secret,
    Config.GITHUB_WEBHOOK_SECRET cfg = Some secret /\ secret <> ""
    /\ signature = Some (expected_signature secret data).
Proof.
  unfold verify_webhook_signature.
  destruct (Config.GITHUB_WEBHOOK_SECRET cfg) as [[|c s]|]; try discriminate.
  remember (expected_signature (String c s) data) as expected eqn:Hexp.
  unfold compare_digest.
  destruct signature as [sig|]; [|discriminate].
  destruct (_ && _); [|discriminate].
  intros H. assert (E : String.eqb expected sig = true) by congruence.
  apply String.eqb_eq in E. subst sig.
  exists (String c s). repeat split; congruence.
Qed.

(** X6.  The webhook endpoint answers with 200, 403 or 500 only; with
    403 exactly when the verifier returns false; and it changes the
    directory only for a request that carries the signature of its body
    under the configured secret and a supported event type. *)
Theorem github_webhook_guard (cfg : Config.t) (L : Py.lib) (W : World)
    (now_name now_stamp : datetime) (fs : gmap string node) (req : App.request) :
  let out := App.github_webhook cfg L W now_name now_stamp fs req in
  (snd (snd out) = 200 \/ snd (snd out) = 403 \/ snd (snd out) = 500)
  /\ (snd (snd out) = 403
      <-> verify_webhook_signature cfg (App.req_data req) (App.req_signature req) = Ok false)
  /\ (fst out <> fs ->
      exists secret t,
        Config.GITHUB_WEBHOOK_SECRET cfg = Some secret /\ secret <> ""
        /\ App.req_signature req = Some (expected_signature secret (App.req_data req))
        /\ App.req_event req = Some t /\ supported (Some t) = true).
Proof.
  cbv zeta. unfold App.github_webhook.
  destruct (verify_webhook_signature cfg (App.req_data req) (App.req_signature req))
    as [[|]|e] eqn:Hv; cbn [fst snd App.reply].
  - destruct (App.req_json req) as [payload|e]; cbn [fst snd App.reply].
    + unfold process_webhook_event.
      destruct (App.req_event req) as [t|] eqn:He;
        [destruct (supported (Some t)) eqn:Hs|]; cbn [fst snd App.reply].
      * destruct (EventManager.save_event L W now_name now_stamp fs t payload)
          as [fs' [[]|e]]; cbn [fst snd App.reply];
          (split; [auto|]); (split; [split; discriminate|]); intros _;
          destruct (verify_true_inv _ _ _ Hv) as (secret & H1 & H2 & H3);
          exists secret, t; auto.
      * split; [auto|]. split; [split; discriminate|]. congruence.
      * split; [auto|]. split; [split; discriminate|]. congruence.
    + split; [auto|]. split; [split; discriminate|]. congruence.
  - split; [auto|]. split; [split; reflexivity|]. congruence.
  - split; [auto|]. split; [split; discriminate|]. congruence.
Qed.



(** X8.  With a non-empty secret the single-file variant's verifier and
    the package's verifier give the same answer on every input; they
    part when the secret is not set (the variant raises, the package
    rejects) and when it is empty (the variant accepts the digest under
    the empty key, the package rejects everything). *)
Theorem legacy_verify_agrees (cfg : Config.t) (data : list byte) (signature : option string) :
  (Py.nonempty (Config.GITHUB_WEBHOOK_SECRET cfg) = true ->
   Legacy.verify_github_webhook cfg data signature
   = verify_webhook_signature cfg data signature)
  /\ (Config.GITHUB_WEBHOOK_SECRET cfg = None ->
      Legacy.verify_github_webhook cfg data signature = Raise AttributeError
      /\ verify_webhook_signature cfg data signature = Ok false)
  /\ (Config.GITHUB_WEBHOOK_SECRET cfg = Some "" ->
      Legacy.verify_github_webhook cfg data (Some (expected_signature "" data)) = Ok true
      /\ verify_webhook_signature cfg data signature = Ok false).
Proof.
  unfold Legacy.verify_github_webhook, verify_webhook_signature.
  split; [|split].
  - destruct (Config.GITHUB_WEBHOOK_SECRET cfg) as [[|c s]|]; try discriminate. reflexivity.
  - intros ->. split; reflexivity.
  - intros ->. split; [|reflexivity].
    unfold compare_digest. rewrite expected_isascii. cbn [andb].
    now rewrite String.eqb_refl.
Qed.


Lemma supported_In (t : string) :
  supported (Some t) = true <-> In t get_supported_events.
Proof.
  unfold supported. rewrite List.existsb_exists. split.
  - intros (x & Hin & Heq). apply String.eqb_eq in Heq. now subst x.
  - intros Hin. exists t. split; [exact Hin|apply String.eqb_refl].
Qed.

(** X23.  What the handler processes is what [get_supported_events]
    advertises: [process_webhook_event] answers true exactly for an
    event type in that list for which [save_event] returns, and for any
    other type, or none, it leaves the directory alone. *)
Theorem process_webhook_event_supported (L : Py.lib) (W : World)
    (now_name now_stamp : datetime) (fs : gmap string node)
    (event_type : option string) (payload : json) :
  (snd (process_webhook_event L W now_name now_stamp fs event_type payload) = true
   <-> exists t,
         event_type = Some t /\ In t get_supported_events
         /\ snd (EventManager.save_event L W now_name now_stamp fs t payload) = Ok tt)
  /\ ((forall t, event_type = Some t -> ~ In t get_supported_events) ->
      process_webhook_event L W now_name now_stamp fs event_type payload = (fs, false)).
Proof.
  unfold process_webhook_event. destruct event_type as [t|].
  2:{ split; [|reflexivity]. split; [discriminate|]. intros (t & Ht & _). discriminate. }
  pose proof (supported_In t) as Hs.
  destruct (supported (Some t)).
  - split.
    + destruct (EventManager.save_event L W now_name now_stamp fs t payload)
        as [fs' [[]|e]] eqn:Hsave; cbn [snd]; split.
      * intros _. exists t. rewrite Hsave. split; [reflexivity|]. split; [now apply Hs|].
        reflexivity.
      * reflexivity.
      * discriminate.
      * intros (t' & [= <-] & _ & Hr). rewrite Hsave in Hr. discriminate.
    + intros Hn. destruct (Hn t eq_refl). now apply Hs.
  - split; [|reflexivity]. split; [discriminate|].
    intros (t' & [= <-] & Hin & _). apply Hs in Hin. discriminate.
Qed.

End GitHubHandlerSpec.

(* ===================================================================== *)
(** ** Properties of ai_processor.py *)
(* ===================================================================== *)

Module AIProcessorSpec.
Import AIProcessor Shape.

Lemma summarizable_fields (event : json) :
  summarizable event = true ->
  exists d t s,
    event = JDict d /\ Py.lookup d "type" = Some (JStr t) /\ Py.lookup d "summary" = Some s.
Proof.
  destruct event as [| | | | | |d]; try discriminate. cbn [summarizable].
  unfold field_ok, has_key.
  destruct (Py.lookup d "type") as [[]|] eqn:Ht; try discriminate.
  destruct (Py.lookup d "summary") eqn:Hs; [|discriminate].
  intros _. do 3 eexists. split; [reflexivity|]. split; [exact Ht|exact Hs].
Qed.

Lemma event_lines_ok (L : Py.lib) (events : list json) :
  forallb summarizable events = true ->
  exists lines, Py.comprehension (event_line L) events = Ok lines.
Proof.
  induction events as [|ev events IH]; cbn [forallb Py.comprehension].
  - eexists; reflexivity.
  - intros H. apply andb_true_iff in H as [Hev Hrest].
    destruct (summarizable_fields ev Hev) as (d & t & s & -> & Ht & Hs).
    destruct (IH Hrest) as [lines ->].
    unfold event_line. cbn [Py.getitem]. rewrite Ht, Hs. run. cbn [Py.str_title]. run.
    eexists; reflexivity.
Qed.

(** The types collected by the fallback are the strings stored under
    ['type']. *)
Lemma event_types_ok (events : list json) :
  forallb summarizable events = true ->
  exists names,
    Py.comprehension (fun e => Py.getitem e "type") events = Ok (map JStr names)
    /\ Py.comprehension Py.as_str (map JStr names) = Ok names
    /\ forall x, x ∈ names <-> exists ev, ev ∈ events /\ Py.getitem ev "type" = Ok (JStr x).
Proof.
  induction events as [|ev events IH]; cbn [forallb Py.comprehension].
  - intros _. exists []. repeat split; try reflexivity.
    + intros H. inversion H.
    + intros (ev & H & _). inversion H.
  - intros H. apply andb_true_iff in H as [Hev Hrest].
    destruct (summarizable_fields ev Hev) as (d & t & s & -> & Ht & Hs).
    destruct (IH Hrest) as (names & Hn & Ha & Hmem).
    exists (t :: names). cbn [Py.getitem map Py.comprehension Py.as_str].
    rewrite Ht, Hn. run. rewrite Ha. run.
    repeat split; try reflexivity.
    + intros Hx. apply elem_of_cons in Hx as [->|Hx].
      * exists (JDict d). split; [left|]. cbn [Py.getitem]. now rewrite Ht.
      * apply Hmem in Hx as (ev & Hin & Hty). exists ev. split; [now right|exact Hty].
    + intros (ev & Hin & Hty). apply elem_of_cons in Hin as [->|Hin].
      * cbn [Py.getitem] in Hty. rewrite Ht in Hty. injection Hty as ->. left.
      * right. apply Hmem. eauto.
Qed.

Lemma fallback_summary_ok (L : Py.lib) (events : list json) :
  forallb summarizable events = true ->
  exists types,
    fallback_summary L events = Ok (fallback_sentence (List.length events) types)
    /\ NoDup types
    /\ forall x, x ∈ types <-> exists ev, ev ∈ events /\ Py.getitem ev "type" = Ok (JStr x).
Proof.
  intros H. destruct (event_types_ok events H) as (names & Hn & Ha & Hmem).
  exists (Py.set_iter L names). unfold fallback_summary. rewrite Hn. run. rewrite Ha. run.
  split; [reflexivity|]. split; [apply Py.set_iter_NoDup|].
  intros x. rewrite Py.set_iter_elem. apply Hmem.
Qed.

(** C6 (as amended).  On a list of events that are dicts with a string
    ['type'] and a ['summary'], [generate_daily_summary] raises nothing;
    when the model call fails (no client, a failed request, an unusable
    reply) it returns the templated sentence with the number of events
    and each event type present exactly once. *)
Theorem generate_daily_summary_fallback (cfg : Config.t) (L : Py.lib) (W : World)
    (self : AIProcessor.t) (events : list json) :
  forallb summarizable events = true ->
  (exists self' text, generate_daily_summary cfg L W self events = (self', Ok text))
  /\ (forall lines self' e,
        Py.comprehension (event_line L) events = Ok lines ->
        request_summary cfg W self (prompt_of (Str.join nl lines)) = (self', Raise e) ->
        exists types,
          generate_daily_summary cfg L W self events
          = (self', Ok (fallback_sentence (List.length events) types))
          /\ NoDup types
          /\ forall x, x ∈ types <->
                       exists ev, ev ∈ events /\ Py.getitem ev "type" = Ok (JStr x)).
Proof.
  intros H.
  destruct (event_lines_ok L events H) as [lines Hl].
  destruct (fallback_summary_ok L events H) as (types & Hf & Hnd & Hmem).
  unfold generate_daily_summary. rewrite Hl. split.
  - destruct (request_summary cfg W self _) as [self' [text|e]]; rewrite ?Hf; eauto.
  - intros lines' self' e [= <-] ->. exists types. rewrite Hf. auto.
Qed.

Lemma generate_daily_summary_fallback_witness :
  forallb summarizable Scenario.day_events = true
  /\ exists self' text,
       generate_daily_summary (Scenario.cfg true) Scenario.lib (Scenario.env NoResponse 201)
         AIProcessor.init Scenario.day_events = (self', Ok text).
Proof.
  split; [reflexivity|].
  exact (proj1 (generate_daily_summary_fallback (Scenario.cfg true) Scenario.lib
                  (Scenario.env NoResponse 201) AIProcessor.init Scenario.day_events eq_refl)).
Defined.

Example generate_daily_summary_fallback_runs :
  snd (generate_daily_summary (Scenario.cfg true) Scenario.lib (Scenario.env NoResponse 201)
         AIProcessor.init Scenario.day_events)
  = Ok "Today we had 3 GitHub activities including release, push. Great progress on our projects!".
Proof. vm_compute. reflexivity. Qed.

(** C6 (as stated) fails: for the event list [[{}]] the failure is a
    [KeyError] that reaches the caller. *)
Lemma generate_daily_summary_fallback_counterexample :
  generate_daily_summary (Scenario.cfg true) Scenario.lib (Scenario.env NoResponse 201)
    AIProcessor.init [JDict []]
  = (AIProcessor.init, Raise (KeyError "type")).
Proof. reflexivity. Qed.

Lemma event_line_dict (L : Py.lib) (d : list (string * json)) :
  event_line L (JDict d)
  = match Py.lookup d "type" with
    | None => Raise (KeyError "type")
    | Some ty =>
        titled ← Py.str_title L ty;
        match Py.lookup d "summary" with
        | None => Raise (KeyError "summary")
        | Some summary => Ok ("- " +:+ titled +:+ ": " +:+ Py.str L summary)
        end
    end.
Proof.
  unfold event_line. cbn [Py.getitem].
  destruct (Py.lookup d "type") as [ty|]; [|reflexivity]. run.
  destruct (Py.str_title L ty); [|reflexivity]. run.
  destruct (Py.lookup d "summary"); reflexivity.
Qed.

Lemma event_lines_key_error (L : Py.lib) (events : list json) :
  forallb event_dict events = true ->
  existsb lacks_key events = true ->
  exists k, (k = "type" \/ k = "summary")
            /\ Py.comprehension (event_line L) events = Raise (KeyError k).
Proof.
  induction events as [|ev events IH]; cbn [forallb existsb Py.comprehension];
    [discriminate|].
  intros Hd Hl. apply andb_true_iff in Hd as [Hev Hrest].
  destruct ev as [| | | | | |d]; try discriminate.
  cbn [event_dict lacks_key] in *. unfold field_ok, has_key in *.
  rewrite event_line_dict.
  destruct (Py.lookup d "type") as [ty|].
  - destruct ty; try discriminate. run. cbn [Py.str_title]. run.
    destruct (Py.lookup d "summary") as [sm|].
    + run. cbn [negb orb] in Hl. destruct (IH Hrest Hl) as (k & Hk & ->).
      exists k. split; [exact Hk|reflexivity].
    + exists "summary". split; [now right|reflexivity].
  - exists "type". split; [now left|reflexivity].
Qed.

Lemma event_lines_raise (L : Py.lib) (events : list json) :
  existsb lacks_key events = true ->
  exists e, Py.comprehension (event_line L) events = Raise e.
Proof.
  induction events as [|ev events IH]; cbn [existsb Py.comprehension]; [discriminate|].
  intros Hl. destruct (event_line L ev) as [line|e] eqn:Hline; run; [|now exists e].
  assert (Hev : lacks_key ev = false).
  { destruct ev as [| | | | | |d]; try reflexivity.
    rewrite event_line_dict in Hline. cbn [lacks_key]. unfold has_key.
    destruct (Py.lookup d "type") as [ty|]; [|discriminate].
    destruct (Py.str_title L ty); run; [|discriminate].
    destruct (Py.lookup d "summary"); [reflexivity|discriminate]. }
  rewrite Hev in Hl. cbn [orb] in Hl.
  destruct (IH Hl) as [e ->]. run. now exists e.
Qed.

(** C10 (as amended).  The lines of the prompt are built before the
    [try]: on a list with an event dict that has no ['type'] or no
    ['summary'], [generate_daily_summary] raises, whatever the model
    would have answered; the processor is left as it was and no
    fallback sentence is returned.  When every event is a dict whose
    ['type'], if it has one, is a string, what is raised is [KeyError]
    for the missing key. *)
Theorem generate_daily_summary_key_error (cfg : Config.t) (L : Py.lib) (W : World)
    (self : AIProcessor.t) (events : list json) :
  existsb lacks_key events = true ->
  (exists e, generate_daily_summary cfg L W self events = (self, Raise e))
  /\ (forallb event_dict events = true ->
      exists k, (k = "type" \/ k = "summary")
                /\ generate_daily_summary cfg L W self events = (self, Raise (KeyError k))).
Proof.
  intros Hl. split.
  - destruct (event_lines_raise L events Hl) as [e Hraise].
    exists e. unfold generate_daily_summary. now rewrite Hraise.
  - intros Hd. destruct (event_lines_key_error L events Hd Hl) as (k & Hk & Hraise).
    exists k. split; [exact Hk|].
    unfold generate_daily_summary. now rewrite Hraise.
Qed.

Lemma generate_daily_summary_key_error_witness :
  existsb lacks_key Scenario.incomplete_events = true
  /\ forallb event_dict Scenario.incomplete_events = true
  /\ exists k, (k = "type" \/ k = "summary")
               /\ generate_daily_summary (Scenario.cfg true) Scenario.lib
                    (Scenario.env NoResponse 201) AIProcessor.init Scenario.incomplete_events
                  = (AIProcessor.init, Raise (KeyError k)).
Proof.
  split; [reflexivity|]. split; [reflexivity|].
  exact (proj2 (generate_daily_summary_key_error (Scenario.cfg true) Scenario.lib
                  (Scenario.env NoResponse 201) AIProcessor.init
                  Scenario.incomplete_events eq_refl) eq_refl).
Defined.

(** C10 (as stated) fails: an event dict that lacks ['summary'] and
    whose ['type'] is the number 5 makes [generate_daily_summary] raise
    [AttributeError], from [.title()], not [KeyError]; and a string
    ahead of an empty dict makes it raise [TypeError]. *)
Lemma generate_daily_summary_key_error_counterexample :
  existsb lacks_key [JDict [("type", JInt 5)]] = true
  /\ generate_daily_summary (Scenario.cfg true) Scenario.lib (Scenario.env NoResponse 201)
       AIProcessor.init [JDict [("type", JInt 5)]]
     = (AIProcessor.init, Raise AttributeError)
  /\ existsb lacks_key [JStr "push"; JDict []] = true
  /\ generate_daily_summary (Scenario.cfg true) Scenario.lib (Scenario.env NoResponse 201)
       AIProcessor.init [JStr "push"; JDict []]
     = (AIProcessor.init, Raise TypeError).
Proof. split; [|split; [|split]]; reflexivity. Qed.


(* ------------------------------------------------------------------- *)
(** *** The client and the prompts *)

(** X9.  Once [_get_client] has produced a client it is kept: every
    later call, under any configuration and in any environment, returns
    that client and leaves the processor as it is. *)
Theorem get_client_cached (cfg : Config.t) (W : World) (self self' : AIProcessor.t)
    (c : groq_client) :
  _get_client cfg W self = (self', Ok c) ->
  client self' = Some c
  /\ model self' = model self
  /\ forall cfg' W', _get_client cfg' W' self' = (self', Ok c).
Proof.
  unfold _get_client at 1. intros H.
  assert (Hc : client self' = Some c /\ model self' = model self).
  { destruct (client self) as [c0|] eqn:E.
    - injection H as <- <-. auto.
    - destruct (Config.GROQ_API_KEY cfg) as [[|a key]|]; try discriminate.
      destruct (String.eqb _ _); [discriminate|].
      destruct (groq_new W _ false).
      + destruct (httpx_has_Client W); [|discriminate].
        destruct (groq_new W _ true); [discriminate|].
        injection H as <- <-. auto.
      + injection H as <- <-. auto. }
  destruct Hc as [Hc Hm]. repeat split; [exact Hc|exact Hm|].
  intros cfg' W'. unfold _get_client. now rewrite Hc.
Qed.

Lemma get_client_cached_witness :
  _get_client Scenario.cfg_no_key Scenario.env_disk_full
    (with_client AIProcessor.init {| client_key := "gsk_key"; client_custom_http := false |})
  = (with_client AIProcessor.init {| client_key := "gsk_key"; client_custom_http := false |},
     Ok {| client_key := "gsk_key"; client_custom_http := false |}).
Proof.
  exact (proj2 (proj2 (get_client_cached (Scenario.cfg true) (Scenario.env NoResponse 201)
                         AIProcessor.init _ _ eq_refl))
           Scenario.cfg_no_key Scenario.env_disk_full).
Defined.

Lemma get_client_unusable (cfg : Config.t) (W : World) (self : AIProcessor.t) :
  key_unusable cfg = true -> client self = None ->
  _get_client cfg W self = (self, Raise ValueError).
Proof.
  unfold key_unusable, _get_client. intros Hk ->.
  destruct (Config.GROQ_API_KEY cfg) as [[|a key]|]; try reflexivity.
  now rewrite Hk.
Qed.

(** X10.  Without a usable API key (none, an empty one or the
    placeholder) and without a client made earlier, both generators
    degrade in every environment and leave the processor as it is:
    [generate_humanized_content] returns its input, and
    [generate_daily_summary], on events with a string type and a
    summary, returns the templated sentence. *)
Theorem generators_without_key (cfg : Config.t) (L : Py.lib) (W : World)
    (self : AIProcessor.t) (text : string) (events : list json) :
  key_unusable cfg = true -> client self = None ->
  generate_humanized_content cfg W self text = (self, text)
  /\ (forallb summarizable events = true ->
      exists types,
        generate_daily_summary cfg L W self events
        = (self, Ok (fallback_sentence (List.length events) types))
        /\ NoDup types
        /\ forall x, x ∈ types <->
                     exists ev, ev ∈ events /\ Py.getitem ev "type" = Ok (JStr x)).
Proof.
  intros Hk Hc. split.
  - unfold generate_humanized_content. now rewrite (get_client_unusable cfg W self Hk Hc).
  - intros He.
    destruct (event_lines_ok L events He) as [lines Hl].
    destruct (fallback_summary_ok L events He) as (types & Hf & Hnd & Hmem).
    exists types. unfold generate_daily_summary, request_summary.
    rewrite Hl, (get_client_unusable cfg W self Hk Hc), Hf. auto.
Qed.

Lemma generators_without_key_witness :
  generate_humanized_content Scenario.cfg_no_key (Scenario.env NoResponse 201)
    AIProcessor.init "3 commits to main"
  = (AIProcessor.init, "3 commits to main").
Proof.
  exact (proj1 (generators_without_key Scenario.cfg_no_key Scenario.lib
                  (Scenario.env NoResponse 201) AIProcessor.init "3 commits to main" []
                  eq_refl eq_refl)).
Defined.

Lemma comprehension_In {A B} (f : A -> result B) (l : list A) (ys : list B) (x : A) :
  Py.comprehension f l = Ok ys -> In x l -> exists y, f x = Ok y /\ In y ys.
Proof.
  revert ys. induction l as [|a l IH]; intros ys H Hin; [destruct Hin|].
  cbn [Py.comprehension] in H.
  destruct (f a) as [b|] eqn:Ha; run; [|discriminate].
  destruct (Py.comprehension f l) as [bs|]; run; [|discriminate].
  injection H as <-. destruct Hin as [->|Hin].
  - exists b. split; [exact Ha|now left].
  - destruct (IH bs eq_refl Hin) as (y & Hy & Hy'). exists y. split; [exact Hy|now right].
Qed.

Lemma prompt_of_contains (text : string) : Str.contains text (prompt_of text) = true.
Proof. unfold prompt_of. apply StrFacts.contains_join. cbn. tauto. Qed.

(** X11.  The prompt that [generate_daily_summary] sends to the model
    contains, for every event, the line made of its title-cased type and
    its summary. *)
Theorem prompt_mentions_every_event (cfg : Config.t) (L : Py.lib) (W : World)
    (self : AIProcessor.t) (evs : list json) :
  forallb summarizable evs = true ->
  exists ls,
    Py.comprehension (event_line L) evs = Ok ls
    /\ generate_daily_summary cfg L W self evs
       = (let '(self', r) := request_summary cfg W self (prompt_of (Str.join nl ls)) in
          match r with
          | Ok raw_summary => (self', Ok raw_summary)
          | Raise _ => (self', fallback_summary L evs)
          end)
    /\ forall d t s,
         In (JDict d) evs ->
         Py.lookup d "type" = Some (JStr t) -> Py.lookup d "summary" = Some s ->
         Str.contains ("- " +:+ Py.title L t +:+ ": " +:+ Py.str L s)
           (prompt_of (Str.join nl ls)) = true.
Proof.
  intros He. destruct (event_lines_ok L evs He) as [ls Hl]. exists ls.
  split; [exact Hl|]. split.
  - unfold generate_daily_summary. rewrite Hl.
    destruct (request_summary cfg W self _) as [self' [raw|e]]; reflexivity.
  - intros d t s Hin Ht Hs.
    destruct (comprehension_In _ _ _ _ Hl Hin) as (line & Hline & Hin').
    rewrite event_line_dict, Ht, Hs in Hline. cbn [Py.str_title] in Hline. run.
    injection Hline as <-.
    apply (StrFacts.contains_trans _ (Str.join nl ls)).
    + now apply StrFacts.contains_join.
    + apply prompt_of_contains.
Qed.


Lemma prompt_mentions_every_event_witness :
  exists ls,
    Py.comprehension (event_line Scenario.lib) Scenario.day_events = Ok ls
    /\ generate_daily_summary (Scenario.cfg false) Scenario.lib
         (Scenario.env NoResponse 201) AIProcessor.init Scenario.day_events
       = (let '(self', r) :=
            request_summary (Scenario.cfg false) (Scenario.env NoResponse 201)
              AIProcessor.init (prompt_of (Str.join nl ls)) in
          match r with
          | Ok raw_summary => (self', Ok raw_summary)
          | Raise _ => (self', fallback_summary Scenario.lib Scenario.day_events)
          end)
    /\ forall d t s,
         In (JDict d) Scenario.day_events ->
         Py.lookup d "type" = Some (JStr t) -> Py.lookup d "summary" = Some s ->
         Str.contains ("- " +:+ Py.title Scenario.lib t +:+ ": " +:+ Py.str Scenario.lib s)
           (prompt_of (Str.join nl ls)) = true.
Proof.
  exact (prompt_mentions_every_event (Scenario.cfg false) Scenario.lib
           (Scenario.env NoResponse 201) AIProcessor.init Scenario.day_events eq_refl).
Defined.

End AIProcessorSpec.

(* ===================================================================== *)
(** ** Properties of linkedin_poster.py *)
(* ===================================================================== *)

Module LinkedInPosterSpec.
Import LinkedInPoster Shape.

Lemma get_person_urn_cached (L : Py.lib) (W : World) (self : LinkedInPoster.t)
    (urn : string) :
  person_urn self = Some urn -> urn <> "" ->
  get_person_urn L W self = (self, Ok urn).
Proof.
  unfold get_person_urn. intros -> Hne. destruct urn; [congruence|reflexivity].
Qed.

(** C7 (as amended).  [post_content] returns true exactly when the
    identity is resolved and the post endpoint answers with a status
    that [raise_for_status] accepts (anything outside 400..599); an error
    status, no response at all, or an identity lookup that fails with a
    request error or a [ValueError] gives false, and nothing is raised. *)
Theorem post_content_outcomes (L : Py.lib) (W : World) (self : LinkedInPoster.t)
    (w : world) (content : string) :
  (forall self' urn,
     get_person_urn L W self = (self', Ok urn) ->
     post_content L W self w content
     = ((self', posted w ugc_url (share_payload urn content)),
        Ok (match http_post W (posts w) ugc_url (share_payload urn content) with
            | NoResponse => false
            | Response status _ => negb (is_error_status status)
            end)))
  /\ (forall self' e,
        get_person_urn L W self = (self', Raise e) -> handled e = true ->
        post_content L W self w content = ((self', w), Ok false))
  /\ (forall sw,
        post_content L W self w content = (sw, Ok true)
        <-> exists self' urn status body,
              get_person_urn L W self = (self', Ok urn)
              /\ http_post W (posts w) ugc_url (share_payload urn content)
                 = Response status body
              /\ is_error_status status = false
              /\ sw = (self', posted w ugc_url (share_payload urn content))).
Proof.
  unfold post_content. split; [|split].
  - intros self' urn ->.
    destruct (http_post W (posts w) ugc_url (share_payload urn content)); reflexivity.
  - intros self' e -> Hh. now rewrite Hh.
  - intros sw. destruct (get_person_urn L W self) as [self' [urn|e]].
    + destruct (http_post W (posts w) ugc_url (share_payload urn content))
        as [|status body] eqn:Hp.
      * split; [discriminate|]. intros (? & ? & ? & ? & [= <- <-] & Hq & _).
        rewrite Hp in Hq. discriminate.
      * split.
        -- intros [= <- Hs]. exists self', urn, status, body.
           apply negb_true_iff in Hs. auto.
        -- intros (? & ? & ? & ? & [= <- <-] & Hq & Hs & ->).
           rewrite Hp in Hq. injection Hq as <- <-. now rewrite Hs.
    + split.
      * destruct (handled e); discriminate.
      * intros (? & ? & ? & ? & [=] & _).
Qed.

Lemma post_content_outcomes_witness :
  post_content Scenario.lib (Scenario.env NoResponse 500) (LinkedInPoster.init (Scenario.cfg false))
    Scenario.start "Shipped v2 today"
  = ((LinkedInPoster.init (Scenario.cfg false), Scenario.start), Ok false).
Proof.
  apply (proj1 (proj2 (post_content_outcomes Scenario.lib (Scenario.env NoResponse 500)
                         (LinkedInPoster.init (Scenario.cfg false)) Scenario.start
                         "Shipped v2 today"))
           (LinkedInPoster.init (Scenario.cfg false)) ValueError);
    reflexivity.
Defined.

(** C7 (as stated) fails: the post endpoint answers 200, which is not
    the "created" status, and [post_content] returns true. *)
Lemma post_content_outcomes_counterexample :
  snd (post_content Scenario.lib (Scenario.env NoResponse 200) Scenario.me Scenario.start
         "Shipped v2 today") = Ok true.
Proof. vm_compute. reflexivity. Qed.

(** When the identity endpoint answers with JSON that is not an object,
    [data.get] raises [AttributeError], which [post_content] does not
    catch. *)
Example post_content_identity_not_object :
  snd (post_content Scenario.lib (Scenario.env (Response 200 (Some (JList []))) 201)
         (LinkedInPoster.init (Scenario.cfg false)) Scenario.start "Shipped v2 today")
  = Raise AttributeError.
Proof. vm_compute. reflexivity. Qed.

(* ------------------------------------------------------------------- *)
(** *** Review before posting *)

(** The instruction line of the review file spells out [APPROVE=true],
    so the file as written, read back, already passes the approval
    test. *)
Lemma review_text_approved (cfg : Config.t) (now : datetime) (content : string) :
  Str.contains "APPROVE=true" (Str.read_text (review_text cfg now content)) = true.
Proof.
  unfold review_text, Str.read_text. rewrite !StrFacts.universal_newlines_app.
  repeat first [ apply StrFacts.contains_app_l; reflexivity
               | apply StrFacts.contains_app_r ].
Qed.

Lemma send_slept (cfg : Config.t) (L : Py.lib) (W : World) (now : datetime)
    (self : LinkedInPoster.t) (w : world) (content : string)
    (events : option (list json)) :
  slept (snd (fst (send cfg L W now self w content events))) = slept w
  /\ files (snd (fst (send cfg L W now self w content events))) = files w.
Proof.
  unfold send, send_to_pipedream, post_content.
  destruct (Config.USE_PIPEDREAM cfg).
  - destruct (pipedream_payload L now content _); [|split; reflexivity].
    destruct (Config.PIPEDREAM_WEBHOOK_URL cfg); [|split; reflexivity].
    destruct (http_post W (posts w) _ _); split; reflexivity.
  - destruct (get_person_urn L W self) as [self' [urn|e]]; [|split; reflexivity].
    destruct (http_post W (posts w) _ _); split; reflexivity.
Qed.

Lemma post_and_archive_slept (cfg : Config.t) (L : Py.lib) (W : World) (now : datetime)
    (name : string) (events : option (list json)) (self : LinkedInPoster.t) (w : world)
    (text : string) :
  slept (snd (fst (post_and_archive cfg L W now name events self w text))) = slept w.
Proof.
  unfold post_and_archive.
  pose proof (send_slept cfg L W now self w (clean_content text) events) as [Hs _].
  destruct (send cfg L W now self w (clean_content text) events) as [[self' w'] [b|e]];
    cbn [fst snd] in *; [|exact Hs].
  destruct (disk_rename W (files w') name (archive_name name)) as [[]|]; exact Hs.
Qed.

Lemma review_and_post_written (cfg : Config.t) (L : Py.lib) (W : World)
    (now_name now_generated now_send : datetime) (self : LinkedInPoster.t) (w : world)
    (content : string) (events : option (list json)) :
  Config.REQUIRE_POST_REVIEW cfg = true ->
  disk_write W (files w) (review_file now_name) (review_text cfg now_generated content)
  = Written ->
  review_and_post cfg L W now_name now_generated now_send self w content events
  = post_and_archive cfg L W now_send (review_file now_name) events self
      (with_files w
         (<[review_file now_name := File (review_text cfg now_generated content) None]>
            (files w)))
      (Str.read_text (review_text cfg now_generated content)).
Proof.
  intros Hr Hw. unfold review_and_post. rewrite Hr, Hw. cbn [negb].
  unfold max_attempts. cbn [await_approval with_files files].
  rewrite lookup_insert_eq. cbv zeta. now rewrite review_text_approved.
Qed.

(** C3 (the code departs from the claim).  When review is required and
    the review file is written, the first poll already finds
    [APPROVE=true] in it: [review_and_post] posts the content extracted
    from the file as it is read back, at once, without any sleep and
    whatever happens to the directory later. *)
Theorem review_and_post_first_poll (cfg : Config.t) (L : Py.lib) (W : World)
    (now_name now_generated now_send : datetime) (self : LinkedInPoster.t) (w : world)
    (content : string) (events : option (list json)) :
  Config.REQUIRE_POST_REVIEW cfg = true ->
  disk_write W (files w) (review_file now_name) (review_text cfg now_generated content)
  = Written ->
  let text := review_text cfg now_generated content in
  let w1 := with_files w (<[review_file now_name := File text None]> (files w)) in
  review_and_post cfg L W now_name now_generated now_send self w content events
  = post_and_archive cfg L W now_send (review_file now_name) events self w1
      (Str.read_text text)
  /\ slept (snd (fst (review_and_post cfg L W now_name now_generated now_send self w
                        content events))) = slept w.
Proof.
  intros Hr Hw. cbv zeta.
  pose proof (review_and_post_written cfg L W now_name now_generated now_send self w
                content events Hr Hw) as E.
  split; [exact E|]. rewrite E. now rewrite post_and_archive_slept.
Qed.

Lemma review_and_post_first_poll_witness :
  slept (snd (fst (review_and_post (Scenario.cfg true) Scenario.lib
                     (Scenario.env NoResponse 201) Scenario.noon Scenario.noon
                     Scenario.noon Scenario.me Scenario.start "Shipped v2 today" None)))
  = 0%nat.
Proof.
  exact (proj2 (review_and_post_first_poll (Scenario.cfg true) Scenario.lib
                  (Scenario.env NoResponse 201) Scenario.noon Scenario.noon Scenario.noon
                  Scenario.me Scenario.start "Shipped v2 today" None eq_refl eq_refl)).
Defined.

(** Nobody touches the review file: the post goes out in the first
    poll, the call returns true after zero seconds of waiting. *)
Example review_and_post_unreviewed :
  let '((_, w), r) :=
    review_and_post (Scenario.cfg true) Scenario.lib (Scenario.env NoResponse 201)
      Scenario.noon Scenario.noon Scenario.noon Scenario.me Scenario.start
      "Shipped v2 today" None in
  r = Ok true
  /\ posts w = [(ugc_url, share_payload "urn:li:person:42" "Shipped v2 today")]
  /\ slept w = 0%nat
  /\ files w !! "review_20240517_120000.txt" = None
  /\ is_Some (files w !! "posted_review_20240517_120000.txt").
Proof. vm_compute. repeat split; eauto. Qed.

(** The lines kept by the extraction: for a file made of a header
    without rule lines, a rule line, a body without rule lines, a second
    rule line and anything after it, they are the lines of the body that
    do not start with [APPROVE=]. *)
Lemma content_lines_between (header body footer : list string) (rule1 rule2 : string) :
  forallb (fun l => negb (Str.startswith "=" l)) header = true ->
  forallb (fun l => negb (Str.startswith "=" l)) body = true ->
  Str.startswith "=" rule1 = true ->
  Str.startswith "=" rule2 = true ->
  content_lines false (header ++ rule1 :: body ++ rule2 :: footer)
  = List.filter (fun l => negb (Str.startswith "APPROVE=" l)) body.
Proof.
  intros Hh Hb H1 H2.
  induction header as [|h header IH]; cbn [app content_lines forallb] in *.
  - rewrite H1. cbn [negb andb]. clear Hh.
    induction body as [|b body IHb]; cbn [app content_lines forallb List.filter] in *.
    + now rewrite H2.
    + apply andb_true_iff in Hb as [Hb1 Hb2]. apply negb_true_iff in Hb1.
      rewrite Hb1. cbn [andb].
      destruct (Str.startswith "APPROVE=" b); cbn [negb]; now rewrite (IHb Hb2).
  - apply andb_true_iff in Hh as [Hh1 Hh2]. apply negb_true_iff in Hh1.
    rewrite Hh1. cbn [andb]. now apply IH.
Qed.


(* ------------------------------------------------------------------- *)
(** *** Identity, relay and the polling loop *)

Lemma person_id_of_raise (r : http_result) (e : exn) :
  person_id_of r = Raise e -> is_RequestException e = true \/ e = AttributeError.
Proof.
  unfold person_id_of. destruct r as [|status body]; [intros [= <-]; now left|].
  destruct (is_error_status status); [intros [= <-]; now left|].
  destruct body as [data|]; [|intros [= <-]; now left].
  destruct data; cbn [Py.get]; try discriminate; intros [= <-]; now right.
Qed.

Lemma urn_of_nonempty (L : Py.lib) (v : json) : urn_of L v <> "".
Proof. discriminate. Qed.

Lemma v2_lookup_outcome (L : Py.lib) (W : World) (self self' : LinkedInPoster.t)
    (r : result string) :
  v2_lookup L W self = (self', r) ->
  match r with
  | Ok urn => self' = with_urn self urn /\ urn <> ""
  | Raise e => self' = self /\ (e = ValueError \/ e = AttributeError)
  end.
Proof.
  unfold v2_lookup.
  destruct (person_id_of _) as [pid|e] eqn:Hp.
  - destruct (Py.truthy pid); intros [= <- <-]; auto using urn_of_nonempty.
  - destruct (is_RequestException e) eqn:He; intros [= <- <-]; [auto|].
    apply person_id_of_raise in Hp as [Hp| ->]; [congruence|auto].
Qed.

(** X12.  [get_person_urn] either returns a non-empty URN and keeps it,
    so that every later call returns the same URN without consulting any
    endpoint, or raises [ValueError] or [AttributeError] and leaves the
    poster as it was; the access token is never changed. *)
Theorem get_person_urn_caches (L : Py.lib) (W : World) (self self' : LinkedInPoster.t)
    (r : result string) :
  get_person_urn L W self = (self', r) ->
  access_token self' = access_token self
  /\ match r with
     | Ok urn =>
         person_urn self' = Some urn /\ urn <> ""
         /\ forall L' W', get_person_urn L' W' self' = (self', Ok urn)
     | Raise e => self' = self /\ (e = ValueError \/ e = AttributeError)
     end.
Proof.
  intros H.
  assert (Hout : match r with
                 | Ok urn => (self' = self \/ self' = with_urn self urn)
                             /\ person_urn self' = Some urn /\ urn <> ""
                 | Raise e => self' = self /\ (e = ValueError \/ e = AttributeError)
                 end).
  { unfold get_person_urn in H.
    destruct (person_urn self) as [[|c u]|] eqn:Hu.
    - destruct (person_id_of _) as [pid|e] eqn:Hp.
      + destruct (Py.truthy pid).
        * injection H as <- <-. cbn. auto using urn_of_nonempty.
        * apply v2_lookup_outcome in H. destruct r; [destruct H as [-> ?]; cbn; auto|exact H].
      + destruct (is_RequestException e) eqn:He.
        * apply v2_lookup_outcome in H. destruct r; [destruct H as [-> ?]; cbn; auto|exact H].
        * injection H as <- <-. apply person_id_of_raise in Hp as [Hp| ->]; [congruence|auto].
    - injection H as <- <-. repeat split; auto; discriminate.
    - destruct (person_id_of _) as [pid|e] eqn:Hp.
      + destruct (Py.truthy pid).
        * injection H as <- <-. cbn. auto using urn_of_nonempty.
        * apply v2_lookup_outcome in H. destruct r; [destruct H as [-> ?]; cbn; auto|exact H].
      + destruct (is_RequestException e) eqn:He.
        * apply v2_lookup_outcome in H. destruct r; [destruct H as [-> ?]; cbn; auto|exact H].
        * injection H as <- <-. apply person_id_of_raise in Hp as [Hp| ->]; [congruence|auto]. }
  destruct r as [urn|e].
  - destruct Hout as (Hs & Hu & Hne). split.
    + destruct Hs as [->| ->]; reflexivity.
    + repeat split; [exact Hu|exact Hne|].
      intros L' W'. now apply get_person_urn_cached.
  - destruct Hout as [-> He]. auto.
Qed.

Lemma get_person_urn_caches_witness :
  get_person_urn Scenario.lib Scenario.env_disk_full
    (with_urn (LinkedInPoster.init (Scenario.cfg false)) "urn:li:person:abc")
  = (with_urn (LinkedInPoster.init (Scenario.cfg false)) "urn:li:person:abc",
     Ok "urn:li:person:abc").
Proof.
  exact (proj2 (proj2 (proj2
           (get_person_urn_caches Scenario.lib
              (Scenario.env (Response 200 (Some (JDict [("id", JStr "abc")]))) 201)
              (LinkedInPoster.init (Scenario.cfg false)) _ (Ok "urn:li:person:abc")
              eq_refl)))
           Scenario.lib Scenario.env_disk_full).
Defined.

Lemma comprehension_length {A B} (f : A -> result B) (l : list A) (ys : list B) :
  Py.comprehension f l = Ok ys -> List.length ys = List.length l.
Proof.
  revert ys. induction l as [|a l IH]; intros ys; cbn [Py.comprehension].
  - now intros [= <-].
  - destruct (f a); run; [|discriminate].
    destruct (Py.comprehension f l) as [bs|]; run; [|discriminate].
    intros [= <-]. cbn. now rewrite (IH bs eq_refl).
Qed.

Lemma comprehension_total {A B} (f : A -> result B) (l : list A) :
  Forall (fun a => returns (f a)) l -> returns (Py.comprehension f l).
Proof.
  induction 1 as [|a l [b Hb] _ [bs IH]]; cbn [Py.comprehension].
  - now exists [].
  - rewrite Hb, IH. run. now eexists.
Qed.

Lemma comprehension_Forall2 {A B} (f : A -> result B) (l : list A) (ys : list B) :
  Py.comprehension f l = Ok ys -> Forall2 (fun a b => f a = Ok b) l ys.
Proof.
  revert ys. induction l as [|a l IH]; intros ys; cbn [Py.comprehension].
  - intros [= <-]. constructor.
  - destruct (f a) as [b|] eqn:Ha; run; [|discriminate].
    destruct (Py.comprehension f l) as [bs|]; run; [|discriminate].
    intros [= <-]. constructor; [exact Ha|now apply IH].
Qed.

Lemma relayable_fields (event : json) :
  relayable event = true ->
  (exists ty, (ty ← Py.getitem event "type"; hashable ty) = Ok ty
              /\ Py.getitem event "type" = Ok ty)
  /\ exists preview, event_preview event = Ok preview /\ previews_event event preview.
Proof.
  destruct event as [| | | | | |d]; try discriminate. cbn [relayable].
  unfold event_preview, previews_event. cbn [Py.getitem].
  destruct (Py.lookup d "type") as [[| | | |ty| |]|]; try discriminate.
  destruct (Py.lookup d "summary") as [[| | | |summary| |]|]; try discriminate.
  destruct (Py.lookup d "timestamp") as [[| | | |timestamp| |]|]; try discriminate.
  run. intros _. split; [eexists; split; reflexivity|].
  eexists. split; [reflexivity|]. do 3 eexists. repeat split; reflexivity.
Qed.

Lemma relayable_types (events : list json) :
  Forall (fun e => relayable e = true) events ->
  exists types,
    Py.comprehension (fun e => ty ← Py.getitem e "type"; hashable ty) events = Ok types
    /\ Forall2 (fun event ty => Py.getitem event "type" = Ok ty) events types.
Proof.
  induction 1 as [|e events He _ (types & Ht & Hall)]; cbn [Py.comprehension].
  - exists []. split; [reflexivity|constructor].
  - destruct (proj1 (relayable_fields e He)) as (ty & Hty & Hget).
    exists (ty :: types). rewrite Hty, Ht. run. split; [reflexivity|].
    constructor; assumption.
Qed.

Lemma relayable_previews (events : list json) :
  Forall (fun e => relayable e = true) events ->
  exists previews,
    Py.comprehension event_preview events = Ok previews
    /\ Forall2 previews_event events previews.
Proof.
  induction 1 as [|e events He _ (previews & Hp & Hall)]; cbn [Py.comprehension].
  - exists []. split; [reflexivity|constructor].
  - destruct (proj2 (relayable_fields e He)) as (preview & Hpre & Hshape).
    exists (preview :: previews). rewrite Hpre, Hp. run. split; [reflexivity|].
    constructor; assumption.
Qed.

(** X13.  For events that are dicts with strings under ['type'],
    ['summary'] and ['timestamp'], as [save_event] stores them,
    [send_to_pipedream] raises nothing and makes one POST to the
    configured URL.  Its body carries the content, the time, the number
    of all the events, the set of the types of all the events, and one
    preview for each of the first ten events, in their order, made of
    that event's type, summary and timestamp.  The result is true
    exactly for an answer outside 400..599. *)
Theorem send_to_pipedream_payload (cfg : Config.t) (L : Py.lib) (W : World) (now : datetime)
    (w : world) (content url : string) (events : list json) :
  forallb relayable events = true ->
  Config.PIPEDREAM_WEBHOOK_URL cfg = Some url ->
  exists types previews,
    Forall2 (fun event ty => Py.getitem event "type" = Ok ty) events types
    /\ Forall2 previews_event (take 10 events) previews
    /\ List.length previews = Nat.min 10 (List.length events)
    /\ pipedream_payload L now content events
       = Ok (relay_body L now content (List.length events) types previews)
    /\ send_to_pipedream cfg L W now w content events
       = (posted w url (relay_body L now content (List.length events) types previews),
          Ok (match http_post W (posts w) url
                      (relay_body L now content (List.length events) types previews) with
              | NoResponse => false
              | Response status _ => negb (is_error_status status)
              end)).
Proof.
  intros He Hu.
  assert (Hall : Forall (fun e => relayable e = true) events).
  { clear Hu. induction events as [|e events IH]; constructor;
      cbn [forallb] in He; apply andb_true_iff in He as [H1 H2]; auto. }
  assert (Hall10 : Forall (fun e => relayable e = true) (take 10 events))
    by (apply Forall_take, Hall).
  destruct (relayable_types events Hall) as (types & Ht & Htypes).
  destruct (relayable_previews (take 10 events) Hall10) as (previews & Hp & Hprev).
  exists types, previews.
  split; [exact Htypes|]. split; [exact Hprev|]. split.
  { rewrite <- (Forall2_length _ _ _ Hprev), length_take. reflexivity. }
  unfold send_to_pipedream, pipedream_payload. rewrite Ht, Hp, Hu. run.
  split; [reflexivity|].
  unfold relay_body. destruct (http_post W (posts w) url _); reflexivity.
Qed.

Lemma send_to_pipedream_payload_witness :
  snd (send_to_pipedream Scenario.cfg_relay Scenario.lib (Scenario.env NoResponse 201)
         Scenario.noon Scenario.start "3 commits to main" Scenario.stored_events)
  = Ok true.
Proof.
  destruct (send_to_pipedream_payload Scenario.cfg_relay Scenario.lib
              (Scenario.env NoResponse 201) Scenario.noon Scenario.start
              "3 commits to main" "https://relay.example/hook" Scenario.stored_events
              eq_refl eq_refl) as (types & previews & _ & _ & _ & _ & ->).
  reflexivity.
Defined.

(* ------------------------------------------------------------------- *)
(** *** Writing the review file and reading it back *)

Lemma review_text_parts (cfg : Config.t) (now : datetime) (content : string) :
  review_text cfg now content = Str.join nl (review_parts cfg now content).
Proof.
  unfold review_text, review_parts. cbn [Str.join].
  rewrite !StrFacts.append_assoc. reflexivity.
Qed.

Lemma review_lines (cfg : Config.t) (now : datetime) (content : string) :
  Str.split "010" (review_text cfg now content)
  = [ "LinkedIn Post Review";
      "Generated at: " +:+ isoformat now;
      "Content length: " +:+ Str.of_nat (String.length content) +:+ " characters";
      "Posting method: "
        +:+ (if Config.USE_PIPEDREAM cfg then "Pipedream" else "Direct LinkedIn");
      "" ]
    ++ rule :: Str.split "010" content
    ++ rule :: [ "";
                 "To approve this post, edit this file and change 'APPROVE=false' to 'APPROVE=true'";
                 "APPROVE=false";
                 "" ].
Proof.
  rewrite review_text_parts, StrFacts.split_join by discriminate.
  unfold review_parts. cbn [flat_map].
  rewrite (StrFacts.split_one_line "LinkedIn Post Review") by reflexivity.
  rewrite (StrFacts.split_one_line ("Generated at: " +:+ isoformat now))
    by (rewrite StrFacts.one_line_app, StrFacts.one_line_isoformat; reflexivity).
  rewrite (StrFacts.split_one_line
             ("Content length: " +:+ Str.of_nat (String.length content) +:+ " characters"))
    by (rewrite !StrFacts.one_line_app, StrFacts.one_line_of_nat; reflexivity).
  rewrite (StrFacts.split_one_line
             ("Posting method: "
              +:+ (if Config.USE_PIPEDREAM cfg then "Pipedream" else "Direct LinkedIn")))
    by (destruct (Config.USE_PIPEDREAM cfg); reflexivity).
  rewrite (StrFacts.split_one_line rule) by reflexivity.
  rewrite (StrFacts.split_one_line
             "To approve this post, edit this file and change 'APPROVE=false' to 'APPROVE=true'")
    by reflexivity.
  rewrite (StrFacts.split_one_line "APPROVE=false") by reflexivity.
  cbn [Str.split app]. reflexivity.
Qed.

Lemma no_cr_review_text (cfg : Config.t) (now : datetime) (content : string) :
  no_cr content = true -> no_cr (review_text cfg now content) = true.
Proof.
  intros Hc. unfold review_text.
  rewrite !StrFacts.no_cr_app, StrFacts.no_cr_isoformat, StrFacts.no_cr_of_nat, Hc.
  destruct (Config.USE_PIPEDREAM cfg); reflexivity.
Qed.

(** X14.  Writing and reading back: for content without carriage
    returns none of whose lines starts with [=] or with [APPROVE=], the
    content extracted from the review file as written and read back is
    the content itself, stripped of white space at both ends. *)
Theorem review_round_trip (cfg : Config.t) (now : datetime) (content : string) :
  no_cr content = true ->
  plain_content content = true ->
  clean_content (Str.read_text (review_text cfg now content)) = Str.strip content.
Proof.
  intros Hc Hp.
  rewrite (StrFacts.read_text_no_cr _ (no_cr_review_text cfg now content Hc)).
  unfold plain_content, clean_content in *.
  rewrite review_lines.
  rewrite content_lines_between.
  - assert (E : List.filter (fun l => negb (Str.startswith "APPROVE=" l))
                  (Str.split "010" content) = Str.split "010" content).
    { revert Hp. generalize (Str.split "010" content). intros l.
      induction l as [|x l IH]; cbn [forallb List.filter]; [reflexivity|].
      intros H. apply andb_true_iff in H as [Hx Hl]. apply andb_true_iff in Hx as [_ Hx].
      now rewrite Hx, (IH Hl). }
    now rewrite E, StrFacts.join_split.
  - cbn [forallb]. destruct (Config.USE_PIPEDREAM cfg); reflexivity.
  - revert Hp. generalize (Str.split "010" content). intros l.
    induction l as [|x l IH]; cbn [forallb]; [reflexivity|].
    intros H. apply andb_true_iff in H as [Hx Hl]. apply andb_true_iff in Hx as [Hx _].
    now rewrite Hx, (IH Hl).
  - reflexivity.
  - reflexivity.
Qed.

Lemma review_round_trip_witness :
  clean_content
    (Str.read_text (review_text (Scenario.cfg true) Scenario.noon "Shipped v2 today"))
  = "Shipped v2 today".
Proof.
  exact (review_round_trip (Scenario.cfg true) Scenario.noon "Shipped v2 today"
           eq_refl eq_refl).
Defined.

(** A carriage return inside the content does not come back: it is read
    as a newline, and that is what gets posted. *)
Example review_round_trip_carriage_return :
  clean_content
    (Str.read_text
       (review_text (Scenario.cfg true) Scenario.noon
          (String "a" (String "013" (String "b" EmptyString)))))
  = String "a" (String "010" (String "b" EmptyString)).
Proof. vm_compute. reflexivity. Qed.


(* ------------------------------------------------------------------- *)
(** *** Requests sent *)

(** The requests recorded only grow, and an answer [True] means that at
    least one was sent. *)
Definition sends (w : world) (out : (LinkedInPoster.t * world) * result bool) : Prop :=
  exists extra,
    posts (snd (fst out)) = posts w ++ extra
    /\ (snd out = Ok true -> extra <> []).

Lemma sends_nothing (w : world) (self : LinkedInPoster.t) (r : result bool) :
  r <> Ok true -> sends w ((self, w), r).
Proof. intros H. exists []. cbn [fst snd]. now rewrite app_nil_r. Qed.

Lemma sends_one (w : world) (self : LinkedInPoster.t) (url : string) (body : json)
    (r : result bool) :
  sends w ((self, posted w url body), r).
Proof. exists [(url, body)]. cbn [fst snd posted posts]. split; [reflexivity|discriminate]. Qed.

Lemma send_sends (cfg : Config.t) (L : Py.lib) (W : World) (now : datetime)
    (self : LinkedInPoster.t) (w : world) (content : string)
    (events : option (list json)) :
  sends w (send cfg L W now self w content events).
Proof.
  unfold send, send_to_pipedream, post_content.
  destruct (Config.USE_PIPEDREAM cfg).
  - destruct (pipedream_payload L now content _); [|apply sends_nothing; discriminate].
    destruct (Config.PIPEDREAM_WEBHOOK_URL cfg); [|apply sends_nothing; discriminate].
    destruct (http_post W (posts w) _ _); apply sends_one.
  - destruct (get_person_urn L W self) as [self' [urn|e]].
    + destruct (http_post W (posts w) _ _); apply sends_one.
    + apply sends_nothing. destruct (handled e); discriminate.
Qed.

Lemma post_and_archive_sends (cfg : Config.t) (L : Py.lib) (W : World) (now : datetime)
    (name : string) (events : option (list json)) (self : LinkedInPoster.t) (w : world)
    (text : string) :
  sends w (post_and_archive cfg L W now name events self w text).
Proof.
  unfold post_and_archive.
  destruct (send_sends cfg L W now self w (clean_content text) events) as (extra & Hp & Hx).
  destruct (send cfg L W now self w (clean_content text) events) as [[self' w'] [b|e]];
    cbn [fst snd] in *.
  - destruct (disk_rename W (files w') name (archive_name name)) as [[]|];
      exists extra; cbn [fst snd with_files posts]; (split; [exact Hp|]);
      first [exact Hx | discriminate].
  - exists extra. cbn [fst snd]. split; [exact Hp|discriminate].
Qed.

Lemma await_approval_sends (cfg : Config.t) (L : Py.lib) (W : World) (now : datetime)
    (name : string) (events : option (list json)) (remaining attempts : nat)
    (self : LinkedInPoster.t) (w : world) :
  sends w (await_approval cfg L W now name events remaining attempts self w).
Proof.
  revert attempts w. induction remaining as [|remaining IH]; intros attempts w;
    cbn [await_approval]; [apply sends_nothing; discriminate|].
  destruct (files w !! name) as [[text parsed| |]|]; try (apply sends_nothing; discriminate).
  cbv zeta.
  destruct (Str.contains "APPROVE=true" (Str.read_text text));
    [apply post_and_archive_sends|].
  exact (IH (S attempts) (sleep W attempts w)).
Qed.

Lemma review_and_post_sends (cfg : Config.t) (L : Py.lib) (W : World)
    (now_name now_generated now_send : datetime) (self : LinkedInPoster.t) (w : world)
    (content : string) (events : option (list json)) :
  sends w (review_and_post cfg L W now_name now_generated now_send self w content events).
Proof.
  unfold review_and_post.
  destruct (negb (Config.REQUIRE_POST_REVIEW cfg)); [apply send_sends|].
  destruct (disk_write W (files w) _ _) as [|e|e remains].
  - exact (await_approval_sends cfg L W now_send (review_file now_name) events max_attempts
             0 self (with_files w (<[review_file now_name
                                     := File (review_text cfg now_generated content) None]>
                                     (files w)))).
  - apply sends_nothing. discriminate.
  - exists []. cbn [fst snd with_files posts]. rewrite app_nil_r. split; [reflexivity|].
    discriminate.
Qed.


Lemma send_at_most_one (cfg : Config.t) (L : Py.lib) (W : World) (now : datetime)
    (self : LinkedInPoster.t) (w : world) (content : string)
    (events : option (list json)) :
  posts (snd (fst (send cfg L W now self w content events))) = posts w
  \/ exists url body,
       posts (snd (fst (send cfg L W now self w content events))) = posts w ++ [(url, body)].
Proof.
  unfold send, send_to_pipedream, post_content.
  destruct (Config.USE_PIPEDREAM cfg).
  - destruct (pipedream_payload L now content _) as [payload|]; [|now left].
    destruct (Config.PIPEDREAM_WEBHOOK_URL cfg) as [url|]; [|now left].
    right. exists url, payload. destruct (http_post W (posts w) _ _); reflexivity.
  - destruct (get_person_urn L W self) as [self' [urn|e]]; [|now left].
    right. exists ugc_url, (share_payload urn content).
    destruct (http_post W (posts w) _ _); reflexivity.
Qed.

(** X25.  With the review switched off [review_and_post] touches no
    file and never waits, in any environment, and makes at most one
    POST (the identity look-ups of [post_content] are GETs and are not
    counted). *)
Theorem review_and_post_unreviewed_effects (cfg : Config.t) (L : Py.lib) (W : World)
    (now_name now_generated now_send : datetime) (self : LinkedInPoster.t) (w : world)
    (content : string) (events : option (list json)) :
  Config.REQUIRE_POST_REVIEW cfg = false ->
  let w' := snd (fst (review_and_post cfg L W now_name now_generated now_send self w
                        content events)) in
  files w' = files w
  /\ slept w' = slept w
  /\ (posts w' = posts w \/ exists url body, posts w' = posts w ++ [(url, body)]).
Proof.
  intros Hr. unfold review_and_post. rewrite Hr. cbn [negb]. cbv zeta.
  destruct (send_slept cfg L W now_send self w content events) as [Hs Hf].
  split; [exact Hf|]. split; [exact Hs|]. apply send_at_most_one.
Qed.

Lemma review_and_post_unreviewed_effects_witness :
  files (snd (fst (review_and_post (Scenario.cfg false) Scenario.lib
                     (Scenario.env Scenario.identity_abc 201) Scenario.noon Scenario.noon
                     Scenario.noon (LinkedInPoster.init (Scenario.cfg false))
                     Scenario.with_bucket "Shipped v2 today" None)))
  = files Scenario.with_bucket.
Proof.
  exact (proj1 (review_and_post_unreviewed_effects (Scenario.cfg false) Scenario.lib
                  (Scenario.env Scenario.identity_abc 201) Scenario.noon Scenario.noon
                  Scenario.noon (LinkedInPoster.init (Scenario.cfg false))
                  Scenario.with_bucket "Shipped v2 today" None eq_refl)).
Defined.

End LinkedInPosterSpec.

(* ===================================================================== *)
(** ** Properties of scheduler.py *)
(* ===================================================================== *)

Module DailySchedulerSpec.
Import DailyScheduler.

Lemma events_not_review (d : string) (t : datetime) :
  EventManager.events_file d <> LinkedInPoster.review_file t
  /\ EventManager.events_file d
     <> LinkedInPoster.archive_name (LinkedInPoster.review_file t).
Proof. split; discriminate. Qed.

Lemma renamed_other (fs : gmap string node) (src dst f : string) :
  f <> src -> f <> dst -> EventManager.renamed fs src dst !! f = fs !! f.
Proof.
  intros Hs Hd. unfold EventManager.renamed.
  destruct (fs !! src); [|reflexivity].
  rewrite lookup_insert_ne by congruence. now rewrite lookup_delete_ne by congruence.
Qed.

Lemma post_and_archive_frame (cfg : Config.t) (L : Py.lib) (W : World) (now : datetime)
    (name : string) (events : option (list json)) (self : LinkedInPoster.t) (w : world)
    (text f : string) :
  f <> name -> f <> LinkedInPoster.archive_name name ->
  files (snd (fst (LinkedInPoster.post_and_archive cfg L W now name events self w text)))
    !! f = files w !! f.
Proof.
  intros Hn Ha. unfold LinkedInPoster.post_and_archive.
  pose proof (LinkedInPosterSpec.send_slept cfg L W now self w
                (LinkedInPoster.clean_content text) events) as [_ Hf].
  destruct (LinkedInPoster.send cfg L W now self w _ events) as [[self' w'] [b|e]];
    cbn [fst snd] in *; [|now rewrite Hf].
  destruct (disk_rename W (files w') name _) as [[]|]; cbn [fst snd];
    try (now rewrite Hf).
  cbn [LinkedInPoster.with_files files]. rewrite renamed_other by assumption.
  now rewrite Hf.
Qed.

(** A publish attempt touches no file other than its review file and
    the archived name of that file. *)
Lemma review_and_post_frame (cfg : Config.t) (L : Py.lib) (W : World)
    (now_name now_generated now_send : datetime) (self : LinkedInPoster.t) (w : world)
    (content : string) (events : option (list json)) (f : string) :
  f <> LinkedInPoster.review_file now_name ->
  f <> LinkedInPoster.archive_name (LinkedInPoster.review_file now_name) ->
  files (snd (fst (LinkedInPoster.review_and_post cfg L W now_name now_generated now_send
                     self w content events))) !! f
  = files w !! f.
Proof.
  intros Hn Ha.
  destruct (Config.REQUIRE_POST_REVIEW cfg) eqn:Hr.
  - destruct (disk_write W (files w) (LinkedInPoster.review_file now_name)
                (LinkedInPoster.review_text cfg now_generated content)) eqn:Hw.
    + rewrite (LinkedInPosterSpec.review_and_post_written cfg L W now_name
                 now_generated now_send self w content events Hr Hw).
      rewrite post_and_archive_frame by assumption.
      cbn [LinkedInPoster.with_files files]. now rewrite lookup_insert_ne by congruence.
    + unfold LinkedInPoster.review_and_post. rewrite Hr, Hw. reflexivity.
    + unfold LinkedInPoster.review_and_post. rewrite Hr, Hw.
      cbn [negb fst snd LinkedInPoster.with_files files].
      now rewrite lookup_insert_ne by congruence.
  - unfold LinkedInPoster.review_and_post. rewrite Hr. cbn [negb].
    now rewrite (proj2 (LinkedInPosterSpec.send_slept cfg L W now_send self w content events)).
Qed.

Lemma handle_posting_result_failure (W : World) (now : datetime) (fs : gmap string node)
    (n : nat) :
  _handle_posting_result W now fs false n = fs.
Proof. reflexivity. Qed.

Lemma handle_posting_result_archived (W : World) (now : datetime) (fs : gmap string node)
    (success : bool) (n : nat) :
  is_Some (fs !! EventManager.events_file (strftime_date now)) ->
  _handle_posting_result W now fs success n !! EventManager.events_file (strftime_date now)
  = None ->
  success = true
  /\ _handle_posting_result W now fs success n !! EventManager.posted_file (strftime_date now)
     = fs !! EventManager.events_file (strftime_date now).
Proof.
  intros [nd Hnd] Hgone. destruct success.
  - split; [reflexivity|]. cbn [_handle_posting_result] in *.
    destruct (EventManager.archive_events W now fs None) as [fs' b] eqn:E.
    cbn [fst] in *. destruct b.
    + apply EventManagerSpec.archive_events_true in E. cbn in E. tauto.
    + unfold EventManager.archive_events in E. cbn [EventManager.date_or_today] in E.
      rewrite Hnd in E. destruct (disk_rename W fs _ _); [|discriminate].
      injection E as <-. congruence.
  - cbn in Hgone. congruence.
Qed.

(** C8.  When the publish attempt of the daily job does not succeed
    (it returns false or raises), every day's bucket is afterwards
    under its original name with the content it had, so [load_events]
    gives the same events; and the day's bucket can disappear from its
    original name only when the attempt succeeded, in which case the
    archived name holds it. *)
Theorem failed_publish_keeps_bucket (cfg : Config.t) (L : Py.lib) (W : World)
    (now_name now_generated now_send now_archive : datetime)
    (self : LinkedInPoster.t) (w : world) (summary_content : string) (events : list json) :
  let attempt :=
    _post_summary cfg L W now_name now_generated now_send self w summary_content events in
  let after :=
    files (snd (post_daily_summary_publish cfg L W now_name now_generated now_send
                  now_archive self w summary_content events)) in
  let today := strftime_date now_archive in
  (snd attempt <> Ok true ->
     forall date now,
       after !! EventManager.events_file date = files w !! EventManager.events_file date
       /\ EventManager.load_events now after (Some date)
          = EventManager.load_events now (files w) (Some date)
       /\ (date = strftime_date now ->
           EventManager.load_events now after None
           = EventManager.load_events now (files w) None))
  /\ (is_Some (files w !! EventManager.events_file today) ->
      after !! EventManager.events_file today = None ->
      snd attempt = Ok true
      /\ after !! EventManager.posted_file today
         = files w !! EventManager.events_file today).
Proof.
  cbv zeta. unfold post_daily_summary_publish.
  assert (F : forall f,
             f <> LinkedInPoster.review_file now_name ->
             f <> LinkedInPoster.archive_name (LinkedInPoster.review_file now_name) ->
             files (snd (fst (_post_summary cfg L W now_name now_generated now_send self w
                                summary_content events))) !! f = files w !! f).
  { intros f. apply review_and_post_frame. }
  destruct (_post_summary cfg L W now_name now_generated now_send self w summary_content
              events) as [[self' w'] [success|e]]; cbn [fst snd] in *.
  - split.
    + intros Hs. destruct success; [congruence|].
      cbn [_handle_posting_result LinkedInPoster.with_files files].
      assert (E : forall date, files w' !! EventManager.events_file date
                               = files w !! EventManager.events_file date).
      { intros date. apply F; apply events_not_review. }
      intros date now. split; [apply E|].
      unfold EventManager.load_events. cbn [EventManager.date_or_today].
      split; [now rewrite E|]. intros ->. now rewrite E.
    + cbn [LinkedInPoster.with_files files]. intros Hin Hgone.
      rewrite <- (F (EventManager.events_file (strftime_date now_archive)))
        in * by apply events_not_review.
      destruct (handle_posting_result_archived W now_archive (files w') success
                  (List.length events) Hin Hgone) as [-> Hp].
      split; [reflexivity|exact Hp].
  - split.
    + intros _ date now.
      assert (E : forall date, files w' !! EventManager.events_file date
                               = files w !! EventManager.events_file date)
        by (intros d; apply F; apply events_not_review).
      split; [apply E|].
      unfold EventManager.load_events. cbn [EventManager.date_or_today].
      split; [now rewrite E|]. intros ->. now rewrite E.
    + intros [nd Hnd] Hgone.
      rewrite (F (EventManager.events_file (strftime_date now_archive)))
        in Hgone by apply events_not_review.
      congruence.
Qed.

Lemma failed_publish_keeps_bucket_witness :
  files (snd (post_daily_summary_publish (Scenario.cfg true) Scenario.lib
                (Scenario.env NoResponse 500) Scenario.noon Scenario.noon Scenario.noon
                Scenario.noon Scenario.me Scenario.with_bucket "3 commits to main"
                Scenario.day_events))
    !! "events_2024-05-17.json"
  = Some (File "[]" (Some (JList []))).
Proof.
  pose proof (proj1 (failed_publish_keeps_bucket (Scenario.cfg true) Scenario.lib
                       (Scenario.env NoResponse 500) Scenario.noon Scenario.noon
                       Scenario.noon Scenario.noon Scenario.me Scenario.with_bucket
                       "3 commits to main" Scenario.day_events)
                ltac:(vm_compute; discriminate) "2024-05-17" Scenario.noon) as [H _].
  exact H.
Defined.

(** The same job with a post endpoint that answers 201: the bucket is
    archived. *)
Example successful_publish_archives :
  let after :=
    files (snd (post_daily_summary_publish (Scenario.cfg true) Scenario.lib
                  (Scenario.env NoResponse 201) Scenario.noon Scenario.noon Scenario.noon
                  Scenario.noon Scenario.me Scenario.with_bucket "3 commits to main"
                  Scenario.day_events)) in
  after !! "events_2024-05-17.json" = None
  /\ after !! "posted_events_2024-05-17.json" = Some (File "[]" (Some (JList []))).
Proof. vm_compute. split; reflexivity. Qed.


(* ------------------------------------------------------------------- *)
(** *** The daily job as a whole *)

Lemma events_file_inj (d d' : string) :
  EventManager.events_file d = EventManager.events_file d' -> d = d'.
Proof.
  unfold EventManager.events_file. intros H.
  change ("events_" +:+ (d +:+ ".json") = "events_" +:+ (d' +:+ ".json")) in H.
  assert (E : d +:+ ".json" = d' +:+ ".json").
  { cbv [String.append] in H. fold String.append in H. congruence. }
  exact (StrFacts.append_inj_r d d' ".json" E).
Qed.

Lemma events_not_posted (d d' : string) :
  EventManager.events_file d <> EventManager.posted_file d'.
Proof. discriminate. Qed.

(** X18.  [_handle_posting_result] archives the bucket of the date that
    the clock shows when it runs: the bucket of any other date, the
    summarised day included if midnight has passed meanwhile, stays as
    it is even after a successful post. *)
Theorem handle_posting_result_other_day (W : World) (now : datetime)
    (fs : gmap string node) (success : bool) (n : nat) (d : string) :
  d <> strftime_date now ->
  _handle_posting_result W now fs success n !! EventManager.events_file d
  = fs !! EventManager.events_file d.
Proof.
  intros Hd. destruct success; [|reflexivity]. cbn [_handle_posting_result].
  destruct (EventManagerSpec.archive_events_bucketwise W now fs None
              (EventManager.events_file d) (events_not_posted _ _)) as [H|[H _]];
    [exact H|].
  apply events_file_inj in H. cbn [EventManager.date_or_today] in H. contradiction.
Qed.

Lemma handle_posting_result_other_day_witness :
  _handle_posting_result (Scenario.env NoResponse 201) Scenario.next_noon
    Scenario.one_bucket true 3 !! "events_2024-05-17.json"
  = Some (File "[]" (Some (JList []))).
Proof.
  exact (handle_posting_result_other_day (Scenario.env NoResponse 201) Scenario.next_noon
           Scenario.one_bucket true 3 "2024-05-17" ltac:(discriminate)).
Defined.

Lemma count_types_dicts (events : list json) (counts counts' : list (json * nat)) :
  EventManager.count_types events counts = Ok counts' ->
  forallb Shape.is_dict events = true.
Proof.
  revert counts. induction events as [|ev events IH]; intros counts; [reflexivity|].
  cbn [EventManager.count_types forallb].
  destruct ev; cbn [Py.get]; run; try discriminate.
  destruct (Py.hashable_key _); run; [|discriminate].
  intros H. now rewrite (IH _ H).
Qed.

Lemma load_and_validate_nothing (now : datetime) (fs : gmap string node) :
  Shape.nothing_to_post (fs !! EventManager.events_file (strftime_date now)) = true ->
  _load_and_validate_events now fs = Ok [].
Proof.
  unfold _load_and_validate_events, EventManager.load_events.
  cbn [EventManager.date_or_today].
  destruct (fs !! EventManager.events_file (strftime_date now)) as [[text [v|]| |]|];
    try discriminate; try reflexivity.
  destruct v as [| | | |[|c s]|[|e l]|[|kv d]]; try discriminate; reflexivity.
Qed.

(** X17.  [_load_and_validate_events] returns a non-empty list only
    when the day's bucket holds exactly that JSON list and all its
    elements are dicts; a bucket that is missing, unparseable,
    unreadable or empty gives the empty list. *)
Theorem load_and_validate_outcome (now : datetime) (fs : gmap string node) :
  (forall events,
     _load_and_validate_events now fs = Ok events -> events <> [] ->
     EventManager.load_events now fs None = Ok (JList events)
     /\ forallb Shape.is_dict events = true)
  /\ (Shape.nothing_to_post (fs !! EventManager.events_file (strftime_date now)) = true ->
      _load_and_validate_events now fs = Ok []).
Proof.
  split; [|apply load_and_validate_nothing].
  unfold _load_and_validate_events, EventManager.load_events.
  cbn [EventManager.date_or_today].
  intros events.
  destruct (fs !! EventManager.events_file (strftime_date now)) as [[text [v|]| |]|];
    run; cbn [Py.len Py.truthy negb]; run; try discriminate; try (intros [= <-]; congruence).
  destruct v as [| | | |s|l|d]; cbn [Py.len]; run; try discriminate.
  - destruct s as [|c s]; cbn [Py.truthy negb Py.iter]; [intros [= <-]; congruence|].
    run. cbn [list_ascii_of_string map EventManager.count_types Py.get]. run. discriminate.
  - destruct l as [|e l]; cbn [Py.truthy negb Py.iter]; [intros [= <-]; congruence|].
    run. destruct (EventManager.count_types (e :: l) []) as [counts|] eqn:Hc; run;
      [|discriminate].
    intros [= <-] _. split; [reflexivity|]. exact (count_types_dicts _ _ _ Hc).
  - destruct d as [|[k v] d]; cbn [Py.truthy negb Py.iter]; [intros [= <-]; congruence|].
    run. cbn [map fst EventManager.count_types Py.get]. run. discriminate.
Qed.

Lemma load_and_validate_outcome_witness :
  EventManager.load_events Scenario.noon Scenario.day_bucket None
  = Ok (JList Scenario.stored_events)
  /\ forallb Shape.is_dict Scenario.stored_events = true.
Proof.
  exact (proj1 (load_and_validate_outcome Scenario.noon Scenario.day_bucket)
           Scenario.stored_events eq_refl ltac:(discriminate)).
Defined.

(** The buckets before and after: every bucket is as it was or is
    gone. *)
Definition only_removes (before after : gmap string node) : Prop :=
  forall d, after !! EventManager.events_file d = before !! EventManager.events_file d
            \/ after !! EventManager.events_file d = None.

Lemma only_removes_refl (fs : gmap string node) : only_removes fs fs.
Proof. intros d. now left. Qed.

Lemma only_removes_trans (a b c : gmap string node) :
  only_removes a b -> only_removes b c -> only_removes a c.
Proof.
  intros H1 H2 d. destruct (H2 d) as [E|E]; [|now right].
  rewrite E. apply H1.
Qed.

Lemma review_and_post_buckets (cfg : Config.t) (L : Py.lib) (W : World)
    (now_name now_generated now_send : datetime) (self : LinkedInPoster.t) (w : world)
    (content : string) (events : option (list json)) :
  only_removes (files w)
    (files (snd (fst (LinkedInPoster.review_and_post cfg L W now_name now_generated
                        now_send self w content events)))).
Proof. intros d. left. apply review_and_post_frame; apply events_not_review. Qed.

Lemma archive_events_buckets (W : World) (now : datetime) (fs : gmap string node)
    (date : option string) :
  only_removes fs (fst (EventManager.archive_events W now fs date)).
Proof.
  intros d.
  destruct (EventManagerSpec.archive_events_bucketwise W now fs date
              (EventManager.events_file d) (events_not_posted _ _)) as [H|[_ H]]; auto.
Qed.

Lemma check_day_buckets (cfg : Config.t) (L : Py.lib) (W : World) (r : readings) (k : nat)
    (st : job_state) :
  only_removes (files (snd st)) (files (snd (check_day cfg L W r k st))).
Proof.
  destruct st as [[ai poster] w]. unfold check_day. cbn [snd].
  destruct (files w !! EventManager.events_file _); [|apply only_removes_refl].
  destruct (files w !! EventManager.posted_file _); [apply only_removes_refl|].
  destruct (EventManager.load_events _ _ _) as [events|]; [|apply only_removes_refl].
  destruct (Py.truthy events); [|apply only_removes_refl].
  destruct (Py.iter events) as [items|]; [|apply only_removes_refl].
  destruct (AIProcessor.generate_daily_summary cfg L W ai items) as [ai' [summary|e]];
    [|apply only_removes_refl].
  pose proof (review_and_post_buckets cfg L W (at_name r) (at_generated r) (at_send r)
                poster w summary None) as Hr.
  destruct (LinkedInPoster.review_and_post cfg L W _ _ _ poster w summary None)
    as [[poster' w'] [[|]|e]]; cbn [fst snd] in *; try exact Hr.
  cbn [LinkedInPoster.with_files files].
  eapply only_removes_trans; [exact Hr|apply archive_events_buckets].
Qed.

Lemma check_for_missed_posts_buckets (cfg : Config.t) (L : Py.lib) (W : World)
    (clock : nat -> readings) (st : job_state) :
  only_removes (files (snd st)) (files (snd (check_for_missed_posts cfg L W clock st))).
Proof.
  unfold check_for_missed_posts. generalize (seq 1 7). intros ks. revert st.
  induction ks as [|k ks IH]; intros st; cbn [fold_left]; [apply only_removes_refl|].
  eapply only_removes_trans; [apply check_day_buckets|apply IH].
Qed.

(** X20.  The daily job, sweep included, never creates or rewrites a
    bucket: whatever the environment does, every [events_<date>.json]
    is afterwards either exactly as before or gone. *)
Theorem post_daily_summary_buckets (cfg : Config.t) (L : Py.lib) (W : World)
    (clock : nat -> readings) (today : today_readings) (st : job_state) (d : string) :
  files (snd (post_daily_summary cfg L W clock today st)) !! EventManager.events_file d
  = files (snd st) !! EventManager.events_file d
  \/ files (snd (post_daily_summary cfg L W clock today st)) !! EventManager.events_file d
     = None.
Proof.
  revert d. change (only_removes (files (snd st))
                      (files (snd (post_daily_summary cfg L W clock today st)))).
  unfold post_daily_summary.
  pose proof (check_for_missed_posts_buckets cfg L W clock st) as Hs.
  destruct (check_for_missed_posts cfg L W clock st) as [[ai poster] w]. cbn [snd] in Hs.
  destruct (_load_and_validate_events _ _) as [[|e events]|]; try exact Hs.
  unfold _generate_ai_summary.
  destruct (AIProcessor.generate_daily_summary cfg L W ai (e :: events))
    as [ai' [summary|err]]; [|exact Hs].
  unfold post_daily_summary_publish, _post_summary.
  pose proof (review_and_post_buckets cfg L W (at_name (at_review today))
                (at_generated (at_review today)) (at_send (at_review today))
                poster w summary (Some (e :: events))) as Hr.
  destruct (LinkedInPoster.review_and_post cfg L W _ _ _ poster w summary _)
    as [[poster' w'] [success|err]]; cbn [fst snd] in *.
  - cbn [LinkedInPoster.with_files files].
    eapply only_removes_trans; [exact Hs|]. eapply only_removes_trans; [exact Hr|].
    destruct success; [apply archive_events_buckets|apply only_removes_refl].
  - eapply only_removes_trans; [exact Hs|exact Hr].
Qed.

Lemma check_for_missed_posts_idle (cfg : Config.t) (L : Py.lib) (W : World)
    (clock : nat -> readings) (st : job_state) :
  (forall k, (1 <= k <= 7)%nat ->
     let d := strftime_date (minus_days (at_check (clock k)) k) in
     Shape.nothing_to_post (files (snd st) !! EventManager.events_file d) = true
     \/ is_Some (files (snd st) !! EventManager.posted_file d)) ->
  check_for_missed_posts cfg L W clock st = st.
Proof.
  unfold check_for_missed_posts. intros H.
  assert (Hk : forall k, In k (seq 1 7) -> check_day cfg L W (clock k) k st = st).
  { intros k Hin. apply in_seq in Hin.
    specialize (H k ltac:(lia)). cbv zeta in H.
    destruct st as [[ai poster] w]. unfold check_day, EventManager.load_events.
    cbn [snd EventManager.date_or_today] in *.
    destruct (files w !! EventManager.events_file _) as [[text [v|]| |]|] eqn:E;
      destruct (files w !! EventManager.posted_file _) eqn:P; try reflexivity;
      destruct H as [H|[x Hx]]; try discriminate.
    destruct v as [| | | |[|c s]|[|e l]|[|kv dd]]; try discriminate; reflexivity. }
  revert Hk. generalize (seq 1 7). intros ks.
  induction ks as [|k ks IH]; intros Hk; cbn [fold_left]; [reflexivity|].
  rewrite (Hk k) by now left. apply IH. intros j Hj. apply Hk. now right.
Qed.

(** X19.  A day that already has its archived file is left alone by the
    sweep even when a bucket with events exists for it, as is a day
    whose bucket is missing, unreadable or empty: when the seven days
    back are all like that, the sweep changes nothing; and when today's
    bucket is such as well, the whole job does nothing: no client is
    made, nothing is posted or written, nothing is archived. *)
Theorem post_daily_summary_idle (cfg : Config.t) (L : Py.lib) (W : World)
    (clock : nat -> readings) (today : today_readings) (st : job_state) :
  (forall k, (1 <= k <= 7)%nat ->
     let d := strftime_date (minus_days (at_check (clock k)) k) in
     Shape.nothing_to_post (files (snd st) !! EventManager.events_file d) = true
     \/ is_Some (files (snd st) !! EventManager.posted_file d)) ->
  check_for_missed_posts cfg L W clock st = st
  /\ (Shape.nothing_to_post
        (files (snd st) !! EventManager.events_file (strftime_date (at_load today))) = true ->
      post_daily_summary cfg L W clock today st = st).
Proof.
  intros H. pose proof (check_for_missed_posts_idle cfg L W clock st H) as Hs.
  split; [exact Hs|]. intros Ht. unfold post_daily_summary. rewrite Hs.
  destruct st as [[ai poster] w]. cbn [snd] in Ht.
  now rewrite (load_and_validate_nothing (at_load today) (files w) Ht).
Qed.


Lemma post_daily_summary_idle_witness :
  check_for_missed_posts (Scenario.cfg false) Scenario.lib (Scenario.env NoResponse 201)
    (fun _ => Scenario.at_noon) Scenario.idle_state = Scenario.idle_state
  /\ post_daily_summary (Scenario.cfg false) Scenario.lib (Scenario.env NoResponse 201)
       (fun _ => Scenario.at_noon) Scenario.today_noon Scenario.idle_state
     = Scenario.idle_state.
Proof.
  assert (H : forall k, (1 <= k <= 7)%nat ->
            let d := strftime_date (minus_days (at_check Scenario.at_noon) k) in
            Shape.nothing_to_post
              (files (snd Scenario.idle_state) !! EventManager.events_file d) = true
            \/ is_Some (files (snd Scenario.idle_state) !! EventManager.posted_file d)).
  { intros k Hk.
    assert (E : (k = 1 \/ k = 2 \/ k = 3 \/ k = 4 \/ k = 5 \/ k = 6 \/ k = 7)%nat) by lia.
    destruct E as [->|[->|[->|[->|[->|[->| ->]]]]]];
      first [ left; vm_compute; reflexivity | right; vm_compute; eauto ]. }
  destruct (post_daily_summary_idle (Scenario.cfg false) Scenario.lib
              (Scenario.env NoResponse 201) (fun _ => Scenario.at_noon) Scenario.today_noon
              Scenario.idle_state H) as [Hs Hj].
  split; [exact Hs|]. apply Hj. vm_compute. reflexivity.
Defined.


(** Between two states of the directory and the network: requests were
    only added, and unless one was added every bucket is as it was. *)
Definition archives_after_sending (before after : world) : Prop :=
  exists extra,
    posts after = posts before ++ extra
    /\ (extra = [] ->
        forall d, files after !! EventManager.events_file d
                  = files before !! EventManager.events_file d).

Lemma archives_after_sending_refl (w : world) : archives_after_sending w w.
Proof. exists []. now rewrite app_nil_r. Qed.

Lemma archives_after_sending_trans (a b c : world) :
  archives_after_sending a b -> archives_after_sending b c -> archives_after_sending a c.
Proof.
  intros (x & Hx & Hfx) (y & Hy & Hfy). exists (x ++ y). split.
  - now rewrite Hy, Hx, app_assoc.
  - intros E. apply app_eq_nil in E as [-> ->]. intros d.
    now rewrite (Hfy eq_refl d), (Hfx eq_refl d).
Qed.

Lemma review_and_post_archives_nothing (cfg : Config.t) (L : Py.lib) (W : World)
    (now_name now_generated now_send : datetime) (self : LinkedInPoster.t) (w : world)
    (content : string) (events : option (list json)) :
  archives_after_sending w
    (snd (fst (LinkedInPoster.review_and_post cfg L W now_name now_generated now_send
                 self w content events))).
Proof.
  destruct (LinkedInPosterSpec.review_and_post_sends cfg L W now_name now_generated
              now_send self w content events) as (extra & Hp & _).
  exists extra. split; [exact Hp|]. intros _ d.
  apply review_and_post_frame; apply events_not_review.
Qed.

Lemma check_day_archives_after_sending (cfg : Config.t) (L : Py.lib) (W : World)
    (r : readings) (k : nat) (st : job_state) :
  archives_after_sending (snd st) (snd (check_day cfg L W r k st)).
Proof.
  destruct st as [[ai poster] w]. unfold check_day. cbn [snd].
  destruct (files w !! EventManager.events_file _); [|apply archives_after_sending_refl].
  destruct (files w !! EventManager.posted_file _); [apply archives_after_sending_refl|].
  destruct (EventManager.load_events _ _ _) as [events|];
    [|apply archives_after_sending_refl].
  destruct (Py.truthy events); [|apply archives_after_sending_refl].
  destruct (Py.iter events) as [items|]; [|apply archives_after_sending_refl].
  destruct (AIProcessor.generate_daily_summary cfg L W ai items) as [ai' [summary|e]];
    [|apply archives_after_sending_refl].
  pose proof (review_and_post_archives_nothing cfg L W (at_name r) (at_generated r)
                (at_send r) poster w summary None) as Hr.
  destruct (LinkedInPosterSpec.review_and_post_sends cfg L W (at_name r) (at_generated r)
              (at_send r) poster w summary None) as (extra & Hp & Hx).
  destruct (LinkedInPoster.review_and_post cfg L W _ _ _ poster w summary None)
    as [[poster' w'] [[|]|e]]; cbn [fst snd] in *; try exact Hr.
  exists extra. cbn [LinkedInPoster.with_files posts]. split; [exact Hp|].
  intros E. destruct (Hx eq_refl E).
Qed.

Lemma check_for_missed_posts_archives_after_sending (cfg : Config.t) (L : Py.lib)
    (W : World) (clock : nat -> readings) (st : job_state) :
  archives_after_sending (snd st) (snd (check_for_missed_posts cfg L W clock st)).
Proof.
  unfold check_for_missed_posts. generalize (seq 1 7). intros ks. revert st.
  induction ks as [|k ks IH]; intros st; cbn [fold_left];
    [apply archives_after_sending_refl|].
  eapply archives_after_sending_trans; [apply check_day_archives_after_sending|apply IH].
Qed.

Lemma post_daily_summary_archives_after_sending (cfg : Config.t) (L : Py.lib) (W : World)
    (clock : nat -> readings) (today : today_readings) (st : job_state) :
  archives_after_sending (snd st) (snd (post_daily_summary cfg L W clock today st)).
Proof.
  unfold post_daily_summary.
  pose proof (check_for_missed_posts_archives_after_sending cfg L W clock st) as Hs.
  destruct (check_for_missed_posts cfg L W clock st) as [[ai poster] w]. cbn [snd] in Hs.
  destruct (_load_and_validate_events _ _) as [[|e events]|]; try exact Hs.
  unfold _generate_ai_summary.
  destruct (AIProcessor.generate_daily_summary cfg L W ai (e :: events))
    as [ai' [summary|err]]; [|exact Hs].
  unfold post_daily_summary_publish, _post_summary.
  eapply archives_after_sending_trans; [exact Hs|].
  pose proof (review_and_post_archives_nothing cfg L W (at_name (at_review today))
                (at_generated (at_review today)) (at_send (at_review today))
                poster w summary (Some (e :: events))) as Hr.
  destruct (LinkedInPosterSpec.review_and_post_sends cfg L W (at_name (at_review today))
              (at_generated (at_review today)) (at_send (at_review today))
              poster w summary (Some (e :: events))) as (extra & Hp & Hx).
  destruct (LinkedInPoster.review_and_post cfg L W _ _ _ poster w summary _)
    as [[poster' w'] [[|]|err]]; cbn [fst snd] in *; try exact Hr.
  exists extra. cbn [LinkedInPoster.with_files _handle_posting_result posts].
  split; [exact Hp|]. intros E. destruct (Hx eq_refl E).
Qed.

(** X22.  The daily job, sweep included, archives a bucket only after
    a request has gone out: a run that sends no request to LinkedIn or
    the relay leaves every bucket exactly as it was. *)
Theorem post_daily_summary_archives_only_after_sending (cfg : Config.t) (L : Py.lib)
    (W : World) (clock : nat -> readings) (today : today_readings) (st : job_state) :
  posts (snd (post_daily_summary cfg L W clock today st)) = posts (snd st) ->
  forall d,
    files (snd (post_daily_summary cfg L W clock today st)) !! EventManager.events_file d
    = files (snd st) !! EventManager.events_file d.
Proof.
  intros Hp.
  destruct (post_daily_summary_archives_after_sending cfg L W clock today st)
    as (extra & He & Hf).
  apply Hf. rewrite He in Hp. rewrite <- (app_nil_r (posts (snd st))) in Hp at 2.
  exact (app_inv_head _ _ _ Hp).
Qed.


Lemma post_daily_summary_archives_only_after_sending_witness :
  files (snd (post_daily_summary (Scenario.cfg false) Scenario.lib
                (Scenario.env NoResponse 201) (fun _ => Scenario.at_noon)
                Scenario.today_noon Scenario.day_state))
    !! EventManager.events_file "2024-05-17"
  = files (snd Scenario.day_state) !! EventManager.events_file "2024-05-17".
Proof.
  apply (post_daily_summary_archives_only_after_sending (Scenario.cfg false) Scenario.lib
           (Scenario.env NoResponse 201) (fun _ => Scenario.at_noon) Scenario.today_noon
           Scenario.day_state).
  vm_compute. reflexivity.
Defined.

(** With an identity endpoint that does not answer, the run above ends
    with the three events still in today's bucket. *)
Example unanswered_identity_keeps_events :
  EventManager.load_events Scenario.noon
    (files (snd (post_daily_summary (Scenario.cfg false) Scenario.lib
                   (Scenario.env NoResponse 201) (fun _ => Scenario.at_noon)
                   Scenario.today_noon Scenario.day_state))) None
  = Ok (JList Scenario.stored_events).
Proof. vm_compute. reflexivity. Qed.


(** [datetime.now() - timedelta(days=k)] across a leap day and across
    the turn of the year. *)
Example minus_days_leap :
  strftime_date (minus_days {| year := 2024; month := 3; day := 2; hour := 18;
                               minute := 0; second := 0; microsecond := 0 |} 2)
  = "2024-02-29"
  /\ strftime_date (minus_days {| year := 2023; month := 3; day := 2; hour := 18;
                                  minute := 0; second := 0; microsecond := 0 |} 2)
     = "2023-02-28"
  /\ strftime_date (minus_days {| year := 2025; month := 1; day := 3; hour := 18;
                                  minute := 0; second := 0; microsecond := 0 |} 7)
     = "2024-12-27".
Proof. split; [|split]; vm_compute; reflexivity. Qed.

End DailySchedulerSpec.

(* ===================================================================== *)
(** ** src/app.py: the single-file predecessor *)

Module LegacySpec.
Import Legacy.

(** X21.  [post_to_linkedin] of the old single-file application answers
    [True] exactly when the identity request gave a truthy id and the
    post was answered with status 201, no other status; and it sends
    nothing at all unless the identity request gave a truthy id. *)
Theorem post_to_linkedin_outcome (cfg : Config.t) (L : Py.lib) (W : World) (w : world)
    (content : string) :
  (snd (post_to_linkedin cfg L W w content) = Ok true
   <-> exists person_urn body,
         get_linkedin_person_urn cfg W = Ok person_urn
         /\ Py.truthy person_urn = true
         /\ http_post W (posts w) LinkedInPoster.ugc_url
              (LinkedInPoster.share_payload (LinkedInPoster.urn_of L person_urn) content)
            = Response 201 body)
  /\ (fst (post_to_linkedin cfg L W w content) = w
      \/ exists person_urn,
           get_linkedin_person_urn cfg W = Ok person_urn
           /\ Py.truthy person_urn = true
           /\ fst (post_to_linkedin cfg L W w content)
              = LinkedInPoster.posted w LinkedInPoster.ugc_url
                  (LinkedInPoster.share_payload (LinkedInPoster.urn_of L person_urn)
                     content)).
Proof.
  unfold post_to_linkedin.
  destruct (get_linkedin_person_urn cfg W) as [person_urn|e].
  2:{ cbn [fst snd]. split; [|now left].
      split; [discriminate|]. intros (p & b & Hp & _). discriminate. }
  destruct (Py.truthy person_urn) eqn:Ht; cbn [negb].
  2:{ cbn [fst snd]. split; [|now left].
      split; [discriminate|]. intros (p & b & [= <-] & Hp & _). congruence. }
  split.
  - destruct (http_post W (posts w) LinkedInPoster.ugc_url _) as [|status body] eqn:Hp;
      cbn [snd].
    + split; [discriminate|]. intros (p & b & [= <-] & _ & Hb). congruence.
    + split.
      * intros [= Hs]. apply Z.eqb_eq in Hs. subst status. exists person_urn, body. auto.
      * intros (p & b & [= <-] & _ & Hb). rewrite Hp in Hb. injection Hb as Hs _.
        now rewrite Hs.
  - right. exists person_urn. split; [reflexivity|]. split; [exact Ht|].
    destruct (http_post W (posts w) LinkedInPoster.ugc_url _); reflexivity.
Qed.

End LegacySpec.

(* ===================================================================== *)
(** ** config.py: what a validated configuration guarantees *)

Module ConfigSpec.
Import Config.

Lemma filter_none {A} (p : A -> bool) (l : list A) :
  List.filter (fun x => negb (p x)) l = [] -> forallb p l = true.
Proof.
  induction l as [|a l IH]; [reflexivity|]. cbn [List.filter forallb].
  destruct (p a); cbn [negb andb]; [exact IH|discriminate].
Qed.

Lemma validate_config_inv (github_token : option string) (cfg : Config.t) :
  validate_config github_token cfg = Ok true ->
  Py.nonempty github_token = true
  /\ Py.nonempty (GITHUB_WEBHOOK_SECRET cfg) = true
  /\ Py.nonempty (GROQ_API_KEY cfg) = true
  /\ (USE_PIPEDREAM cfg = false -> Py.nonempty (LINKEDIN_ACCESS_TOKEN cfg) = true).
Proof.
  unfold validate_config. intros H.
  assert (Hall : forallb (fun var => Py.nonempty (getattr github_token cfg var))
                   (required_vars cfg) = true).
  { apply filter_none. destruct (List.filter _ (required_vars cfg)); [reflexivity|discriminate]. }
  clear H. unfold required_vars in Hall.
  destruct (USE_PIPEDREAM cfg); vm_compute in Hall; revert Hall;
    destruct github_token as [[|? ?]|]; try discriminate;
    destruct cfg as [[[|? ?]|] [[|? ?]|] [[|? ?]|] r u]; try discriminate;
    intros _; cbn; repeat split; auto; discriminate.
Qed.

(** X24.  A configuration that [validate_config] accepts makes the
    webhook verifier always compare against the HMAC of a non-empty
    secret (the "not configured" answer cannot occur), leaves the
    placeholder as the only key that [_get_client] refuses by itself,
    and has a LinkedIn token, sent as the bearer, whenever the relay is
    not used. *)
Theorem validate_config_guarantees (github_token : option string) (cfg : Config.t) :
  validate_config github_token cfg = Ok true ->
  (exists secret,
     GITHUB_WEBHOOK_SECRET cfg = Some secret /\ secret <> EmptyString
     /\ forall data signature,
          GitHubHandler.verify_webhook_signature cfg data signature
          = GitHubHandler.compare_digest (GitHubHandler.expected_signature secret data)
              signature)
  /\ (forall W self,
        AIProcessor.client self = None ->
        GROQ_API_KEY cfg <> Some "your_groq_api_key_here" ->
        AIProcessor._get_client cfg W self = (self, Raise ValueError) ->
        exists key,
          GROQ_API_KEY cfg = Some key /\ groq_new W key false = Some ValueError)
  /\ (USE_PIPEDREAM cfg = false ->
      exists token,
        LINKEDIN_ACCESS_TOKEN cfg = Some token /\ token <> EmptyString
        /\ LinkedInPoster.bearer (LinkedInPoster.init cfg) = "Bearer " +:+ token).
Proof.
  intros Hv. destruct (validate_config_inv github_token cfg Hv) as (_ & Hs & Hk & Hl).
  split; [|split].
  - unfold GitHubHandler.verify_webhook_signature.
    destruct (GITHUB_WEBHOOK_SECRET cfg) as [[|c secret]|]; try discriminate.
    exists (String c secret). split; [reflexivity|]. split; [discriminate|]. reflexivity.
  - intros W self Hc Hp. unfold AIProcessor._get_client. rewrite Hc.
    destruct (GROQ_API_KEY cfg) as [[|c key]|]; try discriminate.
    destruct (String.eqb (String c key) "your_groq_api_key_here") eqn:E.
    { apply String.eqb_eq in E. congruence. }
    destruct (groq_new W (String c key) false) as [e|] eqn:G1; [|discriminate].
    exists (String c key). split; [reflexivity|].
    destruct (httpx_has_Client W); [destruct (groq_new W (String c key) true)|];
      congruence.
  - intros Hu. specialize (Hl Hu).
    destruct (LINKEDIN_ACCESS_TOKEN cfg) as [[|c token]|] eqn:E; try discriminate.
    exists (String c token). split; [reflexivity|]. split; [discriminate|].
    unfold LinkedInPoster.bearer, LinkedInPoster.init. cbn. now rewrite E.
Qed.

Lemma validate_config_guarantees_witness :
  exists secret,
    GITHUB_WEBHOOK_SECRET (Scenario.cfg false) = Some secret /\ secret <> EmptyString
    /\ forall data signature,
         GitHubHandler.verify_webhook_signature (Scenario.cfg false) data signature
         = GitHubHandler.compare_digest (GitHubHandler.expected_signature secret data)
             signature.
Proof.
  exact (proj1 (validate_config_guarantees (Some "ghp_token") (Scenario.cfg false)
                  eq_refl)).
Defined.

(** A configuration without the webhook secret is refused. *)
Example validate_config_refuses :
  validate_config (Some "ghp_token")
    {| GITHUB_WEBHOOK_SECRET := None; LINKEDIN_ACCESS_TOKEN := Some "token";
       GROQ_API_KEY := Some "gsk_key"; REQUIRE_POST_REVIEW := true;
       PIPEDREAM_WEBHOOK_URL := None |}
  = Raise ValueError.
Proof. reflexivity. Qed.

End ConfigSpec.
